(** * Landmark processing pipeline: Densifier, Stabilizer, Wave Engine

    A shallow embedding of the three processing stages of the tracker
    (densification, temporal stabilization, wave propagation) and the
    properties the specification states about them.

    Numbers.  JavaScript numbers are modelled by the real numbers [R]:
    arithmetic is exact, there is no NaN and no rounding.  A field that
    may hold [null] or [undefined] is an [option]; the idioms [v || d]
    and the coercion of [null] to [0] in arithmetic are written out in
    module [Js].  [Math.max], [Math.abs], [Math.sqrt] and [Math.PI] are
    [Rmax], [Rabs], [sqrt] and [PI].

    Exceptions.  Reading a property of [undefined] or [null] raises a
    [TypeError]; functions that can do so return a [Js.Result]. *)

From Stdlib Require Import Reals Lra Lia.
From stdpp Require Import gmap strings list pretty.

(* ================================================================== *)
(** * JavaScript idioms *)
(* ================================================================== *)

Module Js.

(** The outcome of a call that may throw. *)
Inductive Result (A : Type) : Type :=
| Ok (a : A)
| TypeError.
Arguments Ok {A} a.
Arguments TypeError {A}.

Definition bind {A B : Type} (r : Result A) (k : A -> Result B) : Result B :=
  match r with
  | Ok a => k a
  | TypeError => TypeError
  end.

(** [v || d] on a number-valued field: [undefined], [null] and [0] are
    falsy and yield [d]. *)
Definition num_or (v : option R) (d : R) : R :=
  match v with
  | Some r => if Req_dec_T r 0 then d else r
  | None => d
  end.

(** [null] used as an operand of [+ - * /] is coerced to [0]. *)
Definition to_number (v : option R) : R :=
  match v with
  | Some r => r
  | None => 0%R
  end.

(** Truthiness of an optional boolean flag such as [point.interpolated]. *)
Definition truthy (v : option bool) : bool :=
  match v with
  | Some b => b
  | None => false
  end.

(** [isSome v] is the truthiness of an object-or-null reference. *)
Definition isSome {A : Type} (v : option A) : bool :=
  match v with
  | Some _ => true
  | None => false
  end.

End Js.

(** Sequencing of calls that may throw, in stdpp's monadic notation
    [x ← r; k]. *)
#[export] Instance result_ret : MRet Js.Result := fun A a => Js.Ok a.
#[export] Instance result_bind : MBind Js.Result :=
  fun A B k r => Js.bind r k.

(* ================================================================== *)
(** * Points *)
(* ================================================================== *)

(** A detector category [{categoryName, score}]: an expression score
    (blendshape) or the handedness of a hand. *)
Module Category.

Record t : Type := mk {
  categoryName : string;
  score : R
}.

End Category.

(** A landmark object as it travels through the pipeline.  The detector
    supplies [x], [y], [z], [visibility]; the Densifier adds the remaining
    (optional) properties. *)
Module Point.

Record t : Type := mk {
  x : R;
  y : R;
  z : option R;
  visibility : option R;
  originalIndex : option nat;
  region : option string;
  interpolated : option bool;
  handIndex : option nat;
  surfaceU : option R;
  surfaceV : option R;
  depthLayer : option nat
}.

(** A detector landmark [{x, y, z, visibility}]. *)
Definition raw (x y : R) (z visibility : option R) : t :=
  mk x y z visibility None None None None None None None.

Definition with_region (r : string) (p : t) : t :=
  mk (x p) (y p) (z p) (visibility p) (originalIndex p) (Some r)
     (interpolated p) (handIndex p) (surfaceU p) (surfaceV p) (depthLayer p).

Definition with_handIndex (h : nat) (p : t) : t :=
  mk (x p) (y p) (z p) (visibility p) (originalIndex p) (region p)
     (interpolated p) (Some h) (surfaceU p) (surfaceV p) (depthLayer p).

Definition with_originalIndex (i : nat) (p : t) : t :=
  mk (x p) (y p) (z p) (visibility p) (Some i) (region p)
     (interpolated p) (handIndex p) (surfaceU p) (surfaceV p) (depthLayer p).

Definition with_interpolated (b : bool) (p : t) : t :=
  mk (x p) (y p) (z p) (visibility p) (originalIndex p) (region p)
     (Some b) (handIndex p) (surfaceU p) (surfaceV p) (depthLayer p).

Definition with_surfaceUV (u v : R) (p : t) : t :=
  mk (x p) (y p) (z p) (visibility p) (originalIndex p) (region p)
     (interpolated p) (handIndex p) (Some u) (Some v) (depthLayer p).

Definition with_xyz (x' y' : R) (z' : option R) (p : t) : t :=
  mk x' y' z' (visibility p) (originalIndex p) (region p)
     (interpolated p) (handIndex p) (surfaceU p) (surfaceV p) (depthLayer p).

End Point.

(* ================================================================== *)
(** * Stabilizer: the adaptive low-pass stage *)
(* ================================================================== *)

Module OneEuroFilter.
Local Open Scope R_scope.

Record t : Type := mk {
  minCutoff : R;
  beta : R;
  dCutoff : R;
  xPrev : option R;
  dxPrev : option R;
  tPrev : option R
}.

(** [constructor(minCutoff, beta, dCutoff)] *)
Definition new (minCutoff beta dCutoff : R) : t :=
  mk minCutoff beta dCutoff None None None.

Definition lowPass (x xPrev alpha : R) : R :=
  alpha * x + (1 - alpha) * xPrev.

Definition alpha (cutoff dt : R) : R :=
  let tau := 1 / (2 * PI * cutoff) in
  1 / (1 + tau / dt).

(** [filter(x, timestamp)]: the updated filter and the returned value. *)
Definition filter (f : t) (x timestamp : R) : t * R :=
  match tPrev f with
  | None =>
      (mk (minCutoff f) (beta f) (dCutoff f) (Some x) (Some 0) (Some timestamp), x)
  | Some tprev =>
      let dt := Rmax ((timestamp - tprev) / 1000) 0.001 in
      let dx := (x - Js.to_number (xPrev f)) / dt in
      let alphaDx := alpha (dCutoff f) dt in
      let dxFiltered := lowPass dx (Js.to_number (dxPrev f)) alphaDx in
      let cutoff := minCutoff f + beta f * Rabs dxFiltered in
      let alphaX := alpha cutoff dt in
      let xFiltered := lowPass x (Js.to_number (xPrev f)) alphaX in
      (mk (minCutoff f) (beta f) (dCutoff f)
          (Some xFiltered) (Some dxFiltered) (Some timestamp),
       xFiltered)
  end.

Definition reset (f : t) : t :=
  mk (minCutoff f) (beta f) (dCutoff f) None None None.

End OneEuroFilter.

(* ================================================================== *)
(** * Stabilizer: the predictive stage *)
(* ================================================================== *)

Module KalmanFilter1D.
Local Open Scope R_scope.

(** The fields [Q] and [R] of the source are [Qn] and [Rn] here. *)
Record t : Type := mk {
  Qn : R;
  Rn : R;
  x : option R;
  P : R;
  K : R;
  velocity : R;
  lastTimestamp : option R
}.

(** [constructor(processNoise, measurementNoise)] *)
Definition new (processNoise measurementNoise : R) : t :=
  mk processNoise measurementNoise None 1 0 0 None.

(** [update(measurement, timestamp)] *)
Definition update (k : t) (measurement timestamp : R) : t * R :=
  match x k with
  | None =>
      (mk (Qn k) (Rn k) (Some measurement) (P k) (K k) (velocity k)
          (Some timestamp),
       measurement)
  | Some x0 =>
      let dt := Rmax ((timestamp - Js.to_number (lastTimestamp k)) / 1000) 0.001 in
      let xPredicted := x0 + velocity k * dt in
      let pPredicted := P k + Qn k in
      let K' := pPredicted / (pPredicted + Rn k) in
      let x' := xPredicted + K' * (measurement - xPredicted) in
      let P' := (1 - K') * pPredicted in
      let velocity' := (x' - xPredicted) / dt * 0.5 + velocity k * 0.5 in
      (mk (Qn k) (Rn k) (Some x') P' K' velocity' (Some timestamp), x')
  end.

(** [predict(timestamp)]: no field is written. *)
Definition predict (k : t) (timestamp : R) : option R :=
  match x k with
  | None => None
  | Some x0 =>
      let dt := Rmax ((timestamp - Js.to_number (lastTimestamp k)) / 1000) 0.001 in
      Some (x0 + velocity k * dt)
  end.

(** [reset()] leaves the gain [K] as it is. *)
Definition reset (k : t) : t :=
  mk (Qn k) (Rn k) None 1 (K k) 0 None.

End KalmanFilter1D.

(* ================================================================== *)
(** * Stabilizer: one filter per landmark *)
(* ================================================================== *)

(** The object a [Point3DFilter] returns: [{x, y, z, visibility,
    predicted}].  A coordinate is [null] when [KalmanFilter1D.predict]
    returns [null]. *)
Module Filtered.

Record t : Type := mk {
  x : option R;
  y : option R;
  z : option R;
  visibility : R;
  predicted : bool
}.

End Filtered.

(** The configuration object [Stabilizer] keeps and hands to every
    [Point3DFilter] it creates. *)
Module Config.

Record t : Type := mk {
  minCutoff : R;
  beta : R;
  dCutoff : R;
  processNoise : R;
  measurementNoise : R;
  useKalman : bool
}.

End Config.

Module Point3DFilter.
Local Open Scope R_scope.

Record t : Type := mk {
  euroX : OneEuroFilter.t;
  euroY : OneEuroFilter.t;
  euroZ : OneEuroFilter.t;
  kalmanX : KalmanFilter1D.t;
  kalmanY : KalmanFilter1D.t;
  kalmanZ : KalmanFilter1D.t;
  useKalman : bool;
  lastPoint : option Filtered.t;
  isOccluded : bool;
  occlusionFrames : nat
}.

(** [constructor(config)].  Every property of the configuration the
    Stabilizer passes is defined, so the destructuring defaults of the
    source never apply. *)
Definition new (config : Config.t) : t :=
  let e := OneEuroFilter.new (Config.minCutoff config) (Config.beta config)
                             (Config.dCutoff config) in
  let k := KalmanFilter1D.new (Config.processNoise config)
                              (Config.measurementNoise config) in
  mk e e e k k k (Config.useKalman config) None false 0.

Definition reset (f : t) : t :=
  mk (OneEuroFilter.reset (euroX f)) (OneEuroFilter.reset (euroY f))
     (OneEuroFilter.reset (euroZ f))
     (KalmanFilter1D.reset (kalmanX f)) (KalmanFilter1D.reset (kalmanY f))
     (KalmanFilter1D.reset (kalmanZ f))
     (useKalman f) None (isOccluded f) 0.

(** [this.occlusionFrames++] *)
Definition incr_occlusion (f : t) : t :=
  mk (euroX f) (euroY f) (euroZ f) (kalmanX f) (kalmanY f) (kalmanZ f)
     (useKalman f) (lastPoint f) (isOccluded f) (S (occlusionFrames f)).

(** [filter(point, timestamp)]: the updated filter and the returned
    object ([None] for [null]). *)
Definition filter (f : t) (point : option Point.t) (timestamp : R)
  : t * option Filtered.t :=
  match point with
  | None =>
      let f1 := incr_occlusion f in
      if (10 <? occlusionFrames f1)%nat then (reset f1, None)
      else if useKalman f1 && Js.isSome (lastPoint f1) then
        (f1, Some (Filtered.mk (KalmanFilter1D.predict (kalmanX f1) timestamp)
                               (KalmanFilter1D.predict (kalmanY f1) timestamp)
                               (KalmanFilter1D.predict (kalmanZ f1) timestamp)
                               0.3 true))
      else (f1, lastPoint f1)
  | Some p =>
      let '(ex, x) := OneEuroFilter.filter (euroX f) (Point.x p) timestamp in
      let '(ey, y) := OneEuroFilter.filter (euroY f) (Point.y p) timestamp in
      let '(ez, z) :=
        OneEuroFilter.filter (euroZ f) (Js.num_or (Point.z p) 0) timestamp in
      let '(kx, ky, kz, x, y, z) :=
        if useKalman f then
          let '(kx, x) := KalmanFilter1D.update (kalmanX f) x timestamp in
          let '(ky, y) := KalmanFilter1D.update (kalmanY f) y timestamp in
          let '(kz, z) := KalmanFilter1D.update (kalmanZ f) z timestamp in
          (kx, ky, kz, x, y, z)
        else (kalmanX f, kalmanY f, kalmanZ f, x, y, z) in
      let last :=
        Filtered.mk (Some x) (Some y) (Some z)
                    (Js.num_or (Point.visibility p) 1) false in
      (mk ex ey ez kx ky kz (useKalman f) (Some last) (isOccluded f) 0,
       Some last)
  end.

End Point3DFilter.

(* ================================================================== *)
(** * Stabilizer: the filter banks *)
(* ================================================================== *)

(** An element of the array [stabilizePoints] returns:
    [{...point, x, y, z, visibility, stabilized: true}].  [source] holds
    the properties copied from [point]; the four overwritten ones are
    kept next to it. *)
Module Stabilized.

Record t : Type := mk {
  source : Point.t;
  x : option R;
  y : option R;
  z : option R;
  visibility : R;
  stabilized : bool
}.

End Stabilized.

Module Stabilizer.
Local Open Scope R_scope.

(** The object passed to [new Stabilizer(config)]; a missing property
    is [None]. *)
Record Options : Type := mkOptions {
  opt_minCutoff : option R;
  opt_beta : option R;
  opt_dCutoff : option R;
  opt_processNoise : option R;
  opt_measurementNoise : option R;
  opt_useKalman : option bool
}.

Definition noOptions : Options :=
  mkOptions None None None None None None.

(** The Stabilizer: its configuration and the three filter banks
    ([motionHistory] is never read and left out). *)
Record t : Type := mk {
  config : Config.t;
  faceFilters : gmap string Point3DFilter.t;
  bodyFilters : gmap string Point3DFilter.t;
  handFilters : gmap string Point3DFilter.t
}.

(** [constructor(config)]; [config.useKalman !== false] is [true]
    unless the property is the boolean [false]. *)
Definition new (o : Options) : t :=
  mk (Config.mk (Js.num_or (opt_minCutoff o) 0.8)
                (Js.num_or (opt_beta o) 0.005)
                (Js.num_or (opt_dCutoff o) 1.0)
                (Js.num_or (opt_processNoise o) 0.005)
                (Js.num_or (opt_measurementNoise o) 0.05)
                (match opt_useKalman o with Some false => false | _ => true end))
     ∅ ∅ ∅.

(** [getFilter(filterMap, id)]: the map after the call and the filter. *)
Definition getFilter (cfg : Config.t) (filterMap : gmap string Point3DFilter.t)
    (id : string) : gmap string Point3DFilter.t * Point3DFilter.t :=
  match filterMap !! id with
  | Some f => (filterMap, f)
  | None =>
      let f := Point3DFilter.new cfg in
      (<[id := f]> filterMap, f)
  end.

(** [prefix + (point.originalIndex !== undefined ? point.originalIndex : i)] *)
Definition pointId (prefix : string) (point : Point.t) (i : nat) : string :=
  prefix +:+ pretty (match Point.originalIndex point with
                     | Some k => k
                     | None => i
                     end).

(** The loop of [stabilizePoints] from index [i] on; [rest] are the
    elements [points[i]], [points[i+1]], ...  A [null] or [undefined]
    element makes [point.originalIndex] throw.  The filter object in
    the map is updated in place by [filter.filter]. *)
Fixpoint stabilizeFrom (cfg : Config.t) (prefix : string) (timestamp : R)
    (i : nat) (rest : list (option Point.t))
    (filterMap : gmap string Point3DFilter.t)
  : Js.Result (gmap string Point3DFilter.t * list Stabilized.t) :=
  match rest with
  | [] => Js.Ok (filterMap, [])
  | None :: _ => Js.TypeError
  | Some point :: rest' =>
      let id := pointId prefix point i in
      let '(filterMap1, f) := getFilter cfg filterMap id in
      let '(f', filtered) := Point3DFilter.filter f (Some point) timestamp in
      let filterMap2 := <[id := f']> filterMap1 in
      '(filterMap3, stabilized) ←
        stabilizeFrom cfg prefix timestamp (S i) rest' filterMap2;
      Js.Ok (filterMap3,
             match filtered with
             | Some q =>
                 Stabilized.mk point (Filtered.x q) (Filtered.y q)
                               (Filtered.z q) (Filtered.visibility q) true
                 :: stabilized
             | None => stabilized
             end)
  end.

(** [stabilizePoints(points, filterMap, timestamp, prefix)] *)
Definition stabilizePoints (cfg : Config.t) (points : option (list (option Point.t)))
    (filterMap : gmap string Point3DFilter.t) (timestamp : R) (prefix : string)
  : Js.Result (gmap string Point3DFilter.t * list Stabilized.t) :=
  match points with
  | None => Js.Ok (filterMap, [])
  | Some ps => stabilizeFrom cfg prefix timestamp 0 ps filterMap
  end.

(** A point group [{ points, count }] of the dense frame. *)
Record Group : Type := mkGroup {
  points : option (list (option Point.t));
  count : option nat
}.

(** The frame [stabilize] receives. *)
Record DenseData : Type := mkDense {
  face : option Group;
  body : option Group;
  hands : option Group;
  blendshapes : option (list Category.t);
  timestamp : option R;
  fps : option R
}.

Record StableGroup : Type := mkStableGroup {
  stable_points : list Stabilized.t;
  stable_count : nat
}.

(** The frame [stabilize] returns. *)
Record StabilizedData : Type := mkStable {
  stable_face : StableGroup;
  stable_body : StableGroup;
  stable_hands : StableGroup;
  stable_blendshapes : option (list Category.t);
  stable_timestamp : R;
  stable_fps : option R;
  totalPoints : nat
}.

(** One of the three blocks [if (denseData.g && denseData.g.points)
    { ... }] of [stabilize]; without the group the initial
    [{ points: [], count: 0 }] stays. *)
Definition stabilizeGroup (cfg : Config.t) (group : option Group)
    (filterMap : gmap string Point3DFilter.t) (timestamp : R) (prefix : string)
  : Js.Result (gmap string Point3DFilter.t * StableGroup) :=
  match group with
  | Some g =>
      match points g with
      | Some ps =>
          '(filterMap', stabilized) ←
            stabilizePoints cfg (Some ps) filterMap timestamp prefix;
          Js.Ok (filterMap', mkStableGroup stabilized (length stabilized))
      | None => Js.Ok (filterMap, mkStableGroup [] 0)
      end
  | None => Js.Ok (filterMap, mkStableGroup [] 0)
  end.

(** [stabilize(denseData)]; [now] is the value of [performance.now()],
    read when the frame has no (or a zero) timestamp.  [None] is the
    returned [null]. *)
Definition stabilize (s : t) (denseData : option DenseData) (now : R)
  : Js.Result (t * option StabilizedData) :=
  match denseData with
  | None => Js.Ok (s, None)
  | Some d =>
      let timestamp' := Js.num_or (timestamp d) now in
      '(faceFilters', f) ←
        stabilizeGroup (config s) (face d) (faceFilters s) timestamp' "face_";
      '(bodyFilters', b) ←
        stabilizeGroup (config s) (body d) (bodyFilters s) timestamp' "body_";
      '(handFilters', h) ←
        stabilizeGroup (config s) (hands d) (handFilters s) timestamp' "hand_";
      Js.Ok (mk (config s) faceFilters' bodyFilters' handFilters',
             Some (mkStable f b h (blendshapes d) timestamp' (fps d)
                            (stable_count f + stable_count b + stable_count h)%nat))
  end.

(** [calculateMotion(current, previous)]: the loop runs over the first
    [Math.min(current.length, previous.length)] index pairs, which [zip]
    lists in order. *)
Definition calculateMotion (current previous : option (list Point.t)) : R :=
  match current, previous with
  | Some current, Some previous =>
      let count := Nat.min (length current) (length previous) in
      let totalMotion :=
        fold_left
          (fun totalMotion '(c, p) =>
             let dx := Point.x c - Point.x p in
             let dy := Point.y c - Point.y p in
             totalMotion + sqrt (dx * dx + dy * dy))
          (zip current previous) 0 in
      if (0 <? count)%nat then totalMotion / INR count else 0
  | _, _ => 0
  end.

(** [getStats()] *)
Record Stats : Type := mkStats {
  stat_faceFilters : nat;
  stat_bodyFilters : nat;
  stat_handFilters : nat;
  stat_totalFilters : nat
}.

Definition getStats (s : t) : Stats :=
  mkStats (size (faceFilters s)) (size (bodyFilters s)) (size (handFilters s))
          (size (faceFilters s) + size (bodyFilters s) + size (handFilters s)).

(** [reset()] *)
Definition reset (s : t) : t :=
  mk (config s) ∅ ∅ ∅.

End Stabilizer.

(* ================================================================== *)
(** * Densifier *)
(* ================================================================== *)

Module Densifier.

(** [{ points, count }] *)
Record Group : Type := mkGroup {
  points : list Point.t;
  count : nat
}.

Record BodyConnections : Type := mkBody {
  spine : list (nat * nat);
  leftArm : list (nat * nat);
  rightArm : list (nat * nat);
  leftLeg : list (nat * nat);
  rightLeg : list (nat * nat);
  torso : list nat
}.

Record FaceRegions : Type := mkFace {
  leftEye : list nat;
  rightEye : list nat;
  leftEyebrow : list nat;
  rightEyebrow : list nat;
  lipsOuter : list nat;
  lipsInner : list nat;
  faceOval : list nat;
  noseBridge : list nat;
  noseBottom : list nat;
  forehead : list nat;
  leftCheek : list nat;
  rightCheek : list nat;
  leftIris : list nat;
  rightIris : list nat
}.

Definition defineBodyConnections : BodyConnections :=
  mkBody [(11, 12); (23, 24)]
         [(11, 13); (13, 15)]
         [(12, 14); (14, 16)]
         [(23, 25); (25, 27); (27, 31)]
         [(24, 26); (26, 28); (28, 32)]
         [11; 12; 24; 23].

Definition defineFaceRegions : FaceRegions :=
  mkFace
    [33; 246; 161; 160; 159; 158; 157; 173; 133; 155; 154; 153; 145; 144; 163; 7]
    [362; 398; 384; 385; 386; 387; 388; 466; 263; 249; 390; 373; 374; 380; 381; 382]
    [70; 63; 105; 66; 107; 55; 65; 52; 53; 46]
    [300; 293; 334; 296; 336; 285; 295; 282; 283; 276]
    [61; 146; 91; 181; 84; 17; 314; 405; 321; 375; 291; 409; 270; 269; 267; 0;
     37; 39; 40; 185]
    [78; 95; 88; 178; 87; 14; 317; 402; 318; 324; 308; 415; 310; 311; 312; 13;
     82; 81; 80; 191]
    [10; 338; 297; 332; 284; 251; 389; 356; 454; 323; 361; 288; 397; 365; 379;
     378; 400; 377; 152; 148; 176; 149; 150; 136; 172; 58; 132; 93; 234; 127;
     162; 21; 54; 103; 67; 109]
    [6; 197; 195; 5; 4; 1]
    [98; 240; 64; 48; 115; 220; 45; 4; 275; 440; 344; 278; 294; 460; 327]
    [10; 338; 297; 251; 21; 54; 103; 67; 109; 108; 151; 337]
    [234; 93; 132; 58; 172; 136; 150; 149; 176; 148; 152]
    [454; 323; 361; 288; 397; 365; 379; 378; 400; 377; 152]
    [468; 469; 470; 471; 472]
    [473; 474; 475; 476; 477].

(** The Densifier object: the fields its constructor sets.  No method
    assigns to them. *)
Record t : Type := mk {
  bodySubdivisions : nat;
  faceSubdivisions : nat;
  surfaceGridSize : nat;
  bodyConnections : BodyConnections;
  faceRegions : FaceRegions
}.

(** [constructor()] *)
Definition new : t :=
  mk 5 2 5 defineBodyConnections defineFaceRegions.

Local Open Scope R_scope.

(** A loop [for (a of l) { points.push(...body(a)) }]: the pushed
    points in order, or the first exception. *)
Fixpoint pushEach {A : Type} (l : list A) (body : A -> Js.Result (list Point.t))
  : Js.Result (list Point.t) :=
  match l with
  | [] => Js.Ok []
  | a :: l' =>
      pushed ← body a;
      more ← pushEach l' body;
      Js.Ok (pushed ++ more)
  end.

(** [lerp(p1, p2, t)]; an argument that is [undefined] makes the
    property read [p1.x] (or [p2.x]) throw. *)
Definition lerp (p1 p2 : option Point.t) (t : R) : Js.Result Point.t :=
  match p1, p2 with
  | Some p1, Some p2 =>
      Js.Ok (Point.mk
        (Point.x p1 + (Point.x p2 - Point.x p1) * t)
        (Point.y p1 + (Point.y p2 - Point.y p1) * t)
        (Some (Js.num_or (Point.z p1) 0
               + (Js.num_or (Point.z p2) 0 - Js.num_or (Point.z p1) 0) * t))
        (Some ((Js.num_or (Point.visibility p1) 1
                + Js.num_or (Point.visibility p2) 1) / 2))
        None None (Some true) None None None None)
  | _, _ => Js.TypeError
  end.

(** [interpolateSegment(p1, p2, subdivisions)]:
    [for (let i = 1; i < subdivisions; i++)]. *)
Definition interpolateSegment (p1 p2 : option Point.t) (subdivisions : nat)
  : Js.Result (list Point.t) :=
  pushEach (seq 1 (subdivisions - 1))
    (fun i =>
       let t := INR i / INR subdivisions in
       p ← lerp p1 p2 t;
       Js.Ok [p]).

(** [interpolateSurface(corners, gridSize)] *)
Definition interpolateSurface (corners : list (option Point.t)) (gridSize : nat)
  : Js.Result (list Point.t) :=
  pushEach (seq 0 (S gridSize))
    (fun i =>
       pushEach (seq 0 (S gridSize))
         (fun j =>
            let u := INR i / INR gridSize in
            let v := INR j / INR gridSize in
            top ← lerp (mjoin (corners !! 0%nat)) (mjoin (corners !! 1%nat)) u;
            bottom ← lerp (mjoin (corners !! 3%nat)) (mjoin (corners !! 2%nat)) u;
            point ← lerp (Some top) (Some bottom) v;
            Js.Ok [Point.with_surfaceUV u v point])).

(** [subdivideContour(landmarks, indices, subdivisions)].  For a
    missing [curr] the source pushes [{originalIndex}], an object
    without coordinates, and then calls [interpolateSegment(curr, next,
    subdivisions + 1)], which throws as soon as [subdivisions >= 1];
    the constructor fixes [subdivisions] at [2].  The model raises the
    exception at the push. *)
Definition subdivideContour (landmarks : list Point.t) (indices : list nat)
    (subdivisions : nat) : Js.Result (list Point.t) :=
  let n := length indices in
  pushEach (seq 0 n)
    (fun i =>
       let curr := landmarks !! (default 0%nat (indices !! i)) in
       let next := landmarks !! (default 0%nat (indices !! ((i + 1) mod n)%nat)) in
       original ← match curr with
                  | Some c =>
                      Js.Ok (Point.with_originalIndex (default 0%nat (indices !! i)) c)
                  | None => Js.TypeError
                  end;
       interpolated ← interpolateSegment curr next (subdivisions + 1);
       Js.Ok (original :: interpolated)).

(** [computeCentroid(landmarks, indices)] *)
Fixpoint centroidSum (landmarks : list Point.t) (indices : list nat)
    (acc : R * R * R) : Js.Result (R * R * R) :=
  match indices with
  | [] => Js.Ok acc
  | idx :: rest =>
      match landmarks !! idx with
      | None => Js.TypeError
      | Some p =>
          let '(x, y, z) := acc in
          centroidSum landmarks rest
            (x + Point.x p, y + Point.y p, z + Js.num_or (Point.z p) 0)
      end
  end.

Definition computeCentroid (landmarks : list Point.t) (indices : list nat)
  : Js.Result (R * R * R) :=
  '(x, y, z) ← centroidSum landmarks indices (0, 0, 0);
  let n := INR (length indices) in
  Js.Ok (x / n, y / n, z / n).

(** [createDepthLayers(landmarks, indices, numLayers)]; [center] is
    computed and not used. *)
Definition createDepthLayers (landmarks : list Point.t) (indices : list nat)
    (numLayers : nat) : Js.Result (list Point.t) :=
  center ← computeCentroid landmarks indices;
  pushEach (seq 0 numLayers)
    (fun layer =>
       let depthOffset := INR layer * 0.02 in
       pushEach indices
         (fun idx =>
            match landmarks !! idx with
            | None => Js.TypeError
            | Some p =>
                Js.Ok [Point.mk (Point.x p) (Point.y p)
                         (Some (Js.num_or (Point.z p) 0 - depthOffset))
                         (Some (Js.num_or (Point.visibility p) 1))
                         None None (Some (0 <? layer)%nat) None None None
                         (Some layer)]
            end)).

(** The loop [for (const [a, b] of segments)] of [densifyBody]. *)
Definition bodySegments (landmarks : list Point.t) (segments : list (nat * nat))
    (subs : nat) (region : string) : Js.Result (list Point.t) :=
  pushEach segments
    (fun '(a, b) =>
       interpolated ← interpolateSegment (landmarks !! a) (landmarks !! b) subs;
       Js.Ok (Point.with_region region <$> (interpolated : list Point.t))).

(** [{...lm, originalIndex: idx, region, interpolated: false}] *)
Definition original (region : string) (idx : nat) (lm : Point.t) : Point.t :=
  Point.with_interpolated false
    (Point.with_region region (Point.with_originalIndex idx lm)).

(** [densifyBody(poseLandmarks)] *)
Definition densifyBody (d : t) (poseLandmarks : option (list Point.t))
  : Js.Result Group :=
  match poseLandmarks with
  | None => Js.Ok (mkGroup [] 0)
  | Some lms =>
      let subs := bodySubdivisions d in
      let originals := imap (original "body") lms in
      let armSegments :=
        leftArm (bodyConnections d) ++ rightArm (bodyConnections d) in
      arms ← bodySegments lms armSegments subs "arm";
      let legSegments :=
        leftLeg (bodyConnections d) ++ rightLeg (bodyConnections d) in
      legs ← bodySegments lms legSegments subs "leg";
      let leftShoulder := lms !! 11%nat in
      let rightShoulder := lms !! 12%nat in
      let leftHip := lms !! 23%nat in
      let rightHip := lms !! 24%nat in
      neckCenter ← lerp leftShoulder rightShoulder 0.5;
      hipCenter ← lerp leftHip rightHip 0.5;
      spinePoints ← interpolateSegment (Some neckCenter) (Some hipCenter) 8;
      let torsoCorners :=
        [lms !! 11%nat; lms !! 12%nat; lms !! 24%nat; lms !! 23%nat] in
      torsoGrid ← interpolateSurface torsoCorners (surfaceGridSize d);
      let points :=
        originals ++ arms ++ legs
        ++ (Point.with_region "spine" <$> spinePoints)
        ++ (Point.with_region "torso" <$> torsoGrid) in
      Js.Ok (mkGroup points (length points))
  end.

(** [densifyFace(faceLandmarks)] *)
Definition densifyFace (d : t) (faceLandmarks : option (list Point.t))
  : Js.Result Group :=
  match faceLandmarks with
  | None => Js.Ok (mkGroup [] 0)
  | Some lms =>
      let subs := faceSubdivisions d in
      let regions := faceRegions d in
      let originals := imap (original "face") lms in
      leftEyeSubdiv ← subdivideContour lms (leftEye regions) subs;
      rightEyeSubdiv ← subdivideContour lms (rightEye regions) subs;
      leftBrowSubdiv ← subdivideContour lms (leftEyebrow regions) subs;
      rightBrowSubdiv ← subdivideContour lms (rightEyebrow regions) subs;
      outerLipsSubdiv ← subdivideContour lms (lipsOuter regions) subs;
      innerLipsSubdiv ← subdivideContour lms (lipsInner regions) subs;
      jawlineSubdiv ← subdivideContour lms (faceOval regions) subs;
      leftCheekLayers ← createDepthLayers lms (leftCheek regions) 3;
      rightCheekLayers ← createDepthLayers lms (rightCheek regions) 3;
      let points :=
        originals
        ++ (Point.with_region "leftEye" <$> leftEyeSubdiv)
        ++ (Point.with_region "rightEye" <$> rightEyeSubdiv)
        ++ (Point.with_region "leftEyebrow" <$> leftBrowSubdiv)
        ++ (Point.with_region "rightEyebrow" <$> rightBrowSubdiv)
        ++ (Point.with_region "lipsOuter" <$> outerLipsSubdiv)
        ++ (Point.with_region "lipsInner" <$> innerLipsSubdiv)
        ++ (Point.with_region "jawline" <$> jawlineSubdiv)
        ++ (Point.with_region "leftCheek" <$> leftCheekLayers)
        ++ (Point.with_region "rightCheek" <$> rightCheekLayers) in
      Js.Ok (mkGroup points (length points))
  end.

(** The [hands] property of the tracking results. *)
Record HandsData : Type := mkHands {
  hands_landmarks : option (list (list Point.t));
  handedness : option (list (list Category.t))
}.

Definition fingerConnections : list (nat * nat) :=
  [(0, 1); (1, 2); (2, 3); (3, 4);
   (0, 5); (5, 6); (6, 7); (7, 8);
   (0, 9); (9, 10); (10, 11); (11, 12);
   (0, 13); (13, 14); (14, 15); (15, 16);
   (0, 17); (17, 18); (18, 19); (19, 20)]%nat.

(** [handsData.handedness?.[handIdx]?.[0]?.categoryName || 'Unknown'];
    the empty string is falsy. *)
Definition handednessOf (handsData : HandsData) (handIdx : nat) : string :=
  let categories : option (list Category.t) :=
    match handedness handsData with
    | Some hs => hs !! handIdx
    | None => None
    end in
  match match categories with Some cs => cs !! 0%nat | None => None end with
  | Some c =>
      if decide (Category.categoryName c = "") then "Unknown"
      else Category.categoryName c
  | None => "Unknown"
  end.

(** [densifyHands(handsData)] *)
Definition densifyHands (d : t) (handsData : option HandsData) : Js.Result Group :=
  match handsData with
  | None => Js.Ok (mkGroup [] 0)
  | Some hd =>
      match hands_landmarks hd with
      | None => Js.Ok (mkGroup [] 0)
      | Some hands =>
          let subs := 3%nat in
          points ←
            pushEach (imap (λ handIdx handLandmarks, (handIdx, handLandmarks)) hands)
              (fun '(handIdx, handLandmarks) =>
                 let region := "hand_" +:+ handednessOf hd handIdx in
                 let originals :=
                   imap (fun idx lm =>
                           Point.with_handIndex handIdx (original region idx lm))
                        handLandmarks in
                 fingers ←
                   pushEach fingerConnections
                     (fun '(a, b) =>
                        interpolated ←
                          interpolateSegment (handLandmarks !! a)
                                             (handLandmarks !! b) subs;
                        Js.Ok ((λ p, Point.with_handIndex handIdx
                                       (Point.with_region region p))
                               <$> (interpolated : list Point.t)));
                 Js.Ok (originals ++ fingers));
          Js.Ok (mkGroup points (length points))
      end
  end.

(** The detector's result for one frame. *)
Record Landmarks : Type := mkLandmarks {
  landmarks : option (list Point.t);
  blendshapes : option (list Category.t)
}.

Record TrackingResults : Type := mkTracking {
  face : option Landmarks;
  pose : option Landmarks;
  hands : option HandsData;
  timestamp : option R;
  fps : option R
}.

Record DenseData : Type := mkDense {
  dense_face : Group;
  dense_body : Group;
  dense_hands : Group;
  dense_blendshapes : list Category.t;
  dense_timestamp : option R;
  dense_fps : option R;
  totalPoints : nat
}.

(** [densify(trackingResults)]; [None] is the returned [null]. *)
Definition densify (d : t) (trackingResults : option TrackingResults)
  : Js.Result (option DenseData) :=
  match trackingResults with
  | None => Js.Ok None
  | Some tr =>
      f ← densifyFace d (match face tr with Some r => landmarks r | None => None end);
      b ← densifyBody d (match pose tr with Some r => landmarks r | None => None end);
      h ← densifyHands d (hands tr);
      Js.Ok (Some (mkDense f b h
                     (default [] (match face tr with
                                  | Some r => blendshapes r
                                  | None => None
                                  end))
                     (timestamp tr) (fps tr)
                     (count f + count b + count h)%nat))
  end.

End Densifier.

(* ================================================================== *)
(** * Wave Motion Engine *)
(* ================================================================== *)

(** A JavaScript [Map] with number keys: entries in insertion order.
    [set] on a present key replaces the value in place, on a new key it
    appends; [forEach] visits the entries in list order. *)
Module JsMap.

Fixpoint get {V : Type} (k : nat) (m : list (nat * V)) : option V :=
  match m with
  | [] => None
  | (k', v) :: m' => if decide (k = k') then Some v else get k m'
  end.

Fixpoint set {V : Type} (k : nat) (v : V) (m : list (nat * V)) : list (nat * V) :=
  match m with
  | [] => [(k, v)]
  | (k', v') :: m' =>
      if decide (k = k') then (k, v) :: m' else (k', v') :: set k v m'
  end.

End JsMap.

Module Velocity.

Record t : Type := mk {
  vx : R;
  vy : R;
  vz : R
}.

Definition zero : t := mk 0 0 0.

End Velocity.

(** The object [{fx, fy, fz}] that [applySpringForce] returns. *)
Module Force.

Record t : Type := mk {
  fx : R;
  fy : R;
  fz : R
}.

End Force.

Module WaveMotionEngine.

(** One value of the object [defineBodyNetwork] returns: an array
    ([core]) or an object from landmark index to neighbour indices. *)
Inductive Segment : Type :=
| ArraySegment (indices : list nat)
| ObjectSegment (entries : list (nat * list nat)).

(** [defineBodyNetwork()]: the values in property order. *)
Definition defineBodyNetwork : list (string * Segment) :=
  [ ("core", ArraySegment [11; 12; 23; 24]);
    ("spine", ObjectSegment [(11, [12; 23]); (12, [11; 24]);
                             (23, [11; 24; 25]); (24, [12; 23; 26])]);
    ("leftArm", ObjectSegment [(11, [13]); (13, [11; 15]); (15, [13])]);
    ("rightArm", ObjectSegment [(12, [14]); (14, [12; 16]); (16, [14])]);
    ("leftLeg", ObjectSegment [(23, [25]); (25, [23; 27]); (27, [25])]);
    ("rightLeg", ObjectSegment [(24, [26]); (26, [24; 28]); (28, [26])]) ].

Local Open Scope R_scope.

(** The object passed to [new WaveMotionEngine(config)]. *)
Record Options : Type := mkOptions {
  opt_stiffness : option R;
  opt_damping : option R;
  opt_propagationSpeed : option R;
  opt_waveDecay : option R;
  opt_physicsSteps : option R
}.

Definition noOptions : Options := mkOptions None None None None None.

Record Config : Type := mkConfig {
  stiffness : R;
  damping : R;
  propagationSpeed : R;
  waveDecay : R;
  physicsSteps : R
}.

(** A point group [{ points, count }] of the stabilized frame. *)
Record Group : Type := mkGroup {
  points : option (list Point.t);
  count : option nat
}.

(** The frame [process] receives and keeps as [previousData]. *)
Record StabilizedData : Type := mkData {
  face : option Group;
  body : option Group;
  hands : option Group;
  blendshapes : option (list Category.t);
  timestamp : option R;
  fps : option R;
  totalPoints : option nat
}.

(** The engine: the fields the body pass reads or writes
    ([faceConnections] and [activeWaves] are left out). *)
Record t : Type := mk {
  config : Config;
  previousData : option StabilizedData;
  velocities : gmap string Velocity.t;
  bodyConnections : list (string * Segment)
}.

(** [constructor(config)] *)
Definition new (o : Options) : t :=
  mk (mkConfig (Js.num_or (opt_stiffness o) 0.3)
               (Js.num_or (opt_damping o) 0.85)
               (Js.num_or (opt_propagationSpeed o) 0.15)
               (Js.num_or (opt_waveDecay o) 0.92)
               (Js.num_or (opt_physicsSteps o) 2))
     None ∅ defineBodyNetwork.

(** [calculateVelocity(current, previous, dt)] *)
Definition calculateVelocity (current : Point.t) (previous : option Point.t)
    (dt : R) : Velocity.t :=
  match previous with
  | None => Velocity.mk 0 0 0
  | Some previous =>
      Velocity.mk
        ((Point.x current - Point.x previous) / dt)
        ((Point.y current - Point.y previous) / dt)
        ((Js.num_or (Point.z current) 0 - Js.num_or (Point.z previous) 0) / dt)
  end.

(** [getVelocityMagnitude(v)] *)
Definition getVelocityMagnitude (v : Velocity.t) : R :=
  sqrt (Velocity.vx v * Velocity.vx v + Velocity.vy v * Velocity.vy v
        + Velocity.vz v * Velocity.vz v).

(** The inner loop of [propagateMotion]:
    [for (const neighborIdx of neighbors)]. *)
Fixpoint propagateTo (velocity : Velocity.t) (propagationFactor : R)
    (neighbors : list nat) (propagatedVelocities : list (nat * Velocity.t))
  : list (nat * Velocity.t) :=
  match neighbors with
  | [] => propagatedVelocities
  | neighborIdx :: rest =>
      let currentNeighborV :=
        default (Velocity.mk 0 0 0) (JsMap.get neighborIdx propagatedVelocities) in
      propagateTo velocity propagationFactor rest
        (JsMap.set neighborIdx
           (Velocity.mk
              (Velocity.vx currentNeighborV + Velocity.vx velocity * propagationFactor)
              (Velocity.vy currentNeighborV + Velocity.vy velocity * propagationFactor)
              (Velocity.vz currentNeighborV + Velocity.vz velocity * propagationFactor))
           propagatedVelocities)
  end.

(** The callback of [velocities.forEach] in [propagateMotion], run on
    the entries [entries] that are still to be visited. *)
Fixpoint propagateEntries (entries : list (nat * Velocity.t))
    (connections : gmap nat (list nat)) (propagationFactor : R)
    (propagatedVelocities : list (nat * Velocity.t))
  : list (nat * Velocity.t) :=
  match entries with
  | [] => propagatedVelocities
  | (idx, velocity) :: rest =>
      propagateEntries rest connections propagationFactor
        (match connections !! idx with
         | None => propagatedVelocities
         | Some neighbors =>
             if Rlt_dec (getVelocityMagnitude velocity) 0.001
             then propagatedVelocities
             else propagateTo velocity propagationFactor neighbors
                              propagatedVelocities
         end)
  end.

(** [propagateMotion(points, velocities, connections, propagationFactor)];
    [points] is not read. *)
Definition propagateMotion (points : list Point.t)
    (velocities : list (nat * Velocity.t)) (connections : gmap nat (list nat))
    (propagationFactor : R) : list (nat * Velocity.t) :=
  propagateEntries velocities connections propagationFactor velocities.

(** The connection map [processBody] builds: every object-valued
    segment writes [connectionMap[idx] = neighbors], a later segment
    overwriting an earlier one. *)
Definition buildConnectionMap (network : list (string * Segment))
  : gmap nat (list nat) :=
  fold_left
    (fun connectionMap '(_, segment) =>
       match segment with
       | ArraySegment _ => connectionMap
       | ObjectSegment entries =>
           fold_left (fun cm '(idx, neighbors) => <[idx := neighbors]> cm)
                     entries connectionMap
       end)
    network ∅.

(** [this.previousData?.body?.points?.[idx]] *)
Definition previousBodyPoint (e : t) (idx : nat) : option Point.t :=
  match previousData e with
  | Some data =>
      match body data with
      | Some group =>
          match points group with
          | Some ps => ps !! idx
          | None => None
          end
      | None => None
      end
  | None => None
  end.

(** First loop of [processBody]: the [Map] of current velocities,
    visiting [rest] = points [idx], [idx+1], ... *)
Fixpoint currentVelocitiesFrom (e : t) (dt : R) (idx : nat) (rest : list Point.t)
    (currentVelocities : list (nat * Velocity.t)) : list (nat * Velocity.t) :=
  match rest with
  | [] => currentVelocities
  | point :: rest' =>
      currentVelocitiesFrom e dt (S idx) rest'
        (match Point.originalIndex point with
         | Some originalIndex =>
             let prevPoint := previousBodyPoint e idx in
             let velocity := calculateVelocity point prevPoint dt in
             JsMap.set originalIndex velocity currentVelocities
         | None => currentVelocities
         end)
  end.

Definition bodyKey (k : nat) : string := "body_" +:+ pretty k.

(** Second loop: the damped propagated velocity goes to the cache
    [this.velocities]. *)
Fixpoint storeVelocities (damping : R)
    (propagatedVelocities : list (nat * Velocity.t)) (ps : list Point.t)
    (cache : gmap string Velocity.t) : gmap string Velocity.t :=
  match ps with
  | [] => cache
  | point :: rest =>
      storeVelocities damping propagatedVelocities rest
        (match Point.originalIndex point with
         | None => cache
         | Some originalIndex =>
             match JsMap.get originalIndex propagatedVelocities with
             | Some velocity =>
                 if negb (Js.truthy (Point.interpolated point)) then
                   <[bodyKey originalIndex :=
                       Velocity.mk (Velocity.vx velocity * damping)
                                   (Velocity.vy velocity * damping)
                                   (Velocity.vz velocity * damping)]> cache
                 else cache
             | None => cache
             end
         end)
  end.

(** Third loop: the nudge of interpolated points.  [Math.floor(idx / 5)
    * 5] is [(idx / 5) * 5] on [nat]. *)
Definition microMotion (cache : gmap string Velocity.t) (dt : R)
    (idx : nat) (point : Point.t) : Point.t :=
  if Js.truthy (Point.interpolated point) then
    match cache !! bodyKey ((idx / 5) * 5)%nat with
    | Some nearbyVelocity =>
        let microScale := 0.02 in
        Point.with_xyz
          (Point.x point + Velocity.vx nearbyVelocity * dt * microScale)
          (Point.y point + Velocity.vy nearbyVelocity * dt * microScale)
          (Some (Js.num_or (Point.z point) 0
                 + Velocity.vz nearbyVelocity * dt * microScale))
          point
    | None => point
    end
  else point.

(** [processBody(bodyPoints, dt)]: the engine after the call and the
    returned array. *)
Definition processBody (e : t) (bodyPoints : option (list Point.t)) (dt : R)
  : t * option (list Point.t) :=
  match bodyPoints with
  | None => (e, None)
  | Some [] => (e, Some [])
  | Some processed =>
      let connectionMap := buildConnectionMap (bodyConnections e) in
      let currentVelocities := currentVelocitiesFrom e dt 0 processed [] in
      let propagatedVelocities :=
        propagateMotion processed currentVelocities connectionMap
                        (propagationSpeed (config e)) in
      let cache :=
        storeVelocities (damping (config e)) propagatedVelocities processed
                        (velocities e) in
      (mk (config e) (previousData e) cache (bodyConnections e),
       Some (imap (microMotion cache dt) processed))
  end.

(** The loop of [applySpringForce]; a neighbour that is out of range
    or [null] is skipped. *)
Fixpoint springLoop (point : Point.t) (neighbors : list nat)
    (allPoints : list (option Point.t)) (stiffness : R) (f : Force.t)
  : Force.t :=
  match neighbors with
  | [] => f
  | neighborIdx :: rest =>
      springLoop point rest allPoints stiffness
        (match mjoin (allPoints !! neighborIdx) with
         | None => f
         | Some neighbor =>
             let dx := Point.x neighbor - Point.x point in
             let dy := Point.y neighbor - Point.y point in
             let dz := Js.num_or (Point.z neighbor) 0 - Js.num_or (Point.z point) 0 in
             Force.mk (Force.fx f + dx * stiffness)
                      (Force.fy f + dy * stiffness)
                      (Force.fz f + dz * stiffness)
         end)
  end.

(** [applySpringForce(point, neighbors, allPoints, stiffness)] *)
Definition applySpringForce (point : Point.t) (neighbors : option (list nat))
    (allPoints : list (option Point.t)) (stiffness : R) : Force.t :=
  match neighbors with
  | None => Force.mk 0 0 0
  | Some [] => Force.mk 0 0 0
  | Some ns => springLoop point ns allPoints stiffness (Force.mk 0 0 0)
  end.

(** The object [blendshapeMap] of [processFace]: a later score of the
    same name replaces an earlier one. *)
Definition blendshapeMapOf (blendshapes : list Category.t) : gmap string R :=
  fold_left (fun m bs => <[Category.categoryName bs := Category.score bs]> m)
            blendshapes ∅.

(** The callback of [processed.forEach] in [processFace].  The five
    tests on [point.region] run one after the other; the region is not
    assigned, so at most one of them applies. *)
Definition expressPoint (blendshapeMap : gmap string R) (point : Point.t)
  : Point.t :=
  let browUpLeft := Js.num_or (blendshapeMap !! "browOuterUpLeft") 0 in
  let browUpRight := Js.num_or (blendshapeMap !! "browOuterUpRight") 0 in
  let browDownLeft := Js.num_or (blendshapeMap !! "browDownLeft") 0 in
  let browDownRight := Js.num_or (blendshapeMap !! "browDownRight") 0 in
  let jawOpen := Js.num_or (blendshapeMap !! "jawOpen") 0 in
  let jawLeft := Js.num_or (blendshapeMap !! "jawLeft") 0 in
  let jawRight := Js.num_or (blendshapeMap !! "jawRight") 0 in
  let smileLeft := Js.num_or (blendshapeMap !! "mouthSmileLeft") 0 in
  let smileRight := Js.num_or (blendshapeMap !! "mouthSmileRight") 0 in
  match Point.region point with
  | None => point
  | Some region =>
      if decide (region = "") then point
      else
        let point :=
          if decide (region = "leftEyebrow") then
            let browInfluence := (browUpLeft - browDownLeft) * 0.02 in
            Point.with_xyz (Point.x point) (Point.y point - browInfluence)
                           (Point.z point) point
          else point in
        let point :=
          if decide (region = "rightEyebrow") then
            let browInfluence := (browUpRight - browDownRight) * 0.02 in
            Point.with_xyz (Point.x point) (Point.y point - browInfluence)
                           (Point.z point) point
          else point in
        let point :=
          if decide (region = "leftCheek") then
            Point.with_xyz (Point.x point - smileLeft * 0.005)
                           (Point.y point - smileLeft * 0.01)
                           (Point.z point) point
          else point in
        let point :=
          if decide (region = "rightCheek") then
            Point.with_xyz (Point.x point + smileRight * 0.005)
                           (Point.y point - smileRight * 0.01)
                           (Point.z point) point
          else point in
        if decide (region = "jawline") then
          Point.with_xyz (Point.x point + (jawRight - jawLeft) * 0.01)
                         (Point.y point + jawOpen * 0.02)
                         (Point.z point) point
        else point
  end.

(** [processFace(facePoints, blendshapes, dt)]: the returned array (the
    points are updated in place). *)
Definition processFace (facePoints : option (list Point.t))
    (blendshapes : option (list Category.t)) (dt : R) : option (list Point.t) :=
  match facePoints with
  | None => None
  | Some [] => Some []
  | Some processed =>
      match blendshapes with
      | None => Some processed
      | Some [] => Some processed
      | Some bs => Some (expressPoint (blendshapeMapOf bs) <$> processed)
      end
  end.

(** [this.previousData?.hands?.points?.[idx]] *)
Definition previousHandPoint (e : t) (idx : nat) : option Point.t :=
  match previousData e with
  | Some data =>
      match hands data with
      | Some group =>
          match points group with
          | Some ps => ps !! idx
          | None => None
          end
      | None => None
      end
  | None => None
  end.

(** The callback of [processed.forEach] in [processHands];
    [Math.floor(idx / 4) * 4] is [(idx / 4) * 4] on [nat].  The previous
    frame's points are other objects than the current ones. *)
Definition handMotion (e : t) (dt : R) (idx : nat) (point : Point.t) : Point.t :=
  if Js.truthy (Point.interpolated point) then
    let baseIdx := ((idx / 4) * 4)%nat in
    match previousHandPoint e baseIdx with
    | Some prevPoint =>
        let velocity := calculateVelocity point (Some prevPoint) dt in
        Point.with_xyz (Point.x point + Velocity.vx velocity * dt * 0.01)
                       (Point.y point + Velocity.vy velocity * dt * 0.01)
                       (Point.z point) point
    | None => point
    end
  else point.

(** [processHands(handPoints, dt)] *)
Definition processHands (e : t) (handPoints : option (list Point.t)) (dt : R)
  : option (list Point.t) :=
  match handPoints with
  | None => None
  | Some [] => Some []
  | Some processed => Some (imap (handMotion e dt) processed)
  end.

(** A point group of the frame [process] returns; [count] is
    [stabilizedData.g?.count || 0]. *)
Record MotionGroup : Type := mkMotionGroup {
  motion_points : option (list Point.t);
  motion_count : nat
}.

Record MotionData : Type := mkMotion {
  motion_face : MotionGroup;
  motion_body : MotionGroup;
  motion_hands : MotionGroup;
  motion_blendshapes : option (list Category.t);
  motion_timestamp : option R;
  motion_fps : option R;
  motion_totalPoints : option nat
}.

(** [stabilizedData.g?.points] and [stabilizedData.g?.count || 0] *)
Definition pointsOf (group : option Group) : option (list Point.t) :=
  match group with
  | Some g => points g
  | None => None
  end.

Definition countOf (group : option Group) : nat :=
  match group with
  | Some g => default 0%nat (count g)
  | None => 0%nat
  end.

(** The group [group] of the incoming frame once its point objects were
    updated in place to [processed]. *)
Definition updatedGroup (group : option Group) (processed : option (list Point.t))
  : option Group :=
  match group with
  | Some g => Some (mkGroup processed (count g))
  | None => None
  end.

(** [process(stabilizedData)]: the engine after the call and the
    returned frame ([None] for [null]).  The three passes update the
    point objects of [stabilizedData] in place, so the frame kept as
    [previousData] holds the processed points. *)
Definition process (e : t) (stabilizedData : option StabilizedData)
  : t * option MotionData :=
  match stabilizedData with
  | None => (e, None)
  | Some d =>
      let dt := 1 / 60 in
      let facePoints := processFace (pointsOf (face d)) (blendshapes d) dt in
      let '(e1, bodyPoints) := processBody e (pointsOf (body d)) dt in
      let handPoints := processHands e1 (pointsOf (hands d)) dt in
      (mk (config e1)
          (Some (mkData (updatedGroup (face d) facePoints)
                        (updatedGroup (body d) bodyPoints)
                        (updatedGroup (hands d) handPoints)
                        (blendshapes d) (timestamp d) (fps d) (totalPoints d)))
          (velocities e1) (bodyConnections e1),
       Some (mkMotion (mkMotionGroup facePoints (countOf (face d)))
                      (mkMotionGroup bodyPoints (countOf (body d)))
                      (mkMotionGroup handPoints (countOf (hands d)))
                      (blendshapes d) (timestamp d) (fps d) (totalPoints d)))
  end.

(** [reset()] *)
Definition reset (e : t) : t :=
  mk (config e) None ∅ (bodyConnections e).

End WaveMotionEngine.

(* ================================================================== *)
(** * Sample frames *)
(* ================================================================== *)

(** The frames of the end-to-end scenario of the specification: three
    face points at [(0.5, 0.5, 0)], then point 0 moved to [(0.6, 0.5, 0)]. *)
Module Samples.
Local Open Scope R_scope.

Definition defaultConfig : Config.t :=
  Stabilizer.config (Stabilizer.new Stabilizer.noOptions).

(** A densified face original with index [i] at [(x, 0.5, 0)],
    visibility [v]. *)
Definition facePoint (i : nat) (x v : R) : Point.t :=
  Densifier.original "face" i (Point.raw x 0.5 (Some 0) (Some v)).

Definition frame1 : list Point.t :=
  [facePoint 0 0.5 0; facePoint 1 0.5 0; facePoint 2 0.5 0].


(** The second frame with point 1 missing: as a shorter array, and as
    an array with a [null] element. *)
Definition frame2_short : list (option Point.t) :=
  [Some (facePoint 0 0.6 0)].

Definition frame2_null : list (option Point.t) :=
  [Some (facePoint 0 0.6 0); None; Some (facePoint 2 0.5 0)].

End Samples.

(* ================================================================== *)
(** * Vocabulary of the properties *)
(* ================================================================== *)

Module Props.
Local Open Scope R_scope.



(** No axis of the filter has seen a sample. *)
Definition fresh (f : Point3DFilter.t) : Prop :=
  OneEuroFilter.tPrev (Point3DFilter.euroX f) = None /\
  OneEuroFilter.tPrev (Point3DFilter.euroY f) = None /\
  OneEuroFilter.tPrev (Point3DFilter.euroZ f) = None /\
  KalmanFilter1D.x (Point3DFilter.kalmanX f) = None /\
  KalmanFilter1D.x (Point3DFilter.kalmanY f) = None /\
  KalmanFilter1D.x (Point3DFilter.kalmanZ f) = None.

(** The filter [getFilter] hands out for [id]: the one in the map, or
    a new one. *)
Definition filterOf (cfg : Config.t) (filterMap : gmap string Point3DFilter.t)
    (id : string) : Point3DFilter.t :=
  snd (Stabilizer.getFilter cfg filterMap id).

(** One axis of [Point3DFilter.filter] on a present point: the low-pass
    stage, then (when enabled) the predictive stage.  The result is the
    two updated stages and the emitted coordinate. *)
Definition axis (useKalman : bool) (e : OneEuroFilter.t) (k : KalmanFilter1D.t)
    (v timestamp : R) : OneEuroFilter.t * KalmanFilter1D.t * R :=
  let r := OneEuroFilter.filter e v timestamp in
  if useKalman then
    let r' := KalmanFilter1D.update k (snd r) timestamp in
    (fst r, fst r', snd r')
  else (fst r, k, snd r).

(** What [stabilizePoints] pushes for a present point [p] whose filter
    is [f]: [{...p, x, y, z, visibility, stabilized: true}]. *)
Definition stabilizedBy (f : Point3DFilter.t) (p : Point.t) (timestamp : R)
  : Stabilized.t :=
  let u := Point3DFilter.useKalman f in
  Stabilized.mk p
    (Some (axis u (Point3DFilter.euroX f) (Point3DFilter.kalmanX f)
                (Point.x p) timestamp).2)
    (Some (axis u (Point3DFilter.euroY f) (Point3DFilter.kalmanY f)
                (Point.y p) timestamp).2)
    (Some (axis u (Point3DFilter.euroZ f) (Point3DFilter.kalmanZ f)
                (Js.num_or (Point.z p) 0) timestamp).2)
    (Js.num_or (Point.visibility p) 1) true.

(** The filter map after one iteration of the loop of
    [stabilizePoints] on the present point [p] at index [i]. *)
Definition stepMap (cfg : Config.t) (prefix : string) (timestamp : R)
    (i : nat) (p : Point.t) (filterMap : gmap string Point3DFilter.t)
  : gmap string Point3DFilter.t :=
  let id := Stabilizer.pointId prefix p i in
  <[id := (Point3DFilter.filter (filterOf cfg filterMap id) (Some p) timestamp).1]>
    (Stabilizer.getFilter cfg filterMap id).1.

(** The filter map and the output of the loop on an array without
    holes, [ps] being the elements from index [i] on. *)
Fixpoint finalMap (cfg : Config.t) (prefix : string) (timestamp : R)
    (i : nat) (ps : list Point.t) (filterMap : gmap string Point3DFilter.t)
  : gmap string Point3DFilter.t :=
  match ps with
  | [] => filterMap
  | p :: rest =>
      finalMap cfg prefix timestamp (S i) rest
               (stepMap cfg prefix timestamp i p filterMap)
  end.

Fixpoint outputs (cfg : Config.t) (prefix : string) (timestamp : R)
    (i : nat) (ps : list Point.t) (filterMap : gmap string Point3DFilter.t)
  : list Stabilized.t :=
  match ps with
  | [] => []
  | p :: rest =>
      stabilizedBy (filterOf cfg filterMap (Stabilizer.pointId prefix p i))
                   p timestamp
      :: outputs cfg prefix timestamp (S i) rest
                 (stepMap cfg prefix timestamp i p filterMap)
  end.

(** The point [lerp] builds from two present endpoints. *)
Definition lerpPoint (p1 p2 : Point.t) (t : R) : Point.t :=
  Point.mk
    (Point.x p1 + (Point.x p2 - Point.x p1) * t)
    (Point.y p1 + (Point.y p2 - Point.y p1) * t)
    (Some (Js.num_or (Point.z p1) 0
           + (Js.num_or (Point.z p2) 0 - Js.num_or (Point.z p1) 0) * t))
    (Some ((Js.num_or (Point.visibility p1) 1
            + Js.num_or (Point.visibility p2) 1) / 2))
    None None (Some true) None None None None.


(** Densifying the pose group [lms] returns a group. *)
Definition returns_group (lms : list Point.t) : Prop :=
  exists g, Densifier.densifyBody Densifier.new (Some lms) = Js.Ok g.

(** A pose group of twenty landmarks: the indices 23 to 32 that the leg
    and torso tables refer to are missing. *)
Definition shortPose : list Point.t :=
  replicate 20 (Point.raw 0.5 0.5 (Some 0) (Some 1)).

(** A complete pose group of 33 landmarks. *)
Definition fullPose : list Point.t :=
  replicate 33 (Point.raw 0.5 0.5 (Some 0) (Some 1)).







(** A body frame of three originals, landmarks 11, 13 and 15 (left
    shoulder, elbow and wrist), and the frame before it, in which the
    elbow was elsewhere. *)
Definition armPoint (k : nat) (x : R) : Point.t :=
  Densifier.original "body" k (Point.raw x 0.5 (Some 0) (Some 1)).

Definition armFrame : list Point.t :=
  [armPoint 11 0.5; armPoint 13 0.6; armPoint 15 0.5].

Definition armFrameBefore : list Point.t :=
  [armPoint 11 0.5; armPoint 13 0.5; armPoint 15 0.5].

Definition armEngine : WaveMotionEngine.t :=
  WaveMotionEngine.mk
    (WaveMotionEngine.config (WaveMotionEngine.new WaveMotionEngine.noOptions))
    (Some (WaveMotionEngine.mkData None
             (Some (WaveMotionEngine.mkGroup (Some armFrameBefore) (Some 3%nat)))
             None None None None None))
    ∅ WaveMotionEngine.defineBodyNetwork.


(** A run of calls [filter(point, timestamp)] on one [Point3DFilter]. *)
Fixpoint filterRun (f : Point3DFilter.t) (calls : list (option Point.t * R))
  : Point3DFilter.t * list (option Filtered.t) :=
  match calls with
  | [] => (f, [])
  | (point, t) :: rest =>
      let '(f1, o) := Point3DFilter.filter f point t in
      let '(f2, os) := filterRun f1 rest in
      (f2, o :: os)
  end.

(** The filter [f] with its miss counter set to [n]. *)
Definition with_occlusionFrames (n : nat) (f : Point3DFilter.t) : Point3DFilter.t :=
  Point3DFilter.mk (Point3DFilter.euroX f) (Point3DFilter.euroY f)
    (Point3DFilter.euroZ f) (Point3DFilter.kalmanX f) (Point3DFilter.kalmanY f)
    (Point3DFilter.kalmanZ f) (Point3DFilter.useKalman f)
    (Point3DFilter.lastPoint f) (Point3DFilter.isOccluded f) n.

(** The predicted point the filter [f] returns for timestamp [t]. *)
Definition predictedAt (f : Point3DFilter.t) (t : R) : Filtered.t :=
  Filtered.mk (KalmanFilter1D.predict (Point3DFilter.kalmanX f) t)
              (KalmanFilter1D.predict (Point3DFilter.kalmanY f) t)
              (KalmanFilter1D.predict (Point3DFilter.kalmanZ f) t)
              0.3 true.

(** No axis has history and no Kalman stage has a velocity: the state
    after the constructor and after [reset()]. *)
Definition rested (f : Point3DFilter.t) : Prop :=
  fresh f /\
  KalmanFilter1D.velocity (Point3DFilter.kalmanX f) = 0 /\
  KalmanFilter1D.velocity (Point3DFilter.kalmanY f) = 0 /\
  KalmanFilter1D.velocity (Point3DFilter.kalmanZ f) = 0.

(** The three coordinates of a returned object are numbers. *)
Definition numeric (q : Filtered.t) : Prop :=
  is_Some (Filtered.x q) /\ is_Some (Filtered.y q) /\ is_Some (Filtered.z q).

(** The last point has numeric coordinates, and when the Kalman stage
    is on and there is a last point, every Kalman axis has an estimate. *)
Definition coherent (f : Point3DFilter.t) : Prop :=
  (forall q, Point3DFilter.lastPoint f = Some q -> numeric q) /\
  (Point3DFilter.useKalman f = true ->
   Point3DFilter.lastPoint f <> None ->
   is_Some (KalmanFilter1D.x (Point3DFilter.kalmanX f)) /\
   is_Some (KalmanFilter1D.x (Point3DFilter.kalmanY f)) /\
   is_Some (KalmanFilter1D.x (Point3DFilter.kalmanZ f))).

(** The object a filter returns for the present point [p] when it
    passes the raw coordinates through. *)
Definition rawPoint (p : Point.t) : Filtered.t :=
  Filtered.mk (Some (Point.x p)) (Some (Point.y p))
              (Some (Js.num_or (Point.z p) 0))
              (Js.num_or (Point.visibility p) 1) false.

(** One axis has no history, or is at rest at the value [v]. *)
Definition axisAt (u : bool) (e : OneEuroFilter.t) (k : KalmanFilter1D.t)
    (v : R) : Prop :=
  (OneEuroFilter.tPrev e = None /\ KalmanFilter1D.x k = None
   /\ KalmanFilter1D.velocity k = 0) \/
  (OneEuroFilter.tPrev e <> None /\ OneEuroFilter.xPrev e = Some v /\
   (u = true -> KalmanFilter1D.x k = Some v /\ KalmanFilter1D.velocity k = 0)).

(** Every axis of the filter has no history or is at rest at the
    coordinates of [p]. *)
Definition atRestAt (f : Point3DFilter.t) (p : Point.t) : Prop :=
  axisAt (Point3DFilter.useKalman f) (Point3DFilter.euroX f)
         (Point3DFilter.kalmanX f) (Point.x p) /\
  axisAt (Point3DFilter.useKalman f) (Point3DFilter.euroY f)
         (Point3DFilter.kalmanY f) (Point.y p) /\
  axisAt (Point3DFilter.useKalman f) (Point3DFilter.euroZ f)
         (Point3DFilter.kalmanZ f) (Js.num_or (Point.z p) 0).

(** The identifiers [stabilizePoints] computes for the points of a
    frame, [ps] being the elements from index [i] on. *)
Definition frameIds (prefix : string) (i : nat) (ps : list Point.t) : list string :=
  imap (fun j p => Stabilizer.pointId prefix p (i + j)) ps.

(** The elements of a group of the dense frame ([[]] when the group or
    its [points] are missing). *)
Definition groupPoints (group : option Stabilizer.Group) : list (option Point.t) :=
  match group with
  | Some g => default [] (Stabilizer.points g)
  | None => []
  end.


(** [q] lies in the axis-aligned box spanned by [p1] and [p2], a
    missing [z] read as [0]. *)
Definition inBox (p1 p2 q : Point.t) : Prop :=
  Rmin (Point.x p1) (Point.x p2) <= Point.x q <= Rmax (Point.x p1) (Point.x p2) /\
  Rmin (Point.y p1) (Point.y p2) <= Point.y q <= Rmax (Point.y p1) (Point.y p2) /\
  Rmin (Js.num_or (Point.z p1) 0) (Js.num_or (Point.z p2) 0)
  <= Js.num_or (Point.z q) 0
  <= Rmax (Js.num_or (Point.z p1) 0) (Js.num_or (Point.z p2) 0).


(** The points [subdivideContour] emits for the edge that starts at
    position [i] of [indices]: the original and [subdivisions] points
    towards the next original, the first one after the last. *)
Definition contourRow (landmarks : list Point.t) (indices : list nat)
    (subdivisions : nat) (d : Point.t) (i : nat) : list Point.t :=
  let idx := default 0%nat (indices !! i) in
  let curr := default d (landmarks !! idx) in
  let next :=
    default d (landmarks
                 !! default 0%nat (indices !! ((i + 1) mod length indices)%nat)) in
  Point.with_originalIndex idx curr
  :: ((fun k => lerpPoint curr next (INR k / INR (subdivisions + 1)))
        <$> seq 1 subdivisions).

(** The copy of the landmark [p] on depth layer [layer]. *)
Definition layerPoint (layer : nat) (p : Point.t) : Point.t :=
  Point.mk (Point.x p) (Point.y p)
           (Some (Js.num_or (Point.z p) 0 - INR layer * 0.02))
           (Some (Js.num_or (Point.visibility p) 1))
           None None (Some (0 <? layer)%nat) None None None (Some layer).

(** A point the Densifier adds to the body group: flagged
    interpolated, without original index, with a region. *)
Definition addedPoint (q : Point.t) : Prop :=
  Point.interpolated q = Some true /\
  Point.originalIndex q = None /\
  is_Some (Point.region q).

(** A hand of 21 landmarks, and one of 15. *)
Definition fullHand : list Point.t :=
  replicate 21 (Point.raw 0.5 0.5 (Some 0) (Some 1)).

Definition shortHand : list Point.t :=
  replicate 15 (Point.raw 0.5 0.5 (Some 0) (Some 1)).

(** The flags of a point [lerp] returns. *)
Definition lerped (q : Point.t) : Prop :=
  Point.interpolated q = Some true /\ Point.originalIndex q = None.

(** A point for the default of lookups that are in range. *)
Definition noPoint : Point.t := Point.raw 0 0 None None.

(** Every component of the velocity is zero. *)
Definition zeroish (v : Velocity.t) : Prop :=
  Velocity.vx v = 0 /\ Velocity.vy v = 0 /\ Velocity.vz v = 0.

(** [q] is at the position of [p] ([z] read as [z || 0]) and has the
    other properties of [p]. *)
Definition samePlace (p q : Point.t) : Prop :=
  Point.x q = Point.x p /\
  Point.y q = Point.y p /\
  Js.num_or (Point.z q) 0 = Js.num_or (Point.z p) 0 /\
  Point.visibility q = Point.visibility p /\
  Point.originalIndex q = Point.originalIndex p /\
  Point.region q = Point.region p /\
  Point.interpolated q = Point.interpolated p.

(** The neighbours [applySpringForce] does not skip. *)
Definition presentNeighbors (allPoints : list (option Point.t))
    (neighbors : list nat) : list Point.t :=
  omap (fun i => mjoin (allPoints !! i)) neighbors.

(** The sum of a list of numbers. *)
Definition sumR (l : list R) : R := fold_right Rplus 0 l.

(** An interpolated body point at [(x, 0.5, 0)]. *)
Definition fillPoint (x : R) : Point.t :=
  Point.mk x 0.5 (Some 0) (Some 1) None (Some "arm") (Some true)
           None None None None.

(** The regions [processFace] moves. *)
Definition expressionRegions : list string :=
  ["leftEyebrow"; "rightEyebrow"; "leftCheek"; "rightCheek"; "jawline"].

(** The nine scores [processFace] reads. *)
Definition expressionScores : list string :=
  ["browOuterUpLeft"; "browOuterUpRight"; "browDownLeft"; "browDownRight";
   "jawOpen"; "jawLeft"; "jawRight"; "mouthSmileLeft"; "mouthSmileRight"].

(** [q] has the depth and the properties of [p]; only [x] and [y] may
    differ. *)
Definition sameButXY (p q : Point.t) : Prop :=
  Point.z q = Point.z p /\
  Point.visibility q = Point.visibility p /\
  Point.originalIndex q = Point.originalIndex p /\
  Point.region q = Point.region p /\
  Point.interpolated q = Point.interpolated p /\
  Point.handIndex q = Point.handIndex p.

(** A face point of the region [r] at [(0.5, 0.5, 0)]. *)
Definition regionPoint (r : string) : Point.t :=
  Point.mk 0.5 0.5 (Some 0) (Some 1) None (Some r) (Some true)
           None None None None.

(** An interpolated hand point at [(x, 0.5, 0)]. *)
Definition fingerPoint (x : R) : Point.t :=
  Point.mk x 0.5 (Some 0) (Some 1) None (Some "hand_Left") (Some true)
           (Some 0%nat) None None None.

(** An engine whose previous frame holds the hand points [ps]. *)
Definition handEngine (ps : list Point.t) : WaveMotionEngine.t :=
  WaveMotionEngine.mk
    (WaveMotionEngine.config (WaveMotionEngine.new WaveMotionEngine.noOptions))
    (Some (WaveMotionEngine.mkData None None
             (Some (WaveMotionEngine.mkGroup (Some ps) (Some (length ps))))
             None None None None))
    ∅ WaveMotionEngine.defineBodyNetwork.

End Props.

(* ================================================================== *)
(** * Properties of the filter stages *)
(* ================================================================== *)

Section FilterStages.
Local Open Scope R_scope.
Import Props.

Lemma num_or_zero (v : option R) : Js.num_or v 0 = Js.to_number v.
Proof.
  destruct v as [r|]; simpl; [|reflexivity].
  destruct (Req_dec_T r 0); congruence.
Qed.

Lemma num_or_falsy (v : option R) (d : R) :
  v = None \/ v = Some 0 -> Js.num_or v d = d.
Proof.
  intros [->| ->]; simpl; [reflexivity|].
  destruct (Req_dec_T 0 0); congruence.
Qed.

Lemma num_or_truthy (r d : R) : r <> 0 -> Js.num_or (Some r) d = r.
Proof.
  intros Hr. simpl. destruct (Req_dec_T r 0); congruence.
Qed.

(** The floor on the time delta. *)
Lemma dt_floor (t tprev : R) : 0.001 <= Rmax ((t - tprev) / 1000) 0.001.
Proof. apply Rmax_r. Qed.





(** First observation of the adaptive low-pass stage. *)
Lemma euro_first (f : OneEuroFilter.t) (x t : R) :
  OneEuroFilter.tPrev f = None ->
  OneEuroFilter.filter f x t =
    (OneEuroFilter.mk (OneEuroFilter.minCutoff f) (OneEuroFilter.beta f)
                      (OneEuroFilter.dCutoff f) (Some x) (Some 0) (Some t), x).
Proof. intros H. unfold OneEuroFilter.filter. rewrite H. reflexivity. Qed.

(** First observation of the predictive stage. *)
Lemma kalman_first (k : KalmanFilter1D.t) (m t : R) :
  KalmanFilter1D.x k = None ->
  KalmanFilter1D.update k m t =
    (KalmanFilter1D.mk (KalmanFilter1D.Qn k) (KalmanFilter1D.Rn k) (Some m)
                       (KalmanFilter1D.P k) (KalmanFilter1D.K k)
                       (KalmanFilter1D.velocity k) (Some t), m).
Proof. intros H. unfold KalmanFilter1D.update. rewrite H. reflexivity. Qed.



(** [Point3DFilter.filter] on a present point, axis by axis. *)
Lemma filter_present (f : Point3DFilter.t) (p : Point.t) (t : R) :
  Point3DFilter.filter f (Some p) t =
    let u := Point3DFilter.useKalman f in
    let ax := axis u (Point3DFilter.euroX f) (Point3DFilter.kalmanX f)
                   (Point.x p) t in
    let ay := axis u (Point3DFilter.euroY f) (Point3DFilter.kalmanY f)
                   (Point.y p) t in
    let az := axis u (Point3DFilter.euroZ f) (Point3DFilter.kalmanZ f)
                   (Js.num_or (Point.z p) 0) t in
    let last := Filtered.mk (Some ax.2) (Some ay.2) (Some az.2)
                            (Js.num_or (Point.visibility p) 1) false in
    (Point3DFilter.mk ax.1.1 ay.1.1 az.1.1 ax.1.2 ay.1.2 az.1.2 u (Some last)
                      (Point3DFilter.isOccluded f) 0,
     Some last).
Proof.
  unfold Point3DFilter.filter, axis.
  destruct (OneEuroFilter.filter (Point3DFilter.euroX f) _ _) as [ex x].
  destruct (OneEuroFilter.filter (Point3DFilter.euroY f) _ _) as [ey y].
  destruct (OneEuroFilter.filter (Point3DFilter.euroZ f) _ _) as [ez z].
  destruct (Point3DFilter.useKalman f); simpl; [|reflexivity].
  destruct (KalmanFilter1D.update (Point3DFilter.kalmanX f) _ _) as [kx x'].
  destruct (KalmanFilter1D.update (Point3DFilter.kalmanY f) _ _) as [ky y'].
  destruct (KalmanFilter1D.update (Point3DFilter.kalmanZ f) _ _) as [kz z'].
  reflexivity.
Qed.

(** An axis without history passes its input through and seeds both
    stages with it. *)
Lemma axis_first (u : bool) (e : OneEuroFilter.t) (k : KalmanFilter1D.t)
    (v t : R) :
  OneEuroFilter.tPrev e = None -> KalmanFilter1D.x k = None ->
  axis u e k v t =
    (OneEuroFilter.mk (OneEuroFilter.minCutoff e) (OneEuroFilter.beta e)
                      (OneEuroFilter.dCutoff e) (Some v) (Some 0) (Some t),
     if u then
       KalmanFilter1D.mk (KalmanFilter1D.Qn k) (KalmanFilter1D.Rn k) (Some v)
                         (KalmanFilter1D.P k) (KalmanFilter1D.K k)
                         (KalmanFilter1D.velocity k) (Some t)
     else k,
     v).
Proof.
  intros He Hk. unfold axis. rewrite (euro_first _ _ _ He). simpl.
  destruct u; [|reflexivity].
  rewrite (kalman_first _ _ _ Hk). reflexivity.
Qed.


End FilterStages.

(* ================================================================== *)
(** * Stabilizer: time delta *)
(* ================================================================== *)

Section TimeDelta.
Local Open Scope R_scope.

(** C5.  For every previous timestamp [tprev] and every new timestamp
    [t], whatever their order, both the adaptive low-pass stage and the
    predictive stage (update and prediction) work with the time delta
    [dt = max((t - tprev) / 1000, 0.001)]: [dt] is at least [0.001], in
    particular not zero, and it is the divisor of the derivative
    [(x - xPrev) / dt] and of the velocity update. *)
Theorem time_delta_floor (f : OneEuroFilter.t) (k : KalmanFilter1D.t)
    (x t tprev xk : R) :
  OneEuroFilter.tPrev f = Some tprev ->
  KalmanFilter1D.x k = Some xk ->
  KalmanFilter1D.lastTimestamp k = Some tprev ->
  let dt := Rmax ((t - tprev) / 1000) 0.001 in
  let xp := Js.to_number (OneEuroFilter.xPrev f) in
  let dxFiltered :=
    OneEuroFilter.lowPass ((x - xp) / dt)
      (Js.to_number (OneEuroFilter.dxPrev f))
      (OneEuroFilter.alpha (OneEuroFilter.dCutoff f) dt) in
  let cutoff :=
    OneEuroFilter.minCutoff f + OneEuroFilter.beta f * Rabs dxFiltered in
  let xPredicted := xk + KalmanFilter1D.velocity k * dt in
  let gain :=
    (KalmanFilter1D.P k + KalmanFilter1D.Qn k)
    / (KalmanFilter1D.P k + KalmanFilter1D.Qn k + KalmanFilter1D.Rn k) in
  let xNew := xPredicted + gain * (x - xPredicted) in
  0.001 <= dt /\ dt <> 0 /\
  OneEuroFilter.dxPrev (fst (OneEuroFilter.filter f x t)) = Some dxFiltered /\
  snd (OneEuroFilter.filter f x t)
    = OneEuroFilter.lowPass x xp (OneEuroFilter.alpha cutoff dt) /\
  snd (KalmanFilter1D.update k x t) = xNew /\
  KalmanFilter1D.velocity (fst (KalmanFilter1D.update k x t))
    = (xNew - xPredicted) / dt * 0.5 + KalmanFilter1D.velocity k * 0.5 /\
  KalmanFilter1D.predict k t = Some xPredicted.
Proof.
  intros Ht Hx Hl. cbv zeta.
  pose proof (dt_floor t tprev) as Hfloor.
  unfold OneEuroFilter.filter, KalmanFilter1D.update, KalmanFilter1D.predict.
  rewrite Ht, Hx, Hl. cbn [fst snd Js.to_number OneEuroFilter.dxPrev
                           KalmanFilter1D.velocity].
  repeat split; try reflexivity; lra.
Qed.

(** A repeated timestamp: [t = tprev = 100]. *)
Lemma time_delta_floor_witness :
  0.001 <= Rmax ((100 - 100) / 1000) 0.001 /\
  Rmax ((100 - 100) / 1000) 0.001 <> 0.
Proof.
  pose proof (time_delta_floor
                (OneEuroFilter.mk 0.8 0.005 1 (Some 0.5) (Some 0) (Some 100))
                (KalmanFilter1D.mk 0.005 0.05 (Some 0.5) 1 0 0 (Some 100))
                0.6 100 100 0.5 eq_refl eq_refl eq_refl) as H.
  cbv zeta in H. exact (conj (proj1 H) (proj1 (proj2 H))).
Defined.

End TimeDelta.

(* ================================================================== *)
(** * Stabilizer: the loop over a frame *)
(* ================================================================== *)

Section StabilizerLoop.
Local Open Scope R_scope.
Import Props.

Variable cfg : Config.t.
Variable prefix : string.
Variable timestamp : R.

Local Arguments Point3DFilter.filter : simpl never.
Local Arguments stabilizedBy : simpl never.
Local Arguments stepMap : simpl never.

Lemma filterOf_lookup (fm : gmap string Point3DFilter.t) (id : string) :
  filterOf cfg fm id = default (Point3DFilter.new cfg) (fm !! id).
Proof.
  unfold filterOf, Stabilizer.getFilter. destruct (fm !! id); reflexivity.
Qed.

Lemma getFilter_lookup (fm : gmap string Point3DFilter.t) (id id' : string) :
  id' <> id ->
  (Stabilizer.getFilter cfg fm id).1 !! id' = fm !! id'.
Proof.
  intros Hne. unfold Stabilizer.getFilter.
  destruct (fm !! id); simpl; [reflexivity|].
  apply lookup_insert_ne. congruence.
Qed.

Lemma stepMap_same (i : nat) (p : Point.t) (fm : gmap string Point3DFilter.t) :
  stepMap cfg prefix timestamp i p fm !! Stabilizer.pointId prefix p i
  = Some (Point3DFilter.filter
            (filterOf cfg fm (Stabilizer.pointId prefix p i)) (Some p) timestamp).1.
Proof. unfold stepMap. apply lookup_insert_eq. Qed.

Lemma stepMap_other (i : nat) (p : Point.t) (fm : gmap string Point3DFilter.t)
    (id : string) :
  Stabilizer.pointId prefix p i <> id ->
  stepMap cfg prefix timestamp i p fm !! id = fm !! id.
Proof.
  intros Hne. unfold stepMap.
  rewrite lookup_insert_ne by assumption.
  apply getFilter_lookup. congruence.
Qed.

(** On an array without holes the loop does not throw; its result is
    given by [finalMap] and [outputs]. *)
Lemma stabilizeFrom_present (ps : list Point.t) :
  forall (i : nat) (fm : gmap string Point3DFilter.t),
    Stabilizer.stabilizeFrom cfg prefix timestamp i (Some <$> ps) fm
    = Js.Ok (finalMap cfg prefix timestamp i ps fm,
             outputs cfg prefix timestamp i ps fm).
Proof.
  induction ps as [|p rest IH]; intros i fm; [reflexivity|].
  cbn [fmap list_fmap Stabilizer.stabilizeFrom finalMap outputs].
  unfold stepMap, filterOf, stabilizedBy.
  destruct (Stabilizer.getFilter cfg fm (Stabilizer.pointId prefix p i))
    as [fm1 f] eqn:Hget.
  cbn [fst snd].
  pose proof (filter_present f p timestamp) as Hp. cbv zeta in Hp.
  destruct (Point3DFilter.filter f (Some p) timestamp) as [f' filtered].
  injection Hp as -> ->. cbn [fst snd].
  change (list_fmap _ _ Some rest) with (Some <$> rest).
  rewrite IH. reflexivity.
Qed.

Lemma outputs_length (ps : list Point.t) :
  forall (i : nat) (fm : gmap string Point3DFilter.t),
    length (outputs cfg prefix timestamp i ps fm) = length ps.
Proof.
  induction ps as [|p rest IH]; intros i fm; simpl; [reflexivity|].
  now rewrite IH.
Qed.

(** A point is filtered by the filter its identifier had before the
    frame, provided no earlier point of the frame has that identifier. *)
Lemma outputs_lookup (ps : list Point.t) :
  forall (i : nat) (fm : gmap string Point3DFilter.t) (k : nat) (p : Point.t),
    ps !! k = Some p ->
    (forall j q, (j < k)%nat -> ps !! j = Some q ->
                 Stabilizer.pointId prefix q (i + j)
                 <> Stabilizer.pointId prefix p (i + k)) ->
    outputs cfg prefix timestamp i ps fm !! k
    = Some (stabilizedBy
              (filterOf cfg fm (Stabilizer.pointId prefix p (i + k))) p timestamp).
Proof.
  induction ps as [|p0 rest IH]; intros i fm k p Hk Hne; [discriminate|].
  destruct k as [|k]; simpl in *.
  - injection Hk as ->. now rewrite Nat.add_0_r.
  - rewrite (IH (S i) _ k p Hk).
    + replace (S i + k)%nat with (i + S k)%nat by lia.
      do 2 f_equal. rewrite !filterOf_lookup. f_equal.
      apply stepMap_other.
      specialize (Hne 0%nat p0 ltac:(lia) eq_refl).
      now rewrite Nat.add_0_r in Hne.
    + intros j q Hj Hq.
      replace (S i + j)%nat with (i + S j)%nat by lia.
      replace (S i + k)%nat with (i + S k)%nat by lia.
      apply Hne; [lia|exact Hq].
Qed.

(** Filters of identifiers that do not occur in the frame are left
    alone. *)
Lemma finalMap_frame (ps : list Point.t) (id : string) :
  forall (i : nat) (fm : gmap string Point3DFilter.t),
    (forall j q, ps !! j = Some q -> Stabilizer.pointId prefix q (i + j) <> id) ->
    finalMap cfg prefix timestamp i ps fm !! id = fm !! id.
Proof.
  induction ps as [|p0 rest IH]; intros i fm Hne; [reflexivity|].
  simpl. rewrite IH.
  - apply stepMap_other.
    specialize (Hne 0%nat p0 eq_refl). now rewrite Nat.add_0_r in Hne.
  - intros j q Hq. replace (S i + j)%nat with (i + S j)%nat by lia.
    now apply Hne.
Qed.

(** The filter of an identifier that occurs once in the frame has seen
    exactly that point. *)
Lemma finalMap_lookup (ps : list Point.t) :
  forall (i : nat) (fm : gmap string Point3DFilter.t) (k : nat) (p : Point.t),
    ps !! k = Some p ->
    (forall j q, j <> k -> ps !! j = Some q ->
                 Stabilizer.pointId prefix q (i + j)
                 <> Stabilizer.pointId prefix p (i + k)) ->
    finalMap cfg prefix timestamp i ps fm !! Stabilizer.pointId prefix p (i + k)
    = Some (Point3DFilter.filter
              (filterOf cfg fm (Stabilizer.pointId prefix p (i + k)))
              (Some p) timestamp).1.
Proof.
  induction ps as [|p0 rest IH]; intros i fm k p Hk Hne; [discriminate|].
  destruct k as [|k]; simpl in *.
  - injection Hk as ->. rewrite Nat.add_0_r in *.
    rewrite finalMap_frame; [apply stepMap_same|].
    intros j q Hq. replace (S i + j)%nat with (i + S j)%nat by lia.
    apply (Hne (S j)); [lia|exact Hq].
  - replace (i + S k)%nat with (S i + k)%nat in * by lia.
    rewrite (IH (S i) _ k p Hk).
    + do 3 f_equal. rewrite !filterOf_lookup. f_equal.
      apply stepMap_other.
      specialize (Hne 0%nat p0 ltac:(lia) eq_refl).
      now rewrite Nat.add_0_r in Hne.
    + intros j q Hj Hq.
      replace (S i + j)%nat with (i + S j)%nat by lia.
      apply Hne; [lia|exact Hq].
Qed.

Lemma outputs_lookup_any (ps : list Point.t) :
  forall (i : nat) (fm : gmap string Point3DFilter.t) (k : nat) (p : Point.t),
    ps !! k = Some p ->
    exists f, outputs cfg prefix timestamp i ps fm !! k
              = Some (stabilizedBy f p timestamp).
Proof.
  induction ps as [|p0 rest IH]; intros i fm k p Hk; [discriminate|].
  destruct k as [|k]; simpl in *.
  - injection Hk as ->. eexists. reflexivity.
  - apply IH. exact Hk.
Qed.

Lemma new_fresh : fresh (Point3DFilter.new cfg).
Proof. repeat split. Qed.

Lemma filterOf_fresh (fm : gmap string Point3DFilter.t) (id : string) :
  (forall f, fm !! id = Some f -> fresh f) -> fresh (filterOf cfg fm id).
Proof.
  intros H. rewrite filterOf_lookup.
  destruct (fm !! id) as [f|]; [now apply H|apply new_fresh].
Qed.

(** The filter a new identifier owns after its first sample. *)
Lemma filter_new (p : Point.t) :
  Config.useKalman cfg = true ->
  (Point3DFilter.filter (Point3DFilter.new cfg) (Some p) timestamp).1
  = let e v := OneEuroFilter.mk (Config.minCutoff cfg) (Config.beta cfg)
                 (Config.dCutoff cfg) (Some v) (Some 0) (Some timestamp) in
    let k v := KalmanFilter1D.mk (Config.processNoise cfg)
                 (Config.measurementNoise cfg) (Some v) 1 0 0 (Some timestamp) in
    Point3DFilter.mk
      (e (Point.x p)) (e (Point.y p)) (e (Js.num_or (Point.z p) 0))
      (k (Point.x p)) (k (Point.y p)) (k (Js.num_or (Point.z p) 0))
      true
      (Some (Filtered.mk (Some (Point.x p)) (Some (Point.y p))
                         (Some (Js.num_or (Point.z p) 0))
                         (Js.num_or (Point.visibility p) 1) false))
      false 0.
Proof.
  intros Hu. rewrite filter_present. cbv zeta.
  unfold Point3DFilter.new. cbn [Point3DFilter.useKalman Point3DFilter.euroX
    Point3DFilter.euroY Point3DFilter.euroZ Point3DFilter.kalmanX
    Point3DFilter.kalmanY Point3DFilter.kalmanZ Point3DFilter.isOccluded fst].
  rewrite Hu, !axis_first by reflexivity. reflexivity.
Qed.

End StabilizerLoop.

(* ================================================================== *)
(** * Stabilizer: first and second sample, emitted visibility *)
(* ================================================================== *)

Section StabilizerSamples.
Local Open Scope R_scope.
Import Props.

Local Arguments Point3DFilter.filter : simpl never.

(** C2.  When a point of a frame is the first sample its identifier's
    filter ever sees (the identifier has no filter yet, or one whose
    axes are all without history, and no earlier point of the frame
    shares the identifier), the stabilized coordinates are exactly the
    raw ones, a missing [z] counting as [0].  Both stages return their
    input unchanged on a first observation and store it. *)
Theorem first_sample_passthrough (cfg : Config.t) (prefix : string)
    (timestamp : R) (filterMap : gmap string Point3DFilter.t)
    (ps : list Point.t) (k : nat) (p : Point.t) :
  ps !! k = Some p ->
  (forall f, filterMap !! Stabilizer.pointId prefix p k = Some f -> fresh f) ->
  (forall j q, (j < k)%nat -> ps !! j = Some q ->
               Stabilizer.pointId prefix q j <> Stabilizer.pointId prefix p k) ->
  (exists filterMap' out o,
      Stabilizer.stabilizePoints cfg (Some (Some <$> ps)) filterMap timestamp prefix
      = Js.Ok (filterMap', out) /\
      out !! k = Some o /\
      Stabilized.source o = p /\
      Stabilized.x o = Some (Point.x p) /\
      Stabilized.y o = Some (Point.y p) /\
      Stabilized.z o = Some (Js.num_or (Point.z p) 0)) /\
  (forall e x t,
      OneEuroFilter.tPrev e = None ->
      snd (OneEuroFilter.filter e x t) = x /\
      OneEuroFilter.xPrev (fst (OneEuroFilter.filter e x t)) = Some x /\
      OneEuroFilter.tPrev (fst (OneEuroFilter.filter e x t)) = Some t) /\
  (forall kf m t,
      KalmanFilter1D.x kf = None ->
      snd (KalmanFilter1D.update kf m t) = m /\
      KalmanFilter1D.x (fst (KalmanFilter1D.update kf m t)) = Some m /\
      KalmanFilter1D.lastTimestamp (fst (KalmanFilter1D.update kf m t)) = Some t).
Proof.
  intros Hk Hfresh Hearlier. split; [|split].
  - unfold Stabilizer.stabilizePoints. rewrite stabilizeFrom_present.
    do 3 eexists. split; [reflexivity|].
    rewrite (outputs_lookup cfg prefix timestamp ps 0 filterMap k p Hk Hearlier).
    split; [reflexivity|].
    pose proof (filterOf_fresh cfg filterMap _ Hfresh) as Hf.
    simpl in Hf. destruct Hf as (Hx & Hy & Hz & Kx & Ky & Kz).
    unfold stabilizedBy. cbn [Stabilized.source Stabilized.x Stabilized.y
                              Stabilized.z plus].
    rewrite (axis_first _ _ _ _ _ Hx Kx), (axis_first _ _ _ _ _ Hy Ky),
      (axis_first _ _ _ _ _ Hz Kz).
    repeat split.
  - intros e x t He. rewrite (euro_first _ _ _ He). repeat split.
  - intros kf m t Hkf. rewrite (kalman_first _ _ _ Hkf). repeat split.
Qed.

(** C10.  Whatever the state of its filter, a point present in the
    frame is emitted with visibility [point.visibility || 1]: the input
    visibility when that is a nonzero number, and [1] when it is [0],
    [null] or missing; the filter marks the point as not predicted. *)
Theorem zero_visibility_emitted_as_one (cfg : Config.t) (prefix : string)
    (timestamp : R) (filterMap : gmap string Point3DFilter.t)
    (ps : list Point.t) (k : nat) (p : Point.t) :
  ps !! k = Some p ->
  (exists filterMap' out o,
      Stabilizer.stabilizePoints cfg (Some (Some <$> ps)) filterMap timestamp prefix
      = Js.Ok (filterMap', out) /\
      out !! k = Some o /\
      Stabilized.source o = p /\
      Stabilized.visibility o = Js.num_or (Point.visibility p) 1 /\
      (Point.visibility p = None \/ Point.visibility p = Some 0 ->
       Stabilized.visibility o = 1) /\
      (forall v, Point.visibility p = Some v -> v <> 0 ->
                 Stabilized.visibility o = v)) /\
  (forall f, exists f' q,
      Point3DFilter.filter f (Some p) timestamp = (f', Some q) /\
      Filtered.predicted q = false /\
      Filtered.visibility q = Js.num_or (Point.visibility p) 1).
Proof.
  intros Hk. split.
  - unfold Stabilizer.stabilizePoints. rewrite stabilizeFrom_present.
    destruct (outputs_lookup_any cfg prefix timestamp ps 0 filterMap k p Hk)
      as [f Hf].
    do 3 eexists. split; [reflexivity|]. split; [exact Hf|].
    unfold stabilizedBy. cbn [Stabilized.source Stabilized.visibility].
    repeat split.
    + apply num_or_falsy.
    + intros v -> Hv. now apply num_or_truthy.
  - intros f. rewrite filter_present. cbv zeta. do 2 eexists.
    split; [reflexivity|]. split; reflexivity.
Qed.


End StabilizerSamples.

Section StabilizerWitnesses.
Local Open Scope R_scope.
Import Props Samples.

Local Arguments Point3DFilter.filter : simpl never.

Lemma defaultConfig_eq :
  defaultConfig = Config.mk 0.8 0.005 1.0 0.005 0.05 true.
Proof. reflexivity. Qed.

(** Index 1 of the first frame on an empty filter bank. *)
Lemma first_sample_passthrough_witness :
  exists filterMap' out o,
    Stabilizer.stabilizePoints defaultConfig (Some (Some <$> frame1)) ∅ 0 "face_"
    = Js.Ok (filterMap', out) /\
    out !! 1%nat = Some o /\
    Stabilized.source o = facePoint 1 0.5 0 /\
    Stabilized.x o = Some 0.5 /\
    Stabilized.y o = Some 0.5 /\
    Stabilized.z o = Some (Js.num_or (Some 0) 0).
Proof.
  refine (proj1 (first_sample_passthrough defaultConfig "face_" 0 ∅ frame1 1
                   (facePoint 1 0.5 0) eq_refl _ _)).
  - intros f Hf. rewrite lookup_empty in Hf. discriminate Hf.
  - intros [|j] q Hj Hq; [|lia]. injection Hq as <-. vm_compute. discriminate.
Defined.

(** A point reported with visibility [0]. *)
Lemma zero_visibility_emitted_as_one_witness :
  exists filterMap' out o,
    Stabilizer.stabilizePoints defaultConfig (Some (Some <$> frame1)) ∅ 0 "face_"
    = Js.Ok (filterMap', out) /\
    out !! 0%nat = Some o /\
    Stabilized.visibility o = 1.
Proof.
  destruct (proj1 (zero_visibility_emitted_as_one defaultConfig "face_" 0 ∅
                     frame1 0 (facePoint 0 0.5 0) eq_refl))
    as (fm & out & o & Hrun & Hout & _ & _ & Hzero & _).
  exists fm, out, o. repeat split; try assumption.
  apply Hzero. right. reflexivity.
Defined.


End StabilizerWitnesses.

(* ================================================================== *)
(** * Stabilizer: missing points *)
(* ================================================================== *)

Section Occlusion.
Local Open Scope R_scope.
Import Props Samples.

Local Arguments Point3DFilter.filter : simpl never.

(** Called by itself with a missing point, a filter that has a last
    point and the Kalman stage predicts, up to the tenth miss in a
    row. *)
Lemma filter_absent_predicts (f : Point3DFilter.t) (t : R) (q : Filtered.t) :
  (S (Point3DFilter.occlusionFrames f) <= 10)%nat ->
  Point3DFilter.useKalman f = true ->
  Point3DFilter.lastPoint f = Some q ->
  Point3DFilter.filter f None t
  = (Point3DFilter.incr_occlusion f,
     Some (Filtered.mk (KalmanFilter1D.predict (Point3DFilter.kalmanX f) t)
                       (KalmanFilter1D.predict (Point3DFilter.kalmanY f) t)
                       (KalmanFilter1D.predict (Point3DFilter.kalmanZ f) t)
                       0.3 true)).
Proof.
  intros Hn Hu Hl. unfold Point3DFilter.filter.
  cbn [Point3DFilter.incr_occlusion Point3DFilter.occlusionFrames
       Point3DFilter.useKalman Point3DFilter.lastPoint Point3DFilter.kalmanX
       Point3DFilter.kalmanY Point3DFilter.kalmanZ].
  destruct (Nat.ltb_spec 10 (S (Point3DFilter.occlusionFrames f))); [lia|].
  rewrite Hu, Hl. reflexivity.
Qed.

(** The eleventh miss in a row resets every axis and the counter. *)
Lemma filter_absent_resets (f : Point3DFilter.t) (t : R) :
  (10 < S (Point3DFilter.occlusionFrames f))%nat ->
  let f' := Point3DFilter.reset (Point3DFilter.incr_occlusion f) in
  Point3DFilter.filter f None t = (f', None) /\
  fresh f' /\
  Point3DFilter.occlusionFrames f' = 0%nat /\
  Point3DFilter.lastPoint f' = None.
Proof.
  intros Hn. cbv zeta. unfold Point3DFilter.filter.
  cbn [Point3DFilter.incr_occlusion Point3DFilter.occlusionFrames].
  destruct (Nat.ltb_spec 10 (S (Point3DFilter.occlusionFrames f))); [|lia].
  repeat split.
Qed.

(** Without a last point a missing point yields [null], and that stays
    so until a point is seen. *)
Lemma filter_absent_dropped (f : Point3DFilter.t) (t : R) :
  Point3DFilter.lastPoint f = None ->
  exists f', Point3DFilter.filter f None t = (f', None) /\
             Point3DFilter.lastPoint f' = None.
Proof.
  intros Hl. unfold Point3DFilter.filter.
  cbn [Point3DFilter.incr_occlusion Point3DFilter.occlusionFrames
       Point3DFilter.useKalman Point3DFilter.lastPoint].
  destruct (10 <? S (Point3DFilter.occlusionFrames f))%nat.
  - eexists. split; reflexivity.
  - rewrite Hl, andb_false_r. eexists. split; [reflexivity|exact Hl].
Qed.

(** A frame without any detector group leaves every filter bank as it
    is: no filter is told that its point is missing. *)
Lemma stabilize_absent_groups (s : Stabilizer.t) (blendshapes : option (list Category.t))
    (timestamp fps : option R) (now : R) :
  Stabilizer.stabilize s
    (Some (Stabilizer.mkDense None None None blendshapes timestamp fps)) now
  = Js.Ok (s, Some (Stabilizer.mkStable
                      (Stabilizer.mkStableGroup [] 0)
                      (Stabilizer.mkStableGroup [] 0)
                      (Stabilizer.mkStableGroup [] 0)
                      blendshapes (Js.num_or timestamp now) fps 0)).
Proof. destruct s. reflexivity. Qed.

(** An array with a [null] element makes [stabilizePoints] throw. *)
Lemma stabilizeFrom_null (cfg : Config.t) (prefix : string) (t : R)
    (ps : list (option Point.t)) :
  In None ps ->
  forall (i : nat) (fm : gmap string Point3DFilter.t),
    Stabilizer.stabilizeFrom cfg prefix t i ps fm = Js.TypeError.
Proof.
  induction ps as [|[p|] rest IH]; intros Hin i fm.
  - destruct Hin.
  - destruct Hin as [Hin|Hin]; [discriminate Hin|].
    cbn [Stabilizer.stabilizeFrom].
    destruct (Stabilizer.getFilter cfg fm _) as [fm1 f].
    destruct (Point3DFilter.filter f (Some p) t) as [f' filtered].
    rewrite (IH Hin). reflexivity.
  - reflexivity.
Qed.

(** C1.  The occlusion branch of [Point3DFilter.filter] is not reached
    through the Stabilizer.  After the first sample frame, the filter
    of point 1 has a last point and a zero miss counter.  When point 1
    is missing from the next frame because the array is shorter, its
    filter is not called: the counter stays [0] and nothing is emitted
    for it.  When it is missing as a [null] element, [stabilizePoints]
    throws.  The filter called by itself would have returned a
    predicted point (visibility [0.3], [predicted = true]) at the last
    position. *)
Theorem occlusion_branch_not_reached :
  exists filterMap1 out1 f,
    Stabilizer.stabilizePoints defaultConfig (Some (Some <$> frame1)) ∅ 0 "face_"
    = Js.Ok (filterMap1, out1) /\
    filterMap1 !! "face_1" = Some f /\
    Point3DFilter.lastPoint f <> None /\
    Point3DFilter.occlusionFrames f = 0%nat /\
    (exists filterMap2 out2,
        Stabilizer.stabilizePoints defaultConfig (Some frame2_short) filterMap1
                                   16.7 "face_"
        = Js.Ok (filterMap2, out2) /\
        filterMap2 !! "face_1" = Some f /\
        length out2 = 1%nat) /\
    Stabilizer.stabilizePoints defaultConfig (Some frame2_null) filterMap1
                               16.7 "face_"
    = Js.TypeError /\
    (exists q,
        Point3DFilter.filter f None 16.7 = (Point3DFilter.incr_occlusion f, Some q) /\
        Filtered.predicted q = true /\
        Filtered.visibility q = 0.3 /\
        Filtered.x q = Some 0.5).
Proof.
  unfold Stabilizer.stabilizePoints.
  pose proof (finalMap_lookup defaultConfig "face_" 0 frame1 0 ∅ 1
                (facePoint 1 0.5 0) eq_refl) as Hstate.
  change (Stabilizer.pointId "face_" (facePoint 1 0.5 0) (0 + 1)) with "face_1"
    in Hstate.
  rewrite filterOf_lookup, lookup_empty in Hstate. cbn [default] in Hstate.
  rewrite (filter_new defaultConfig 0 (facePoint 1 0.5 0) eq_refl) in Hstate.
  cbv zeta in Hstate.
  rewrite stabilizeFrom_present. do 3 eexists.
  split; [reflexivity|]. split.
  { apply Hstate.
    intros [|[|[|j]]] q Hj Hq; try congruence; try discriminate Hq;
      injection Hq as <-; vm_compute; discriminate. }
  split; [discriminate|]. split; [reflexivity|]. split; [|split].
  - change frame2_short with (Some <$> [facePoint 0 0.6 0]).
    rewrite stabilizeFrom_present. do 2 eexists.
    split; [reflexivity|]. split; [|reflexivity].
    rewrite finalMap_frame.
    + apply Hstate.
      intros [|[|[|j]]] q Hj Hq; try congruence; try discriminate Hq;
        injection Hq as <-; vm_compute; discriminate.
    + intros [|j] q Hq; [|discriminate Hq].
      injection Hq as <-. vm_compute. discriminate.
  - apply stabilizeFrom_null. right. left. reflexivity.
  - eexists. split; [|split; [|split]].
    + apply (filter_absent_predicts _ _
               (Filtered.mk (Some 0.5) (Some 0.5) (Some (Js.num_or (Some 0) 0))
                            (Js.num_or (Some 0) 1) false));
        [simpl; lia|reflexivity|reflexivity].
    + reflexivity.
    + reflexivity.
    + cbn [Filtered.x Point3DFilter.kalmanX KalmanFilter1D.predict
           KalmanFilter1D.x KalmanFilter1D.velocity].
      unfold KalmanFilter1D.predict. simpl. f_equal. lra.
Qed.

End Occlusion.

(* ================================================================== *)
(** * Densifier *)
(* ================================================================== *)

Section DensifierLoops.
Local Open Scope R_scope.
Import Props.

(** A loop whose every iteration pushes one point. *)
Lemma pushEach_singletons {A : Type} (l : list A)
    (body : A -> Js.Result (list Point.t)) (f : A -> Point.t) :
  (forall a, a ∈ l -> body a = Js.Ok [f a]) ->
  Densifier.pushEach l body = Js.Ok (f <$> l).
Proof.
  induction l as [|a l IH]; intros Hbody; [reflexivity|].
  cbn [Densifier.pushEach]. rewrite Hbody by left.
  rewrite IH by (intros b Hb; apply Hbody; now right). reflexivity.
Qed.

(** A loop whose every iteration pushes [n] points. *)
Lemma pushEach_length {A : Type} (l : list A)
    (body : A -> Js.Result (list Point.t)) (n : nat) :
  (forall a, a ∈ l -> exists r, body a = Js.Ok r /\ length r = n) ->
  exists r, Densifier.pushEach l body = Js.Ok r
            /\ length r = (length l * n)%nat.
Proof.
  induction l as [|a l IH]; intros Hbody; [exists []; split; reflexivity|].
  destruct (Hbody a ltac:(left)) as (r & Hr & Hlen).
  destruct IH as (r' & Hr' & Hlen'); [intros b Hb; apply Hbody; now right|].
  exists (r ++ r'). cbn [Densifier.pushEach]. rewrite Hr, Hr'.
  split; [reflexivity|]. rewrite length_app. simpl. lia.
Qed.

(** A loop one of whose iterations throws, throws. *)
Lemma pushEach_error {A : Type} (l : list A)
    (body : A -> Js.Result (list Point.t)) (a : A) :
  a ∈ l -> body a = Js.TypeError ->
  Densifier.pushEach l body = Js.TypeError.
Proof.
  intros Hin Ha. induction l as [|b l IH]; [inversion Hin|].
  cbn [Densifier.pushEach].
  destruct (body b) as [r|] eqn:Hb; [|reflexivity].
  apply elem_of_cons in Hin as [->|Hin]; [congruence|].
  rewrite (IH Hin). reflexivity.
Qed.

Lemma lerp_present (p1 p2 : Point.t) (t : R) :
  Densifier.lerp (Some p1) (Some p2) t = Js.Ok (lerpPoint p1 p2 t).
Proof. reflexivity. Qed.

Lemma lerp_missing_r (p1 : option Point.t) (t : R) :
  Densifier.lerp p1 None t = Js.TypeError.
Proof. destruct p1; reflexivity. Qed.

(** The points of a segment between two present endpoints. *)
Lemma interpolateSegment_present (p1 p2 : Point.t) (N : nat) :
  Densifier.interpolateSegment (Some p1) (Some p2) N
  = Js.Ok ((fun i => lerpPoint p1 p2 (INR i / INR N)) <$> seq 1 (N - 1)).
Proof.
  unfold Densifier.interpolateSegment.
  apply pushEach_singletons. intros i _. reflexivity.
Qed.

(** A segment with at least one interior point and a missing second
    endpoint. *)
Lemma interpolateSegment_missing_r (p1 : option Point.t) (N : nat) :
  (2 <= N)%nat ->
  Densifier.interpolateSegment p1 None N = Js.TypeError.
Proof.
  intros HN. unfold Densifier.interpolateSegment.
  apply (pushEach_error _ _ 1%nat).
  - apply elem_of_seq. lia.
  - cbv zeta. rewrite lerp_missing_r. reflexivity.
Qed.

End DensifierLoops.

Section DensifierSegments.
Local Open Scope R_scope.
Import Props.




End DensifierSegments.

Section DensifierBody.
Local Open Scope R_scope.
Import Props.

Lemma bodySegments_present (lms : list Point.t) (segments : list (nat * nat))
    (subs : nat) (region : string) :
  (forall a b, (a, b) ∈ segments -> is_Some (lms !! a) /\ is_Some (lms !! b)) ->
  exists r, Densifier.bodySegments lms segments subs region = Js.Ok r
            /\ length r = (length segments * (subs - 1))%nat.
Proof.
  intros Hall. unfold Densifier.bodySegments.
  apply pushEach_length. intros [a b] Hin.
  destruct (Hall a b Hin) as [[pa Ha] [pb Hb]].
  rewrite Ha, Hb, interpolateSegment_present.
  eexists. split; [reflexivity|].
  now rewrite !length_fmap, length_seq.
Qed.

Lemma bodySegments_missing (lms : list Point.t) (segments : list (nat * nat))
    (subs : nat) (region : string) (a b : nat) :
  (a, b) ∈ segments -> lms !! b = None -> (2 <= subs)%nat ->
  Densifier.bodySegments lms segments subs region = Js.TypeError.
Proof.
  intros Hin Hb Hsubs. unfold Densifier.bodySegments.
  apply (pushEach_error _ _ (a, b) Hin).
  rewrite Hb, interpolateSegment_missing_r by assumption. reflexivity.
Qed.

Lemma interpolateSurface_present (c0 c1 c2 c3 : Point.t) (gridSize : nat) :
  exists r,
    Densifier.interpolateSurface [Some c0; Some c1; Some c2; Some c3] gridSize
    = Js.Ok r
    /\ length r = (S gridSize * (S gridSize * 1))%nat.
Proof.
  unfold Densifier.interpolateSurface.
  match goal with
  | |- exists r, Densifier.pushEach ?l ?body = _ /\ _ =>
      destruct (pushEach_length l body (S gridSize * 1)) as (r & Hr & Hl)
  end.
  - intros i _.
    match goal with
    | |- exists r, Densifier.pushEach ?l ?body = _ /\ _ =>
        destruct (pushEach_length l body 1) as (r & Hr & Hl)
    end.
    + intros j _. eexists. split; reflexivity.
    + exists r. split; [exact Hr|]. now rewrite Hl, length_seq.
  - exists r. split; [exact Hr|]. now rewrite Hl, length_seq.
Qed.

(** A pose array with all 33 landmarks is densified. *)
Lemma densifyBody_complete (lms : list Point.t) :
  (33 <= length lms)%nat ->
  exists g, Densifier.densifyBody Densifier.new (Some lms) = Js.Ok g /\
            Densifier.count g = length (Densifier.points g) /\
            Densifier.count g = (length lms + 83)%nat.
Proof.
  intros Hlen.
  assert (Hsome : forall k, (k < 33)%nat -> is_Some (lms !! k))
    by (intros k Hk; apply lookup_lt_is_Some_2; lia).
  unfold Densifier.densifyBody, Densifier.new.
  cbn [Densifier.bodySubdivisions Densifier.bodyConnections
       Densifier.surfaceGridSize Densifier.defineBodyConnections
       Densifier.leftArm Densifier.rightArm Densifier.leftLeg
       Densifier.rightLeg app].
  destruct (bodySegments_present lms
              [(11, 13); (13, 15); (12, 14); (14, 16)]%nat 5 "arm")
    as (arms & Harms & Larms).
  { intros a b Hin.
    repeat (apply elem_of_cons in Hin as [Hin|Hin];
            [injection Hin as -> ->; split; apply Hsome; lia|]).
    inversion Hin. }
  destruct (bodySegments_present lms
              [(23, 25); (25, 27); (27, 31); (24, 26); (26, 28); (28, 32)]%nat
              5 "leg")
    as (legs & Hlegs & Llegs).
  { intros a b Hin.
    repeat (apply elem_of_cons in Hin as [Hin|Hin];
            [injection Hin as -> ->; split; apply Hsome; lia|]).
    inversion Hin. }
  rewrite Harms, Hlegs. cbn [mbind result_bind Js.bind].
  destruct (Hsome 11%nat ltac:(lia)) as [p11 H11].
  destruct (Hsome 12%nat ltac:(lia)) as [p12 H12].
  destruct (Hsome 23%nat ltac:(lia)) as [p23 H23].
  destruct (Hsome 24%nat ltac:(lia)) as [p24 H24].
  rewrite H11, H12, H23, H24, !lerp_present.
  cbn [mbind result_bind Js.bind].
  rewrite interpolateSegment_present. cbn [mbind result_bind Js.bind].
  destruct (interpolateSurface_present p11 p12 p24 p23 5)
    as (torso & Htorso & Ltorso).
  rewrite Htorso. cbn [mbind result_bind Js.bind].
  eexists. split; [reflexivity|].
  cbn [Densifier.count Densifier.points]. split; [reflexivity|].
  rewrite !length_app, length_imap, !length_fmap, length_seq, Larms, Llegs,
    Ltorso.
  simpl. lia.
Qed.

(** A pose array without landmark 32 is not. *)
Lemma densifyBody_incomplete (lms : list Point.t) :
  (length lms < 33)%nat ->
  Densifier.densifyBody Densifier.new (Some lms) = Js.TypeError.
Proof.
  intros Hlen.
  assert (H32 : lms !! 32%nat = None) by (apply lookup_ge_None_2; lia).
  unfold Densifier.densifyBody, Densifier.new.
  cbn [Densifier.bodySubdivisions Densifier.bodyConnections
       Densifier.surfaceGridSize Densifier.defineBodyConnections
       Densifier.leftArm Densifier.rightArm Densifier.leftLeg
       Densifier.rightLeg app].
  destruct (Densifier.bodySegments lms _ 5 "arm") as [arms|];
    [|reflexivity].
  cbn [mbind result_bind Js.bind].
  rewrite (bodySegments_missing lms _ 5 "leg" 28 32);
    [reflexivity| |exact H32|lia].
  do 5 right. left.
Qed.

(** C4 (amended).  [densifyBody] (with the constructor's five
    subdivisions) returns a group exactly for pose arrays that hold
    every landmark its tables refer to, that is at least 33 entries:
    the group then has the input landmarks plus 83 interpolated points
    and [count] equal to the number of points.  For a pose array in
    which a referenced landmark is missing the call raises a
    [TypeError]; no point is skipped and no group is returned. *)
Theorem densifyBody_needs_every_landmark (lms : list Point.t) :
  ((33 <= length lms)%nat ->
   exists g, Densifier.densifyBody Densifier.new (Some lms) = Js.Ok g /\
             Densifier.count g = length (Densifier.points g) /\
             Densifier.count g = (length lms + 83)%nat) /\
  ((length lms < 33)%nat ->
   Densifier.densifyBody Densifier.new (Some lms) = Js.TypeError).
Proof.
  split; [apply densifyBody_complete|apply densifyBody_incomplete].
Qed.

(** A complete pose of 33 landmarks and a pose cut off after landmark
    19. *)
Lemma densifyBody_needs_every_landmark_witness :
  (exists g, Densifier.densifyBody Densifier.new (Some fullPose) = Js.Ok g /\
             Densifier.count g = 116%nat) /\
  Densifier.densifyBody Densifier.new (Some shortPose) = Js.TypeError.
Proof.
  split.
  - destruct (proj1 (densifyBody_needs_every_landmark fullPose))
      as (g & Hg & _ & Hcount); [simpl; lia|].
    exists g. split; [exact Hg|exact Hcount].
  - apply (proj2 (densifyBody_needs_every_landmark shortPose)). simpl. lia.
Defined.

(** C4, counterexample.  A pose array of twenty landmarks lacks the
    hips, knees and ankles the leg table refers to; [densifyBody] does
    not return a group for it. *)
Lemma missing_landmark_counterexample : ~ returns_group shortPose.
Proof.
  intros [g Hg].
  rewrite (densifyBody_incomplete shortPose) in Hg by (simpl; lia).
  discriminate Hg.
Qed.

End DensifierBody.

Section DensifierFrames.
Local Open Scope R_scope.
Import Props.





(** C8.  An absent detector group densifies to [{ points: [], count: 0 }]
    without an exception: [densifyFace], [densifyBody] and
    [densifyHands] on a missing argument (for the hands also on an
    object without [landmarks]), and [densify] on a frame in which the
    face, the pose or the hands are absent, whatever the other groups
    are. *)
Theorem absent_group_is_empty (d : Densifier.t) :
  Densifier.densifyFace d None = Js.Ok (Densifier.mkGroup [] 0) /\
  Densifier.densifyBody d None = Js.Ok (Densifier.mkGroup [] 0) /\
  Densifier.densifyHands d None = Js.Ok (Densifier.mkGroup [] 0) /\
  (forall handedness,
      Densifier.densifyHands d (Some (Densifier.mkHands None handedness))
      = Js.Ok (Densifier.mkGroup [] 0)) /\
  (forall timestamp fps,
      Densifier.densify d
        (Some (Densifier.mkTracking None None None timestamp fps))
      = Js.Ok (Some (Densifier.mkDense
                       (Densifier.mkGroup [] 0) (Densifier.mkGroup [] 0)
                       (Densifier.mkGroup [] 0) [] timestamp fps 0))) /\
  (forall pose hands timestamp fps,
      Densifier.densify d
        (Some (Densifier.mkTracking None pose hands timestamp fps))
      = (b ← Densifier.densifyBody d
               (match pose with Some r => Densifier.landmarks r | None => None end);
         h ← Densifier.densifyHands d hands;
         Js.Ok (Some (Densifier.mkDense (Densifier.mkGroup [] 0) b h []
                        timestamp fps
                        (0 + Densifier.count b + Densifier.count h))))) /\
  (forall face hands timestamp fps,
      Densifier.densify d
        (Some (Densifier.mkTracking face None hands timestamp fps))
      = (f ← Densifier.densifyFace d
               (match face with Some r => Densifier.landmarks r | None => None end);
         h ← Densifier.densifyHands d hands;
         Js.Ok (Some (Densifier.mkDense f (Densifier.mkGroup [] 0) h
                        (default [] (match face with
                                     | Some r => Densifier.blendshapes r
                                     | None => None
                                     end))
                        timestamp fps
                        (Densifier.count f + 0 + Densifier.count h))))) /\
  (forall face pose timestamp fps,
      Densifier.densify d
        (Some (Densifier.mkTracking face pose None timestamp fps))
      = (f ← Densifier.densifyFace d
               (match face with Some r => Densifier.landmarks r | None => None end);
         b ← Densifier.densifyBody d
               (match pose with Some r => Densifier.landmarks r | None => None end);
         Js.Ok (Some (Densifier.mkDense f b (Densifier.mkGroup [] 0)
                        (default [] (match face with
                                     | Some r => Densifier.blendshapes r
                                     | None => None
                                     end))
                        timestamp fps
                        (Densifier.count f + Densifier.count b + 0))))).
Proof.
  repeat split; intros; reflexivity.
Qed.



End DensifierFrames.

(* ================================================================== *)
(** * Wave Motion Engine: the body pass *)
(* ================================================================== *)

Section WaveMaps.
Local Open Scope R_scope.
Import Props.

Lemma get_set {V : Type} (n m : nat) (v : V) (acc : list (nat * V)) :
  JsMap.get n (JsMap.set m v acc)
  = if decide (n = m) then Some v else JsMap.get n acc.
Proof.
  induction acc as [|[k w] acc IH]; simpl.
  - destruct (decide (n = m)); reflexivity.
  - destruct (decide (m = k)) as [->|Hmk]; simpl.
    + destruct (decide (n = k)); reflexivity.
    + rewrite IH. destruct (decide (n = k)) as [->|Hnk].
      * destruct (decide (k = m)); [congruence|reflexivity].
      * reflexivity.
Qed.








End WaveMaps.

Section WaveBodyPass.
Local Open Scope R_scope.
Import Props.

Lemma get_elem {V : Type} (k : nat) (v : V) (m : list (nat * V)) :
  JsMap.get k m = Some v -> (k, v) ∈ m.
Proof.
  induction m as [|[k' v'] m IH]; simpl; [discriminate|].
  destruct (decide (k = k')) as [->|Hne].
  - intros [= ->]. left.
  - intros H. right. now apply IH.
Qed.

(** Points without the original index [k] leave its map entry alone. *)
Lemma currentVelocitiesFrom_frame (e : WaveMotionEngine.t) (dt : R) (k : nat)
    (ps : list Point.t) :
  forall (idx : nat) (acc : list (nat * Velocity.t)),
    (forall j q, ps !! j = Some q -> Point.originalIndex q <> Some k) ->
    JsMap.get k (WaveMotionEngine.currentVelocitiesFrom e dt idx ps acc)
    = JsMap.get k acc.
Proof.
  induction ps as [|p rest IH]; intros idx acc Hne; [reflexivity|].
  cbn [WaveMotionEngine.currentVelocitiesFrom]. rewrite IH.
  - pose proof (Hne 0%nat p eq_refl) as Hp.
    destruct (Point.originalIndex p) as [k0|]; [|reflexivity].
    rewrite get_set. destruct (decide (k = k0)); [congruence|reflexivity].
  - intros j q Hq. apply (Hne (S j) q Hq).
Qed.

(** The velocity of an original index comes from the last point that
    carries it, against the previous frame's point at the same array
    position. *)
Lemma currentVelocitiesFrom_get (e : WaveMotionEngine.t) (dt : R) (k : nat)
    (ps : list Point.t) :
  forall (idx : nat) (acc : list (nat * Velocity.t)) (i : nat) (p : Point.t),
    ps !! i = Some p ->
    Point.originalIndex p = Some k ->
    (forall j q, (i < j)%nat -> ps !! j = Some q ->
                 Point.originalIndex q <> Some k) ->
    JsMap.get k (WaveMotionEngine.currentVelocitiesFrom e dt idx ps acc)
    = Some (WaveMotionEngine.calculateVelocity p
              (WaveMotionEngine.previousBodyPoint e (idx + i)) dt).
Proof.
  induction ps as [|p0 rest IH]; intros idx acc i p Hi Hk Hlater;
    [discriminate|].
  cbn [WaveMotionEngine.currentVelocitiesFrom].
  destruct i as [|i]; simpl in Hi.
  - injection Hi as ->. rewrite currentVelocitiesFrom_frame.
    + rewrite Hk, get_set, Nat.add_0_r.
      destruct (decide (k = k)); [reflexivity|congruence].
    + intros j q Hq. apply (Hlater (S j) q); [lia|exact Hq].
  - rewrite (IH (S idx) _ i p Hi Hk).
    + do 3 f_equal. lia.
    + intros j q Hj Hq. apply (Hlater (S j) q); [lia|exact Hq].
Qed.

(** The connection map the body pass builds from the constructor's
    network: an index named by two segments keeps the neighbours of
    the later one. *)
Lemma connectionMap_default :
  WaveMotionEngine.buildConnectionMap WaveMotionEngine.defineBodyNetwork
  = list_to_map
      [ (11, [13]); (12, [14]); (23, [25]); (24, [26]);
        (13, [11; 15]); (15, [13]); (14, [12; 16]); (16, [14]);
        (25, [23; 27]); (27, [25]); (26, [24; 28]); (28, [26]) ]%nat.
Proof. apply map_eq. intros i. vm_compute. reflexivity. Qed.


End WaveBodyPass.

Section WaveWitness.
Local Open Scope R_scope.
Import Props.



End WaveWitness.

(* ================================================================== *)
(** * Further properties of the filter stages *)
(* ================================================================== *)

Section FilterRuns.
Local Open Scope R_scope.
Import Props.

Local Arguments Point3DFilter.filter : simpl never.





(** An axis that is at rest at [v], or has no history, returns [v] for
    the sample [v] and is at rest at [v] afterwards. *)
Lemma axis_still (u : bool) (e : OneEuroFilter.t) (k : KalmanFilter1D.t)
    (v t : R) :
  (OneEuroFilter.tPrev e = None /\ KalmanFilter1D.x k = None
   /\ KalmanFilter1D.velocity k = 0) \/
  (OneEuroFilter.tPrev e <> None /\ OneEuroFilter.xPrev e = Some v /\
   (u = true -> KalmanFilter1D.x k = Some v /\ KalmanFilter1D.velocity k = 0)) ->
  let r := axis u e k v t in
  r.2 = v /\
  OneEuroFilter.tPrev r.1.1 <> None /\ OneEuroFilter.xPrev r.1.1 = Some v /\
  (u = true -> KalmanFilter1D.x r.1.2 = Some v
               /\ KalmanFilter1D.velocity r.1.2 = 0).
Proof.
  intros [(He & Hk & Hv)|(He & Hx & Hk)]; cbv zeta.
  - rewrite (axis_first u e k v t He Hk). cbn [fst snd].
    repeat split; try discriminate. all: destruct u; [|discriminate].
    + reflexivity.
    + exact Hv.
  - unfold axis, OneEuroFilter.filter.
    destruct (OneEuroFilter.tPrev e) as [tp|]; [|congruence].
    rewrite Hx. cbn [fst snd Js.to_number].
    match goal with
    | |- context [OneEuroFilter.lowPass v v ?a] =>
        replace (OneEuroFilter.lowPass v v a) with v
          by (unfold OneEuroFilter.lowPass; lra)
    end.
    destruct u.
    + destruct (Hk eq_refl) as [Hkx Hkv].
      unfold KalmanFilter1D.update. rewrite Hkx, Hkv.
      cbn [fst snd OneEuroFilter.tPrev OneEuroFilter.xPrev KalmanFilter1D.x
           KalmanFilter1D.velocity].
      match goal with
      | |- context [Rmax ?a ?b] => set (dt := Rmax a b)
      end.
      match goal with
      | |- context [(?p + ?q) / (?p + ?q + ?r)] => set (K := (p + q) / (p + q + r))
      end.
      assert (Hout : v + 0 * dt + K * (v - (v + 0 * dt)) = v) by lra.
      rewrite Hout.
      split; [reflexivity|]. split; [discriminate|]. split; [reflexivity|].
      intros _. split; [reflexivity|].
      unfold Rdiv. lra.
    + cbn [fst snd OneEuroFilter.tPrev OneEuroFilter.xPrev].
      split; [reflexivity|]. split; [discriminate|]. split; [reflexivity|].
      discriminate.
Qed.

End FilterRuns.

Section StillInput.
Local Open Scope R_scope.
Import Props.

Local Arguments Point3DFilter.filter : simpl never.

Lemma rested_atRestAt (f : Point3DFilter.t) (p : Point.t) :
  rested f -> atRestAt f p.
Proof.
  intros ((Ex & Ey & Ez & Kx & Ky & Kz) & Vx & Vy & Vz).
  repeat split; left; repeat split; assumption.
Qed.

Lemma new_rested (cfg : Config.t) : rested (Point3DFilter.new cfg).
Proof. repeat split. Qed.

Lemma reset_rested (f : Point3DFilter.t) : rested (Point3DFilter.reset f).
Proof. repeat split. Qed.

(** A filter at rest at [p] returns the raw point for [p] and stays at
    rest there. *)
Lemma filter_still (f : Point3DFilter.t) (p : Point.t) (t : R) :
  atRestAt f p ->
  (Point3DFilter.filter f (Some p) t).2 = Some (rawPoint p) /\
  atRestAt (Point3DFilter.filter f (Some p) t).1 p.
Proof.
  intros (Hx & Hy & Hz). rewrite filter_present. cbv zeta.
  pose proof (axis_still _ _ _ _ t Hx) as Sx.
  pose proof (axis_still _ _ _ _ t Hy) as Sy.
  pose proof (axis_still _ _ _ _ t Hz) as Sz.
  cbv zeta in Sx, Sy, Sz.
  destruct Sx as (Ox & Tx & Px & Kx), Sy as (Oy & Ty & Py & Ky),
    Sz as (Oz & Tz & Pz & Kz).
  cbn [fst snd]. rewrite Ox, Oy, Oz. split; [reflexivity|].
  unfold atRestAt.
  cbn [Point3DFilter.useKalman Point3DFilter.euroX Point3DFilter.euroY
       Point3DFilter.euroZ Point3DFilter.kalmanX Point3DFilter.kalmanY
       Point3DFilter.kalmanZ].
  repeat split; right; repeat split; try assumption.
  all: first [apply Kx; assumption|apply Ky; assumption|apply Kz; assumption].
Qed.




End StillInput.

Section KalmanGain.
Local Open Scope R_scope.
Import Props.

(** X3.  An update of the predictive stage that has an estimate, with
    positive uncertainty and positive noise parameters, computes a gain
    strictly between 0 and 1, returns a value between its own
    prediction [x + velocity * dt] and the measurement, and leaves an
    uncertainty that is again positive and smaller than both the
    measurement noise and the predicted uncertainty [P + Q]: the
    uncertainty stays positive and bounded over any number of updates. *)
Theorem kalman_update_is_a_blend (k : KalmanFilter1D.t) (x0 m t : R) :
  KalmanFilter1D.x k = Some x0 ->
  0 < KalmanFilter1D.P k ->
  0 < KalmanFilter1D.Qn k ->
  0 < KalmanFilter1D.Rn k ->
  let k' := (KalmanFilter1D.update k m t).1 in
  let out := (KalmanFilter1D.update k m t).2 in
  let xPredicted :=
    x0 + KalmanFilter1D.velocity k
         * Rmax ((t - Js.to_number (KalmanFilter1D.lastTimestamp k)) / 1000) 0.001 in
  0 < KalmanFilter1D.K k' < 1 /\
  Rmin xPredicted m <= out <= Rmax xPredicted m /\
  KalmanFilter1D.x k' = Some out /\
  0 < KalmanFilter1D.P k' /\
  KalmanFilter1D.P k' < KalmanFilter1D.Rn k /\
  KalmanFilter1D.P k' < KalmanFilter1D.P k + KalmanFilter1D.Qn k /\
  KalmanFilter1D.Qn k' = KalmanFilter1D.Qn k /\
  KalmanFilter1D.Rn k' = KalmanFilter1D.Rn k.
Proof.
  intros Hx HP HQ HR. cbv zeta. unfold KalmanFilter1D.update. rewrite Hx.
  cbn [fst snd KalmanFilter1D.K KalmanFilter1D.P KalmanFilter1D.x
       KalmanFilter1D.Qn KalmanFilter1D.Rn].
  set (dt := Rmax _ 0.001).
  set (xp := x0 + KalmanFilter1D.velocity k * dt).
  set (pp := KalmanFilter1D.P k + KalmanFilter1D.Qn k).
  set (r := KalmanFilter1D.Rn k) in *.
  assert (Hpp : 0 < pp) by (unfold pp; lra).
  assert (HK : pp / (pp + r) * (pp + r) = pp)
    by (unfold Rdiv; rewrite Rmult_assoc, Rinv_l by lra; lra).
  set (K := pp / (pp + r)) in *.
  assert (HK0 : 0 < K) by (apply Rdiv_lt_0_compat; lra).
  assert (HK1 : K < 1) by nra.
  split; [split; assumption|].
  split.
  { unfold Rmin, Rmax. destruct (Rle_dec xp m); split; nra. }
  split; [reflexivity|].
  assert (HP' : (1 - K) * pp = K * r) by nra.
  rewrite HP'. repeat split; nra.
Qed.

(** The second update of a default stage seeded at [0.5]. *)
Lemma kalman_update_is_a_blend_witness :
  0 < KalmanFilter1D.K
        (KalmanFilter1D.update
           (KalmanFilter1D.mk 0.005 0.05 (Some 0.5) 1 0 0 (Some 0)) 0.6 16.7).1
    < 1.
Proof.
  refine (proj1 (kalman_update_is_a_blend
                   (KalmanFilter1D.mk 0.005 0.05 (Some 0.5) 1 0 0 (Some 0))
                   0.5 0.6 16.7 eq_refl _ _ _)); simpl; lra.
Defined.

End KalmanGain.

Section OcclusionRuns.
Local Open Scope R_scope.
Import Props.

Local Arguments Point3DFilter.filter : simpl never.

Lemma filter_absent_counted (f : Point3DFilter.t) (c : nat) (t : R)
    (q : Filtered.t) :
  (S c <= 10)%nat ->
  Point3DFilter.useKalman f = true ->
  Point3DFilter.lastPoint f = Some q ->
  Point3DFilter.filter (with_occlusionFrames c f) None t
  = (with_occlusionFrames (S c) f, Some (predictedAt f t)).
Proof.
  intros Hc Hu Hl.
  rewrite (filter_absent_predicts (with_occlusionFrames c f) t q);
    [reflexivity|exact Hc|exact Hu|exact Hl].
Qed.

Lemma misses_counted (f : Point3DFilter.t) (q : Filtered.t) (ts : list R) :
  Point3DFilter.useKalman f = true ->
  Point3DFilter.lastPoint f = Some q ->
  forall c : nat,
    (c + length ts <= 10)%nat ->
    filterRun (with_occlusionFrames c f) ((fun t => (None, t)) <$> ts)
    = (with_occlusionFrames (c + length ts) f,
       (fun t => Some (predictedAt f t)) <$> ts).
Proof.
  intros Hu Hl. induction ts as [|t rest IH]; intros c Hc.
  - simpl. now rewrite Nat.add_0_r.
  - cbn [fmap list_fmap filterRun length] in *.
    rewrite (filter_absent_counted f c t q) by (lia || assumption).
    change (list_fmap _ _ (fun t => (None, t)) rest)
      with ((fun t : R => (@None Point.t, t)) <$> rest).
    rewrite (IH (S c)) by lia.
    replace (S c + length rest)%nat with (c + S (length rest))%nat by lia.
    reflexivity.
Qed.

(** X4.  Called with a missing point up to ten times in a row, a
    filter that has a last point and the Kalman stage returns a
    predicted point each time (the estimate extrapolated by the stored
    velocity to the call's timestamp, visibility [0.3],
    [predicted = true]) and changes nothing but its miss counter, which
    counts the calls: the low-pass and Kalman states, and so the basis
    of every prediction, stay those of the last sighting. *)
Theorem misses_predict_and_keep_state (f : Point3DFilter.t) (q : Filtered.t)
    (ts : list R) :
  Point3DFilter.useKalman f = true ->
  Point3DFilter.lastPoint f = Some q ->
  (Point3DFilter.occlusionFrames f + length ts <= 10)%nat ->
  filterRun f ((fun t => (None, t)) <$> ts)
  = (with_occlusionFrames (Point3DFilter.occlusionFrames f + length ts) f,
     (fun t => Some (predictedAt f t)) <$> ts).
Proof.
  intros Hu Hl Hc.
  rewrite <- (misses_counted f q ts Hu Hl _ Hc).
  destruct f; reflexivity.
Qed.

(** Ten misses after the first sample of the scenario. *)
Lemma misses_predict_and_keep_state_witness :
  let f := (Point3DFilter.filter (Point3DFilter.new Samples.defaultConfig)
              (Some (Samples.facePoint 0 0.5 1)) 0).1 in
  let ts := [16; 33; 50; 66; 83; 100; 116; 133; 150; 166] in
  filterRun f ((fun t => (None, t)) <$> ts)
  = (with_occlusionFrames 10 f, (fun t => Some (predictedAt f t)) <$> ts).
Proof.
  cbv zeta.
  rewrite (filter_new Samples.defaultConfig 0 (Samples.facePoint 0 0.5 1) eq_refl).
  cbv zeta.
  eapply misses_predict_and_keep_state; [reflexivity|reflexivity|simpl; lia].
Defined.

(** X5.  A miss that takes the counter beyond ten makes the filter
    forget: the call returns [null], and the next point that is seen is
    returned with its raw coordinates, as by a new filter, whatever the
    filter had tracked before. *)
Theorem eleventh_miss_forgets (f : Point3DFilter.t) (p : Point.t) (t1 t2 : R) :
  (10 <= Point3DFilter.occlusionFrames f)%nat ->
  let r1 := Point3DFilter.filter f None t1 in
  let r2 := Point3DFilter.filter r1.1 (Some p) t2 in
  r1.2 = None /\
  rested r1.1 /\
  r2.2 = Some (rawPoint p) /\
  Point3DFilter.occlusionFrames r2.1 = 0%nat.
Proof.
  intros Hc. cbv zeta.
  destruct (filter_absent_resets f t1 ltac:(lia)) as (Hr & _).
  rewrite Hr. cbn [fst snd].
  split; [reflexivity|]. split; [apply reset_rested|].
  split.
  - apply filter_still, rested_atRestAt, reset_rested.
  - rewrite filter_present. reflexivity.
Qed.

(** The filter of the scenario after ten misses, missed once more and
    then shown a point elsewhere. *)
Lemma eleventh_miss_forgets_witness :
  let f := with_occlusionFrames 10
             (Point3DFilter.filter (Point3DFilter.new Samples.defaultConfig)
                (Some (Samples.facePoint 0 0.5 1)) 0).1 in
  (Point3DFilter.filter (Point3DFilter.filter f None 183).1
     (Some (Samples.facePoint 0 0.9 1)) 200).2
  = Some (rawPoint (Samples.facePoint 0 0.9 1)).
Proof.
  cbv zeta.
  refine (proj1 (proj2 (proj2 (eleventh_miss_forgets _ _ 183 200 _)))).
  simpl. lia.
Defined.

End OcclusionRuns.

Section FilterInvariant.
Local Open Scope R_scope.
Import Props.

Local Arguments Point3DFilter.filter : simpl never.

Lemma kalman_update_estimate (k : KalmanFilter1D.t) (m t : R) :
  is_Some (KalmanFilter1D.x (KalmanFilter1D.update k m t).1).
Proof.
  unfold KalmanFilter1D.update. destruct (KalmanFilter1D.x k); simpl; eauto.
Qed.

Lemma kalman_predict_estimate (k : KalmanFilter1D.t) (t : R) :
  is_Some (KalmanFilter1D.x k) -> is_Some (KalmanFilter1D.predict k t).
Proof.
  intros [x0 Hx]. unfold KalmanFilter1D.predict. rewrite Hx. eauto.
Qed.

Lemma new_coherent (cfg : Config.t) : coherent (Point3DFilter.new cfg).
Proof. split; [discriminate|]. intros _ H. now contradict H. Qed.

(** One call keeps the invariant, bounds the counter and returns
    numbers. *)
Lemma filter_coherent (f : Point3DFilter.t) (point : option Point.t) (t : R) :
  coherent f ->
  coherent (Point3DFilter.filter f point t).1 /\
  (Point3DFilter.occlusionFrames (Point3DFilter.filter f point t).1 <= 10)%nat /\
  (forall q, (Point3DFilter.filter f point t).2 = Some q -> numeric q).
Proof.
  intros [Hlast Hkal]. destruct point as [p|].
  - rewrite filter_present. cbv zeta. cbn [fst snd].
    split; [|split; [simpl; lia|]].
    + split.
      * cbn [Point3DFilter.lastPoint]. intros q [= <-]. repeat split; eauto.
      * cbn [Point3DFilter.useKalman Point3DFilter.kalmanX
             Point3DFilter.kalmanY Point3DFilter.kalmanZ].
        intros Hu _. unfold axis. rewrite Hu. cbn [fst snd].
        repeat split; apply kalman_update_estimate.
    + intros q [= <-]. repeat split; eauto.
  - unfold Point3DFilter.filter.
    destruct (10 <? _)%nat eqn:Hlt.
    + cbn [fst snd]. split; [|split; [simpl; lia|discriminate]].
      split; [discriminate|]. intros _ H. now contradict H.
    + apply Nat.ltb_ge in Hlt.
      destruct (_ && _) eqn:Hb; cbn [fst snd].
      * split; [exact (conj Hlast Hkal)|]. split; [exact Hlt|].
        intros q [= <-]. apply andb_true_iff in Hb as [Hu Hs].
        assert (Hsome : Point3DFilter.lastPoint f <> None).
        { intros Hn. cbn [Point3DFilter.incr_occlusion Point3DFilter.lastPoint] in Hs.
          rewrite Hn in Hs. discriminate Hs. }
        destruct (Hkal Hu Hsome) as (Kx & Ky & Kz).
        repeat split; cbn [Filtered.x Filtered.y Filtered.z];
          now apply kalman_predict_estimate.
      * split; [exact (conj Hlast Hkal)|]. split; [exact Hlt|].
        intros q Hq. apply Hlast. exact Hq.
Qed.

(** X6.  Whatever sequence of present and missing points a new
    [Point3DFilter] is called with, every object it returns has numeric
    [x], [y] and [z] (a predicted point never carries the [null] that
    [KalmanFilter1D.predict] returns for a stage without estimate), and
    its miss counter never exceeds ten. *)
Theorem filter_returns_numbers (cfg : Config.t)
    (calls : list (option Point.t * R)) :
  let r := filterRun (Point3DFilter.new cfg) calls in
  Forall (fun o => forall q, o = Some q -> numeric q) r.2 /\
  (Point3DFilter.occlusionFrames r.1 <= 10)%nat.
Proof.
  cbv zeta.
  assert (Hgen : forall f, coherent f ->
            (Point3DFilter.occlusionFrames f <= 10)%nat ->
            Forall (fun o => forall q, o = Some q -> numeric q)
                   (filterRun f calls).2 /\
            (Point3DFilter.occlusionFrames (filterRun f calls).1 <= 10)%nat).
  { induction calls as [|[point t] rest IH]; intros f Hf Hc.
    - split; [constructor|exact Hc].
    - cbn [filterRun].
      destruct (filter_coherent f point t Hf) as (Hf1 & Hc1 & Ho).
      destruct (Point3DFilter.filter f point t) as [f1 o]. cbn [fst snd] in *.
      destruct (IH f1 Hf1 Hc1) as [Hos Hc2].
      destruct (filterRun f1 rest) as [f2 os]. cbn [fst snd] in *.
      split; [constructor; assumption|exact Hc2]. }
  apply Hgen; [apply new_coherent|simpl; lia].
Qed.

End FilterInvariant.

(* ================================================================== *)
(** * Further properties of the Stabilizer *)
(* ================================================================== *)

Section StabilizerFrames.
Local Open Scope R_scope.
Import Props.

Local Arguments Point3DFilter.filter : simpl never.
Local Arguments stabilizedBy : simpl never.
Local Arguments stepMap : simpl never.

(** An array without [null] is an array of objects. *)
Lemma objects_of (ps : list (option Point.t)) :
  None ∉ ps -> exists qs : list Point.t, ps = Some <$> qs.
Proof.
  induction ps as [|[p|] rest IH]; intros Hn.
  - exists []. reflexivity.
  - destruct IH as [qs ->]; [intros H; apply Hn; now right|].
    exists (p :: qs). reflexivity.
  - exfalso. apply Hn. left.
Qed.

(** X7.  [stabilizePoints] returns exactly when no element of the
    array is [null] or [undefined].  It then emits one object per input
    point, in the input order, each with the input's other properties,
    numeric coordinates and [stabilized = true].  With a [null] element
    at any position it throws.  For a missing array it returns [[]] and
    leaves the filter bank alone. *)
Theorem stabilizePoints_needs_objects (cfg : Config.t) (prefix : string)
    (timestamp : R) (filterMap : gmap string Point3DFilter.t)
    (ps : list (option Point.t)) :
  (None ∈ ps ->
   Stabilizer.stabilizePoints cfg (Some ps) filterMap timestamp prefix
   = Js.TypeError) /\
  (None ∉ ps ->
   exists filterMap' out,
     Stabilizer.stabilizePoints cfg (Some ps) filterMap timestamp prefix
     = Js.Ok (filterMap', out) /\
     length out = length ps /\
     forall k p, ps !! k = Some (Some p) ->
       exists o, out !! k = Some o /\
                 Stabilized.source o = p /\
                 Stabilized.stabilized o = true /\
                 is_Some (Stabilized.x o) /\
                 is_Some (Stabilized.y o) /\
                 is_Some (Stabilized.z o)) /\
  Stabilizer.stabilizePoints cfg None filterMap timestamp prefix
  = Js.Ok (filterMap, []).
Proof.
  split; [|split; [|reflexivity]].
  - intros Hin. apply stabilizeFrom_null. now apply list_elem_of_In.
  - intros Hn. destruct (objects_of ps Hn) as [qs ->].
    unfold Stabilizer.stabilizePoints. rewrite stabilizeFrom_present.
    do 2 eexists. split; [reflexivity|].
    split; [now rewrite outputs_length, length_fmap|].
    intros k p Hk. rewrite list_lookup_fmap in Hk.
    destruct (qs !! k) as [p'|] eqn:Hq; [|discriminate Hk].
    injection Hk as ->.
    destruct (outputs_lookup_any cfg prefix timestamp qs 0 filterMap k p Hq)
      as [f Hf].
    eexists. split; [exact Hf|]. unfold stabilizedBy.
    repeat split; eauto.
Qed.

(** The sample frame with a hole, and the sample frame without. *)
Lemma stabilizePoints_needs_objects_witness :
  Stabilizer.stabilizePoints Samples.defaultConfig (Some Samples.frame2_null)
    ∅ 16.7 "face_" = Js.TypeError /\
  exists filterMap' out,
    Stabilizer.stabilizePoints Samples.defaultConfig
      (Some (Some <$> Samples.frame1)) ∅ 0 "face_" = Js.Ok (filterMap', out) /\
    length out = 3%nat.
Proof.
  pose proof (stabilizePoints_needs_objects Samples.defaultConfig "face_" 16.7 ∅
                Samples.frame2_null) as [Hnull _].
  pose proof (stabilizePoints_needs_objects Samples.defaultConfig "face_" 0 ∅
                (Some <$> Samples.frame1)) as (_ & Hobj & _).
  split.
  - apply Hnull. right. left.
  - destruct Hobj as (fm & out & Hrun & Hlen & _).
    + intros H. repeat (apply elem_of_cons in H as [H|H]; [discriminate H|]).
      inversion H.
    + exists fm, out. split; [exact Hrun|exact Hlen].
Defined.

Lemma stepMap_dom (cfg : Config.t) (prefix : string) (t : R) (i : nat)
    (p : Point.t) (fm : gmap string Point3DFilter.t) :
  dom (stepMap cfg prefix t i p fm) = {[Stabilizer.pointId prefix p i]} ∪ dom fm.
Proof.
  unfold stepMap, Stabilizer.getFilter.
  destruct (fm !! Stabilizer.pointId prefix p i) eqn:Hl; cbn [fst].
  - now rewrite dom_insert_L.
  - rewrite !dom_insert_L. set_solver.
Qed.

Lemma stepMap_size (cfg : Config.t) (prefix : string) (t : R) (i : nat)
    (p : Point.t) (fm : gmap string Point3DFilter.t) :
  (size fm <= size (stepMap cfg prefix t i p fm) <= S (size fm))%nat.
Proof.
  rewrite <- !size_dom, stepMap_dom.
  destruct (decide (Stabilizer.pointId prefix p i ∈ dom fm)) as [Hin|Hout].
  - replace ({[Stabilizer.pointId prefix p i]} ∪ dom fm) with (dom fm)
      by set_solver.
    lia.
  - rewrite size_union by set_solver. rewrite size_singleton. lia.
Qed.

Lemma finalMap_dom (cfg : Config.t) (prefix : string) (t : R)
    (ps : list Point.t) :
  forall (i : nat) (fm : gmap string Point3DFilter.t),
    dom (finalMap cfg prefix t i ps fm)
    = dom fm ∪ list_to_set (frameIds prefix i ps) /\
    (size fm <= size (finalMap cfg prefix t i ps fm) <= size fm + length ps)%nat.
Proof.
  induction ps as [|p rest IH]; intros i fm.
  - simpl. split; [set_solver|lia].
  - cbn [finalMap]. destruct (IH (S i) (stepMap cfg prefix t i p fm)) as [Hd Hs].
    pose proof (stepMap_size cfg prefix t i p fm) as Hstep.
    split; [|simpl; lia].
    rewrite Hd, stepMap_dom. unfold frameIds. cbn [imap list_to_set].
    rewrite Nat.add_0_r.
    replace (imap ((fun j p0 => Stabilizer.pointId prefix p0 (i + j)) ∘ S) rest)
      with (imap (fun j p0 => Stabilizer.pointId prefix p0 (S i + j)) rest).
    + set_solver.
    + apply imap_ext. intros j q _. simpl. f_equal. lia.
Qed.

(** X8.  After [stabilizePoints] on an array of objects the filter
    bank holds exactly the identifiers it held before and those of the
    frame's points: no filter is ever removed, the bank grows by at most
    one filter per point, and the filter of an identifier that does not
    occur in the frame is left exactly as it was (its miss counter
    included). *)
Theorem filter_bank_only_grows (cfg : Config.t) (prefix : string)
    (timestamp : R) (filterMap : gmap string Point3DFilter.t)
    (ps : list Point.t) :
  exists filterMap' out,
    Stabilizer.stabilizePoints cfg (Some (Some <$> ps)) filterMap timestamp prefix
    = Js.Ok (filterMap', out) /\
    dom filterMap' = dom filterMap ∪ list_to_set (frameIds prefix 0 ps) /\
    (size filterMap <= size filterMap' <= size filterMap + length ps)%nat /\
    forall id, id ∉ frameIds prefix 0 ps -> filterMap' !! id = filterMap !! id.
Proof.
  unfold Stabilizer.stabilizePoints. rewrite stabilizeFrom_present.
  do 2 eexists. split; [reflexivity|].
  destruct (finalMap_dom cfg prefix timestamp ps 0 filterMap) as [Hd Hs].
  split; [exact Hd|]. split; [exact Hs|].
  intros id Hid. apply finalMap_frame. intros j q Hq Heq. apply Hid.
  unfold frameIds. apply list_elem_of_lookup. exists j.
  rewrite list_lookup_imap, Hq. simpl. f_equal. exact Heq.
Qed.

End StabilizerFrames.

Section SharedIdentifiers.
Local Open Scope R_scope.
Import Props.

Local Arguments Point3DFilter.filter : simpl never.
Local Arguments stabilizedBy : simpl never.
Local Arguments stepMap : simpl never.

(** The frame of three face points on an empty bank: three filters
    afterwards, and no filter for an identifier outside the frame. *)
Lemma filter_bank_only_grows_witness :
  exists filterMap' out,
    Stabilizer.stabilizePoints Samples.defaultConfig
      (Some (Some <$> Samples.frame1)) ∅ 0 "face_" = Js.Ok (filterMap', out) /\
    (size filterMap' <= 3)%nat /\
    filterMap' !! "face_7" = None.
Proof.
  destruct (filter_bank_only_grows Samples.defaultConfig "face_" 0 ∅
              Samples.frame1) as (fm & out & Hrun & _ & Hs & Hkeep).
  exists fm, out. split; [exact Hrun|]. split.
  - rewrite map_size_empty in Hs. simpl in Hs. lia.
  - rewrite Hkeep; [apply lookup_empty|].
    intros H. vm_compute in H.
    repeat (apply elem_of_cons in H as [H|H]; [discriminate H|]).
    inversion H.
Defined.

Lemma finalMap_app (cfg : Config.t) (prefix : string) (t : R)
    (l1 l2 : list Point.t) :
  forall (i : nat) (fm : gmap string Point3DFilter.t),
    finalMap cfg prefix t i (l1 ++ l2) fm
    = finalMap cfg prefix t (i + length l1) l2 (finalMap cfg prefix t i l1 fm).
Proof.
  induction l1 as [|p rest IH]; intros i fm; simpl.
  - now rewrite Nat.add_0_r.
  - rewrite IH. f_equal. lia.
Qed.




End SharedIdentifiers.

Section Motion.
Local Open Scope R_scope.
Import Props.

(** The running total of [calculateMotion] never decreases. *)
Lemma motion_total_nonneg (pairs : list (Point.t * Point.t)) :
  forall a : R,
    0 <= a ->
    0 <= fold_left
           (fun totalMotion '(c, p) =>
              let dx := Point.x c - Point.x p in
              let dy := Point.y c - Point.y p in
              totalMotion + sqrt (dx * dx + dy * dy))
           pairs a.
Proof.
  induction pairs as [|[c p] rest IH]; intros a Ha; [exact Ha|].
  cbn [fold_left]. apply IH.
  match goal with |- 0 <= a + sqrt ?v => pose proof (sqrt_pos v) end.
  cbv zeta. lra.
Qed.

Lemma motion_total_sym (current previous : list Point.t) :
  forall a : R,
    fold_left
      (fun totalMotion '(c, p) =>
         let dx := Point.x c - Point.x p in
         let dy := Point.y c - Point.y p in
         totalMotion + sqrt (dx * dx + dy * dy))
      (zip current previous) a
    = fold_left
        (fun totalMotion '(c, p) =>
           let dx := Point.x c - Point.x p in
           let dy := Point.y c - Point.y p in
           totalMotion + sqrt (dx * dx + dy * dy))
        (zip previous current) a.
Proof.
  revert previous.
  induction current as [|c cs IH]; intros [|p ps] a; try reflexivity.
  cbn [zip zip_with fold_left]. cbv zeta.
  replace ((Point.x p - Point.x c) * (Point.x p - Point.x c)
           + (Point.y p - Point.y c) * (Point.y p - Point.y c))
    with ((Point.x c - Point.x p) * (Point.x c - Point.x p)
          + (Point.y c - Point.y p) * (Point.y c - Point.y p)) by lra.
  apply IH.
Qed.

Lemma motion_total_same (ps : list Point.t) :
  forall a : R,
    fold_left
      (fun totalMotion '(c, p) =>
         let dx := Point.x c - Point.x p in
         let dy := Point.y c - Point.y p in
         totalMotion + sqrt (dx * dx + dy * dy))
      (zip ps ps) a
    = a.
Proof.
  induction ps as [|p rest IH]; intros a; [reflexivity|].
  cbn [zip zip_with fold_left]. cbv zeta.
  replace ((Point.x p - Point.x p) * (Point.x p - Point.x p)
           + (Point.y p - Point.y p) * (Point.y p - Point.y p)) with 0 by lra.
  rewrite sqrt_0, Rplus_0_r. apply IH.
Qed.

(** X10.  The motion measure [calculateMotion] is never negative, does
    not depend on the order of its two frames, is [0] for a frame
    compared with itself, and is [0] when a frame is missing or empty
    (no division by the zero count). *)
Theorem calculateMotion_is_a_distance
    (current previous : option (list Point.t)) :
  0 <= Stabilizer.calculateMotion current previous /\
  Stabilizer.calculateMotion current previous
  = Stabilizer.calculateMotion previous current /\
  Stabilizer.calculateMotion current current = 0 /\
  Stabilizer.calculateMotion current None = 0 /\
  Stabilizer.calculateMotion None previous = 0 /\
  Stabilizer.calculateMotion current (Some []) = 0 /\
  Stabilizer.calculateMotion (Some []) previous = 0.
Proof.
  split; [|split; [|split; [|split; [|split; [|split]]]]].
  - unfold Stabilizer.calculateMotion.
    destruct current as [c|], previous as [p|]; try lra.
    destruct (Nat.ltb_spec 0 (Nat.min (length c) (length p))) as [Hpos|_];
      [|lra].
    apply Rmult_le_pos; [apply motion_total_nonneg; lra|].
    left. apply Rinv_0_lt_compat. apply (lt_INR 0). exact Hpos.
  - unfold Stabilizer.calculateMotion.
    destruct current as [c|], previous as [p|]; try reflexivity.
    rewrite (Nat.min_comm (length p) (length c)), (motion_total_sym c p).
    reflexivity.
  - unfold Stabilizer.calculateMotion.
    destruct current as [c|]; [|reflexivity].
    rewrite motion_total_same. destruct (0 <? _)%nat; [|reflexivity].
    unfold Rdiv. lra.
  - destruct current; reflexivity.
  - reflexivity.
  - unfold Stabilizer.calculateMotion. destruct current as [c|]; [|reflexivity].
    rewrite Nat.min_0_r. reflexivity.
  - unfold Stabilizer.calculateMotion. destruct previous; reflexivity.
Qed.

End Motion.

Section StabilizeFrame.
Local Open Scope R_scope.
Import Props.

Local Arguments Point3DFilter.filter : simpl never.
Local Arguments Stabilizer.stabilizeFrom : simpl never.

Lemma stabilizePoints_objects (cfg : Config.t) (prefix : string) (t : R)
    (fm : gmap string Point3DFilter.t) (ps : list (option Point.t)) :
  None ∉ ps ->
  exists fm' out,
    Stabilizer.stabilizePoints cfg (Some ps) fm t prefix = Js.Ok (fm', out) /\
    length out = length ps.
Proof.
  intros Hn. destruct (objects_of ps Hn) as [qs ->].
  unfold Stabilizer.stabilizePoints. rewrite stabilizeFrom_present.
  do 2 eexists. split; [reflexivity|].
  now rewrite outputs_length, length_fmap.
Qed.

(** A group without [null] elements is stabilized point by point. *)
Lemma stabilizeGroup_objects (cfg : Config.t) (group : option Stabilizer.Group)
    (fm : gmap string Point3DFilter.t) (t : R) (prefix : string) :
  None ∉ groupPoints group ->
  exists fm' g,
    Stabilizer.stabilizeGroup cfg group fm t prefix = Js.Ok (fm', g) /\
    Stabilizer.stable_count g = length (groupPoints group) /\
    length (Stabilizer.stable_points g) = length (groupPoints group).
Proof.
  intros Hn. unfold Stabilizer.stabilizeGroup, groupPoints in *.
  destruct group as [g|]; [|do 2 eexists; repeat split].
  destruct (Stabilizer.points g) as [ps|]; [|do 2 eexists; repeat split].
  cbn [default] in *.
  destruct (stabilizePoints_objects cfg prefix t fm ps Hn)
    as (fm' & out & Hrun & Hlen).
  rewrite Hrun. cbn [mbind result_bind Js.bind].
  do 2 eexists. split; [reflexivity|].
  cbn [Stabilizer.stable_count Stabilizer.stable_points]. now rewrite Hlen.
Qed.

(** X11.  For a dense frame whose groups hold no [null] element,
    [stabilize] returns a frame with one point per input point in every
    group; each [count] is recomputed from the points (the input
    [count] is not read) and [totalPoints] is their sum; the
    configuration is kept.  The frame's timestamp is used unless it is
    missing or [0]: then the clock value is used instead, so a first
    frame stamped [0] is filtered with the wall-clock time. *)
Theorem stabilize_counts_and_timestamp (s : Stabilizer.t)
    (d : Stabilizer.DenseData) (now : R) :
  None ∉ groupPoints (Stabilizer.face d) ->
  None ∉ groupPoints (Stabilizer.body d) ->
  None ∉ groupPoints (Stabilizer.hands d) ->
  exists s' out,
    Stabilizer.stabilize s (Some d) now = Js.Ok (s', Some out) /\
    Stabilizer.config s' = Stabilizer.config s /\
    Stabilizer.stable_count (Stabilizer.stable_face out)
    = length (groupPoints (Stabilizer.face d)) /\
    Stabilizer.stable_count (Stabilizer.stable_body out)
    = length (groupPoints (Stabilizer.body d)) /\
    Stabilizer.stable_count (Stabilizer.stable_hands out)
    = length (groupPoints (Stabilizer.hands d)) /\
    length (Stabilizer.stable_points (Stabilizer.stable_face out))
    = length (groupPoints (Stabilizer.face d)) /\
    length (Stabilizer.stable_points (Stabilizer.stable_body out))
    = length (groupPoints (Stabilizer.body d)) /\
    length (Stabilizer.stable_points (Stabilizer.stable_hands out))
    = length (groupPoints (Stabilizer.hands d)) /\
    Stabilizer.totalPoints out
    = (length (groupPoints (Stabilizer.face d))
       + length (groupPoints (Stabilizer.body d))
       + length (groupPoints (Stabilizer.hands d)))%nat /\
    Stabilizer.stable_timestamp out = Js.num_or (Stabilizer.timestamp d) now /\
    (Stabilizer.timestamp d = None \/ Stabilizer.timestamp d = Some 0 ->
     Stabilizer.stable_timestamp out = now).
Proof.
  intros Hf Hb Hh. unfold Stabilizer.stabilize.
  set (t := Js.num_or (Stabilizer.timestamp d) now).
  destruct (stabilizeGroup_objects (Stabilizer.config s) (Stabilizer.face d)
              (Stabilizer.faceFilters s) t "face_" Hf)
    as (ff & f & Hrf & Hcf & Hlf).
  destruct (stabilizeGroup_objects (Stabilizer.config s) (Stabilizer.body d)
              (Stabilizer.bodyFilters s) t "body_" Hb)
    as (bf & b & Hrb & Hcb & Hlb).
  destruct (stabilizeGroup_objects (Stabilizer.config s) (Stabilizer.hands d)
              (Stabilizer.handFilters s) t "hand_" Hh)
    as (hf & h & Hrh & Hch & Hlh).
  rewrite Hrf. cbn [mbind result_bind Js.bind].
  rewrite Hrb. cbn [mbind result_bind Js.bind].
  rewrite Hrh. cbn [mbind result_bind Js.bind].
  do 2 eexists. split; [reflexivity|].
  cbn [Stabilizer.config Stabilizer.stable_face Stabilizer.stable_body
       Stabilizer.stable_hands Stabilizer.totalPoints
       Stabilizer.stable_timestamp].
  rewrite Hcf, Hcb, Hch.
  repeat split; try assumption.
  intros Ht. unfold t. now apply num_or_falsy.
Qed.

(** A frame stamped [0] with one face point and no body or hands. *)
Lemma stabilize_counts_and_timestamp_witness :
  exists s' out,
    Stabilizer.stabilize (Stabilizer.new Stabilizer.noOptions)
      (Some (Stabilizer.mkDense
               (Some (Stabilizer.mkGroup
                        (Some [Some (Samples.facePoint 0 0.5 1)]) (Some 7%nat)))
               None None None (Some 0) None)) 1234
    = Js.Ok (s', Some out) /\
    Stabilizer.totalPoints out = 1%nat /\
    Stabilizer.stable_timestamp out = 1234.
Proof.
  destruct (stabilize_counts_and_timestamp (Stabilizer.new Stabilizer.noOptions)
              (Stabilizer.mkDense
                 (Some (Stabilizer.mkGroup
                          (Some [Some (Samples.facePoint 0 0.5 1)]) (Some 7%nat)))
                 None None None (Some 0) None) 1234)
    as (s' & out & Hrun & _ & _ & _ & _ & _ & _ & _ & Htot & _ & Hts).
  - simpl. intros H. apply elem_of_cons in H as [H|H]; [discriminate H|].
    inversion H.
  - simpl. intros H. inversion H.
  - simpl. intros H. inversion H.
  - exists s', out. split; [exact Hrun|]. split; [exact Htot|].
    apply Hts. right. reflexivity.
Defined.

End StabilizeFrame.

(* ================================================================== *)
(** * Further properties of the Densifier *)
(* ================================================================== *)

Section DensifierGeometry.
Local Open Scope R_scope.
Import Props.

(** A loop whose iterations push known rows. *)
Lemma pushEach_rows {A : Type} (l : list A)
    (body : A -> Js.Result (list Point.t)) (row : A -> list Point.t) :
  (forall a, a ∈ l -> body a = Js.Ok (row a)) ->
  Densifier.pushEach l body = Js.Ok (mjoin (row <$> l)).
Proof.
  induction l as [|a l IH]; intros Hbody; [reflexivity|].
  cbn [Densifier.pushEach]. rewrite Hbody by left.
  rewrite IH by (intros b Hb; apply Hbody; now right). reflexivity.
Qed.

Lemma blend_in_range (a b t : R) :
  0 <= t <= 1 -> Rmin a b <= a + (b - a) * t <= Rmax a b.
Proof.
  intros [H0 H1]. unfold Rmin, Rmax. destruct (Rle_dec a b); split; nra.
Qed.

Lemma lerpPoint_inBox (p1 p2 : Point.t) (t : R) :
  0 <= t <= 1 -> inBox p1 p2 (lerpPoint p1 p2 t).
Proof.
  intros Ht. unfold inBox, lerpPoint. cbn [Point.x Point.y Point.z].
  rewrite (num_or_zero (Some _)). cbn [Js.to_number].
  repeat split; apply blend_in_range; exact Ht.
Qed.

Lemma fraction_in_unit (i N : nat) :
  (1 <= i <= N - 1)%nat -> 0 <= INR i / INR N <= 1.
Proof.
  intros Hi.
  assert (HN : 0 < INR N) by (apply (lt_INR 0); lia).
  assert (Hi0 : 0 <= INR i) by apply pos_INR.
  assert (HiN : INR i <= INR N) by (apply le_INR; lia).
  split.
  - apply Rmult_le_pos; [exact Hi0|]. left. now apply Rinv_0_lt_compat.
  - apply (Rmult_le_reg_r (INR N)); [exact HN|].
    unfold Rdiv. rewrite Rmult_assoc, Rinv_l by lra. lra.
Qed.

(** X12.  Every point the linear segment interpolation produces lies
    inside the axis-aligned box spanned by the two endpoints, on [x],
    [y] and [z], for every subdivision count: densification never
    places a point outside the segment it subdivides. *)
Theorem segment_points_stay_in_box (p1 p2 : Point.t) (N : nat) :
  exists pts,
    Densifier.interpolateSegment (Some p1) (Some p2) N = Js.Ok pts /\
    Forall (inBox p1 p2) pts.
Proof.
  rewrite interpolateSegment_present. eexists. split; [reflexivity|].
  apply Forall_fmap, Forall_forall. intros i Hi.
  apply elem_of_seq in Hi. cbn [compose].
  apply lerpPoint_inBox, fraction_in_unit. lia.
Qed.





End DensifierGeometry.

Section DensifierContours.
Local Open Scope R_scope.
Import Props.

Lemma subdivideContour_rows (lms : list Point.t) (indices : list nat)
    (subs : nat) :
  (forall idx, idx ∈ indices -> (idx < length lms)%nat) ->
  Densifier.subdivideContour lms indices subs
  = Js.Ok (mjoin (contourRow lms indices subs noPoint <$> seq 0 (length indices))).
Proof.
  intros Hall. unfold Densifier.subdivideContour. cbv zeta.
  apply pushEach_rows. intros i Hi. apply elem_of_seq in Hi.
  assert (Hn : (0 < length indices)%nat) by lia.
  destruct (lookup_lt_is_Some_2 indices i ltac:(lia)) as [idx Hidx].
  destruct (lookup_lt_is_Some_2 indices ((i + 1) mod length indices))
    as [idx' Hidx']; [apply Nat.mod_upper_bound; lia|].
  destruct (lookup_lt_is_Some_2 lms idx) as [c Hc];
    [apply Hall; eapply list_elem_of_lookup_2; exact Hidx|].
  destruct (lookup_lt_is_Some_2 lms idx') as [nx Hnx];
    [apply Hall; eapply list_elem_of_lookup_2; exact Hidx'|].
  unfold contourRow. rewrite Hidx, Hidx'. cbn [from_option]; unfold Datatypes.id.
  rewrite Hc, Hnx. cbn [from_option mbind result_bind Js.bind]; unfold Datatypes.id.
  rewrite interpolateSegment_present. cbn [mbind result_bind Js.bind].
  now rewrite Nat.add_sub.
Qed.

Lemma contourRow_length (lms : list Point.t) (indices : list nat)
    (subs : nat) (i : nat) :
  length (contourRow lms indices subs noPoint i) = S subs.
Proof. unfold contourRow. cbn [length]. now rewrite length_fmap, length_seq. Qed.

Lemma subdivideContour_length (lms : list Point.t) (indices : list nat)
    (subs : nat) :
  (forall idx, idx ∈ indices -> (idx < length lms)%nat) ->
  exists pts, Densifier.subdivideContour lms indices subs = Js.Ok pts /\
              length pts = (length indices * S subs)%nat.
Proof.
  intros Hall. rewrite subdivideContour_rows by exact Hall.
  eexists. split; [reflexivity|].
  rewrite length_join, (sum_list_fmap_same (S subs)).
  - now rewrite length_fmap, length_seq.
  - apply Forall_fmap, Forall_forall. intros i _. apply contourRow_length.
Qed.

(** A contour index without landmark makes the subdivision throw. *)
Lemma subdivideContour_missing (lms : list Point.t) (indices : list nat)
    (subs idx : nat) :
  (1 <= subs)%nat -> idx ∈ indices -> lms !! idx = None ->
  Densifier.subdivideContour lms indices subs = Js.TypeError.
Proof.
  intros _ Hin Hmiss. apply list_elem_of_lookup in Hin as [i Hi].
  unfold Densifier.subdivideContour. cbv zeta.
  apply (pushEach_error _ _ i).
  - apply elem_of_seq. apply lookup_lt_Some in Hi. lia.
  - rewrite Hi. cbn [from_option]; unfold Datatypes.id. rewrite Hmiss. reflexivity.
Qed.

(** X14.  For a closed contour whose indices all have a landmark,
    [subdivideContour] returns [n * (subdivisions + 1)] points, edge by
    edge: first the original landmark of the edge, unchanged but for the
    added [originalIndex], then [subdivisions] evenly spaced points
    towards the next landmark of the contour; the edge after the last
    index leads back to the first one. *)
Theorem contour_is_closed_and_keeps_originals (lms : list Point.t)
    (indices : list nat) (subs : nat) :
  (forall idx, idx ∈ indices -> (idx < length lms)%nat) ->
  exists pts,
    Densifier.subdivideContour lms indices subs = Js.Ok pts /\
    length pts = (length indices * S subs)%nat /\
    forall i idx idx' c nx,
      indices !! i = Some idx ->
      indices !! ((i + 1) mod length indices)%nat = Some idx' ->
      lms !! idx = Some c ->
      lms !! idx' = Some nx ->
      pts !! (i * S subs)%nat = Some (Point.with_originalIndex idx c) /\
      forall k, (1 <= k <= subs)%nat ->
        pts !! (i * S subs + k)%nat
        = Some (lerpPoint c nx (INR k / INR (subs + 1))).
Proof.
  intros Hall.
  destruct (subdivideContour_length lms indices subs Hall) as (pts & Hrun & Hlen).
  exists pts. split; [exact Hrun|]. split; [exact Hlen|].
  rewrite subdivideContour_rows in Hrun by exact Hall. injection Hrun as <-.
  assert (Hrows : Forall (fun l : list Point.t => length l = S subs)
                    (contourRow lms indices subs noPoint <$> seq 0 (length indices))).
  { apply Forall_fmap, Forall_forall. intros i _. apply contourRow_length. }
  intros i idx idx' c nx Hi Hi' Hc Hnx.
  assert (Hlt : (i < length indices)%nat) by (now apply lookup_lt_Some in Hi).
  assert (Hrow : (contourRow lms indices subs noPoint <$> seq 0 (length indices)) !! i
                 = Some (Point.with_originalIndex idx c
                         :: ((fun k => lerpPoint c nx (INR k / INR (subs + 1)))
                               <$> seq 1 subs))).
  { rewrite list_lookup_fmap, lookup_seq_lt by exact Hlt.
    unfold contourRow. cbn [fmap option_fmap option_map plus].
    rewrite Hi, Hi'. cbn [from_option]; unfold Datatypes.id. now rewrite Hc, Hnx. }
  split.
  - replace (i * S subs)%nat with (i * S subs + 0)%nat by lia.
    apply (join_lookup_Some_same_length' (S subs)); [exact Hrows|lia|].
    eexists. split; [exact Hrow|reflexivity].
  - intros k Hk.
    apply (join_lookup_Some_same_length' (S subs)); [exact Hrows|lia|].
    eexists. split; [exact Hrow|].
    rewrite lookup_cons_ne_0 by lia.
    rewrite list_lookup_fmap, lookup_seq_lt by lia.
    replace (1 + Nat.pred k)%nat with k by lia. reflexivity.
Qed.

(** A triangle of three landmarks, one point per edge: the last edge
    runs from landmark 2 back to landmark 0. *)
Lemma contour_is_closed_and_keeps_originals_witness :
  let lm x := Point.raw x 0.5 (Some 0) (Some 1) in
  exists pts,
    Densifier.subdivideContour [lm 0; lm 1; lm 2] [0; 1; 2]%nat 1 = Js.Ok pts /\
    length pts = 6%nat /\
    pts !! 5%nat = Some (lerpPoint (lm 2) (lm 0) (INR 1 / INR 2)).
Proof.
  cbv zeta.
  destruct (contour_is_closed_and_keeps_originals
              [Point.raw 0 0.5 (Some 0) (Some 1); Point.raw 1 0.5 (Some 0) (Some 1);
               Point.raw 2 0.5 (Some 0) (Some 1)] [0; 1; 2]%nat 1)
    as (pts & Hrun & Hlen & Hat).
  - intros idx Hin.
    repeat (apply elem_of_cons in Hin as [->|Hin]; [simpl; lia|]).
    inversion Hin.
  - exists pts. split; [exact Hrun|]. split; [exact Hlen|].
    destruct (Hat 2%nat 2%nat 0%nat _ _ eq_refl eq_refl eq_refl eq_refl)
      as [_ Hk].
    apply (Hk 1%nat). lia.
Defined.

End DensifierContours.

Section DensifierLayers.
Local Open Scope R_scope.
Import Props.

Lemma centroidSum_present (lms : list Point.t) (indices : list nat) :
  (forall idx, idx ∈ indices -> (idx < length lms)%nat) ->
  forall acc, exists r, Densifier.centroidSum lms indices acc = Js.Ok r.
Proof.
  induction indices as [|idx rest IH]; intros Hall acc; [eexists; reflexivity|].
  cbn [Densifier.centroidSum].
  destruct (lookup_lt_is_Some_2 lms idx) as [p Hp]; [apply Hall; left|].
  rewrite Hp. destruct acc as [[x y] z].
  apply IH. intros i Hi. apply Hall. now right.
Qed.

Lemma centroidSum_missing (lms : list Point.t) (indices : list nat) (idx : nat) :
  idx ∈ indices -> lms !! idx = None ->
  forall acc, Densifier.centroidSum lms indices acc = Js.TypeError.
Proof.
  intros Hin Hmiss. induction indices as [|i rest IH]; intros acc;
    [inversion Hin|].
  cbn [Densifier.centroidSum].
  destruct (lms !! i) as [p|] eqn:Hp; [|reflexivity].
  destruct acc as [[x y] z]. apply IH.
  apply elem_of_cons in Hin as [->|Hin]; [congruence|exact Hin].
Qed.

Lemma createDepthLayers_rows (lms : list Point.t) (indices : list nat)
    (numLayers : nat) :
  (forall idx, idx ∈ indices -> (idx < length lms)%nat) ->
  Densifier.createDepthLayers lms indices numLayers
  = Js.Ok (mjoin ((fun layer =>
                     (fun idx => layerPoint layer (default noPoint (lms !! idx)))
                       <$> indices)
                    <$> seq 0 numLayers)).
Proof.
  intros Hall. unfold Densifier.createDepthLayers, Densifier.computeCentroid.
  destruct (centroidSum_present lms indices Hall (0, 0, 0)) as [[[x y] z] Hc].
  rewrite Hc. cbn [mbind result_bind Js.bind].
  apply pushEach_rows. intros layer _.
  apply pushEach_singletons. intros idx Hin.
  destruct (lookup_lt_is_Some_2 lms idx (Hall idx Hin)) as [p Hp].
  rewrite Hp. reflexivity.
Qed.

Lemma createDepthLayers_length (lms : list Point.t) (indices : list nat)
    (numLayers : nat) :
  (forall idx, idx ∈ indices -> (idx < length lms)%nat) ->
  exists pts, Densifier.createDepthLayers lms indices numLayers = Js.Ok pts /\
              length pts = (numLayers * length indices)%nat.
Proof.
  intros Hall. rewrite createDepthLayers_rows by exact Hall.
  eexists. split; [reflexivity|].
  rewrite length_join, (sum_list_fmap_same (length indices)).
  - now rewrite length_fmap, length_seq.
  - apply Forall_fmap, Forall_forall. intros i _. cbn [compose].
    now rewrite length_fmap.
Qed.

Lemma createDepthLayers_missing (lms : list Point.t) (indices : list nat)
    (numLayers idx : nat) :
  idx ∈ indices -> lms !! idx = None ->
  Densifier.createDepthLayers lms indices numLayers = Js.TypeError.
Proof.
  intros Hin Hmiss. unfold Densifier.createDepthLayers, Densifier.computeCentroid.
  now rewrite (centroidSum_missing lms indices idx Hin Hmiss).
Qed.

(** X15.  For a region whose indices all have a landmark,
    [createDepthLayers] returns [numLayers] copies of the region, layer
    by layer: the copy of a landmark on layer [l] keeps [x] and [y], has
    depth [(z || 0) - l * 0.02] and visibility [visibility || 1], is
    tagged [depthLayer = l] and is flagged interpolated exactly for
    [l > 0]; layer 0 is at the landmark's own depth.  An index without
    landmark makes the call throw even when no layer is asked for,
    because the (unused) centroid is computed first. *)
Theorem depth_layers (lms : list Point.t) (indices : list nat)
    (numLayers : nat) :
  ((forall idx, idx ∈ indices -> (idx < length lms)%nat) ->
   exists pts,
     Densifier.createDepthLayers lms indices numLayers = Js.Ok pts /\
     length pts = (numLayers * length indices)%nat /\
     forall l i idx p,
       (l < numLayers)%nat ->
       indices !! i = Some idx ->
       lms !! idx = Some p ->
       exists q,
         pts !! (l * length indices + i)%nat = Some q /\
         Point.x q = Point.x p /\
         Point.y q = Point.y p /\
         Point.z q = Some (Js.num_or (Point.z p) 0 - INR l * 0.02) /\
         Point.visibility q = Some (Js.num_or (Point.visibility p) 1) /\
         Point.depthLayer q = Some l /\
         Point.interpolated q = Some (0 <? l)%nat /\
         (l = 0%nat -> Js.num_or (Point.z q) 0 = Js.num_or (Point.z p) 0)) /\
  (forall idx, idx ∈ indices -> lms !! idx = None ->
     Densifier.createDepthLayers lms indices numLayers = Js.TypeError /\
     Densifier.createDepthLayers lms indices 0 = Js.TypeError).
Proof.
  split.
  - intros Hall.
    destruct (createDepthLayers_length lms indices numLayers Hall)
      as (pts & Hrun & Hlen).
    exists pts. split; [exact Hrun|]. split; [exact Hlen|].
    rewrite createDepthLayers_rows in Hrun by exact Hall. injection Hrun as <-.
    intros l i idx p Hl Hi Hp. exists (layerPoint l p). split.
    + apply (join_lookup_Some_same_length' (length indices)).
      * apply Forall_fmap, Forall_forall. intros j _. cbn [compose].
        now rewrite length_fmap.
      * now apply lookup_lt_Some in Hi.
      * eexists. split.
        -- rewrite list_lookup_fmap, lookup_seq_lt by exact Hl. reflexivity.
        -- rewrite list_lookup_fmap, Hi. cbn [fmap option_fmap option_map plus].
           now rewrite Hp.
    + unfold layerPoint. cbn [Point.x Point.y Point.z Point.visibility
                              Point.depthLayer Point.interpolated].
      repeat split. intros ->. rewrite (num_or_zero (Some _)).
      cbn [Js.to_number INR]. lra.
  - intros idx Hin Hmiss.
    split; now apply (createDepthLayers_missing lms indices _ idx).
Qed.

(** Three layers of a two-landmark region, and a region that names a
    landmark the array does not have. *)
Lemma depth_layers_witness :
  let lm x := Point.raw x 0.5 (Some 0.1) (Some 0) in
  (exists pts,
      Densifier.createDepthLayers [lm 0; lm 1] [1; 0]%nat 3 = Js.Ok pts /\
      length pts = 6%nat) /\
  Densifier.createDepthLayers [lm 0; lm 1] [1; 7]%nat 0 = Js.TypeError.
Proof.
  cbv zeta. split.
  - destruct (proj1 (depth_layers
                       [Point.raw 0 0.5 (Some 0.1) (Some 0);
                        Point.raw 1 0.5 (Some 0.1) (Some 0)] [1; 0]%nat 3))
      as (pts & Hrun & Hlen & _).
    + intros idx Hin.
      repeat (apply elem_of_cons in Hin as [->|Hin]; [simpl; lia|]).
      inversion Hin.
    + exists pts. split; [exact Hrun|exact Hlen].
  - apply (proj2 (depth_layers
                    [Point.raw 0 0.5 (Some 0.1) (Some 0);
                     Point.raw 1 0.5 (Some 0.1) (Some 0)] [1; 7]%nat 0) 7%nat);
      [right; left|reflexivity].
Defined.

End DensifierLayers.

Section DensifierFace.
Local Open Scope R_scope.
Import Props.

Lemma indices_below (n len : nat) (indices : list nat) :
  forallb (fun i => i <? n)%nat indices = true ->
  (n <= len)%nat ->
  forall idx, idx ∈ indices -> (idx < len)%nat.
Proof.
  intros Hall Hn idx Hin. apply list_elem_of_In in Hin.
  rewrite forallb_forall in Hall. specialize (Hall idx Hin).
  apply Nat.ltb_lt in Hall. lia.
Qed.

(** A face array with every landmark the tables name is densified. *)
Lemma densifyFace_complete (lms : list Point.t) :
  (467 <= length lms)%nat ->
  exists g, Densifier.densifyFace Densifier.new (Some lms) = Js.Ok g /\
            Densifier.count g = length (Densifier.points g) /\
            Densifier.count g = (length lms + 450)%nat.
Proof.
  intros Hlen.
  unfold Densifier.densifyFace.
  cbn [Densifier.faceSubdivisions Densifier.faceRegions Densifier.new].
  destruct (subdivideContour_length lms
              (Densifier.leftEye Densifier.defineFaceRegions) 2)
    as (r1 & H1 & L1); [now apply (indices_below 467)|].
  destruct (subdivideContour_length lms
              (Densifier.rightEye Densifier.defineFaceRegions) 2)
    as (r2 & H2 & L2); [now apply (indices_below 467)|].
  destruct (subdivideContour_length lms
              (Densifier.leftEyebrow Densifier.defineFaceRegions) 2)
    as (r3 & H3 & L3); [now apply (indices_below 467)|].
  destruct (subdivideContour_length lms
              (Densifier.rightEyebrow Densifier.defineFaceRegions) 2)
    as (r4 & H4 & L4); [now apply (indices_below 467)|].
  destruct (subdivideContour_length lms
              (Densifier.lipsOuter Densifier.defineFaceRegions) 2)
    as (r5 & H5 & L5); [now apply (indices_below 467)|].
  destruct (subdivideContour_length lms
              (Densifier.lipsInner Densifier.defineFaceRegions) 2)
    as (r6 & H6 & L6); [now apply (indices_below 467)|].
  destruct (subdivideContour_length lms
              (Densifier.faceOval Densifier.defineFaceRegions) 2)
    as (r7 & H7 & L7); [now apply (indices_below 467)|].
  destruct (createDepthLayers_length lms
              (Densifier.leftCheek Densifier.defineFaceRegions) 3)
    as (r8 & H8 & L8); [now apply (indices_below 467)|].
  destruct (createDepthLayers_length lms
              (Densifier.rightCheek Densifier.defineFaceRegions) 3)
    as (r9 & H9 & L9); [now apply (indices_below 467)|].
  rewrite H1. cbn [mbind result_bind Js.bind].
  rewrite H2. cbn [mbind result_bind Js.bind].
  rewrite H3. cbn [mbind result_bind Js.bind].
  rewrite H4. cbn [mbind result_bind Js.bind].
  rewrite H5. cbn [mbind result_bind Js.bind].
  rewrite H6. cbn [mbind result_bind Js.bind].
  rewrite H7. cbn [mbind result_bind Js.bind].
  rewrite H8. cbn [mbind result_bind Js.bind].
  rewrite H9. cbn [mbind result_bind Js.bind].
  eexists. split; [reflexivity|].
  cbn [Densifier.count Densifier.points]. split; [reflexivity|].
  rewrite !length_app, length_imap, !length_fmap,
    L1, L2, L3, L4, L5, L6, L7, L8, L9.
  simpl. lia.
Qed.

(** A face array without landmark 466 is not. *)
Lemma densifyFace_short (lms : list Point.t) :
  (length lms < 467)%nat ->
  Densifier.densifyFace Densifier.new (Some lms) = Js.TypeError.
Proof.
  intros Hlen.
  assert (Hmiss : lms !! 466%nat = None) by (apply lookup_ge_None_2; lia).
  unfold Densifier.densifyFace.
  cbn [Densifier.faceSubdivisions Densifier.faceRegions Densifier.new].
  destruct (Densifier.subdivideContour lms
              (Densifier.leftEye Densifier.defineFaceRegions) 2);
    [|reflexivity].
  cbn [mbind result_bind Js.bind].
  rewrite (subdivideContour_missing lms
             (Densifier.rightEye Densifier.defineFaceRegions) 2 466);
    [reflexivity|lia| |exact Hmiss].
  do 7 right. left.
Qed.

(** X16.  [densifyFace] returns a group exactly for face arrays of at
    least 467 landmarks (the largest index its contour and cheek tables
    name is 466): the group then holds the input landmarks followed by
    450 added points (seven contours with two points per edge, two cheek
    regions in three depth layers), and [count] is the number of points.
    A shorter face array makes the call throw. *)
Theorem densifyFace_needs_467_landmarks (lms : list Point.t) :
  ((467 <= length lms)%nat ->
   exists g, Densifier.densifyFace Densifier.new (Some lms) = Js.Ok g /\
             Densifier.count g = length (Densifier.points g) /\
             Densifier.count g = (length lms + 450)%nat) /\
  ((length lms < 467)%nat ->
   Densifier.densifyFace Densifier.new (Some lms) = Js.TypeError).
Proof.
  split; [apply densifyFace_complete|apply densifyFace_short].
Qed.

(** A face of 478 landmarks (with irises) and one cut off at 400. *)
Lemma densifyFace_needs_467_landmarks_witness :
  let lm := Point.raw 0.5 0.5 (Some 0) (Some 0) in
  (exists g, Densifier.densifyFace Densifier.new (Some (replicate 478 lm))
             = Js.Ok g /\
             Densifier.count g = 928%nat) /\
  Densifier.densifyFace Densifier.new (Some (replicate 400 lm)) = Js.TypeError.
Proof.
  cbv zeta. split.
  - destruct (proj1 (densifyFace_needs_467_landmarks
                       (replicate 478 (Point.raw 0.5 0.5 (Some 0) (Some 0)))))
      as (g & Hg & _ & Hc); [rewrite length_replicate; lia|].
    exists g. split; [exact Hg|]. rewrite Hc, length_replicate. reflexivity.
  - apply (proj2 (densifyFace_needs_467_landmarks
                    (replicate 400 (Point.raw 0.5 0.5 (Some 0) (Some 0))))).
    rewrite length_replicate. lia.
Defined.

End DensifierFace.

Section DensifierHands.
Local Open Scope R_scope.
Import Props.

(** A loop whose iterations push rows of known lengths. *)
Lemma pushEach_lengths {A : Type} (l : list A)
    (body : A -> Js.Result (list Point.t)) (len : A -> nat) :
  (forall a, a ∈ l -> exists r, body a = Js.Ok r /\ length r = len a) ->
  exists r, Densifier.pushEach l body = Js.Ok r
            /\ length r = sum_list (len <$> l).
Proof.
  induction l as [|a l IH]; intros Hbody; [exists []; split; reflexivity|].
  destruct (Hbody a ltac:(left)) as (r & Hr & Hlen).
  destruct IH as (r' & Hr' & Hlen'); [intros b Hb; apply Hbody; now right|].
  exists (r ++ r'). cbn [Densifier.pushEach]. rewrite Hr, Hr'.
  split; [reflexivity|]. rewrite length_app, Hlen, Hlen'. reflexivity.
Qed.

(** What every iteration pushes, the loop returns. *)
Lemma pushEach_Forall {A : Type} (P : Point.t -> Prop) (l : list A)
    (body : A -> Js.Result (list Point.t)) :
  (forall a r, a ∈ l -> body a = Js.Ok r -> Forall P r) ->
  forall r, Densifier.pushEach l body = Js.Ok r -> Forall P r.
Proof.
  induction l as [|a l IH]; intros Hbody r Hr.
  - injection Hr as <-. constructor.
  - cbn [Densifier.pushEach] in Hr.
    destruct (body a) as [ra|] eqn:Ha; [|discriminate Hr].
    cbn [mbind result_bind Js.bind] in Hr.
    destruct (Densifier.pushEach l body) as [rl|] eqn:Hl; [|discriminate Hr].
    injection Hr as <-. apply Forall_app. split.
    + apply (Hbody a); [left|exact Ha].
    + apply IH; [|reflexivity]. intros b rb Hb. apply Hbody. now right.
Qed.

Lemma sum_over_indexed (f : nat -> nat) (hands : list (list Point.t)) :
  sum_list ((fun '(_, hand) => length hand + 40)%nat
              <$> imap (fun handIdx (handLandmarks : list Point.t) =>
                          (f handIdx, handLandmarks)) hands)
  = sum_list ((fun hand => length hand + 40)%nat <$> hands).
Proof.
  revert f. induction hands as [|h rest IH]; intros f; [reflexivity|].
  cbn [imap fmap list_fmap sum_list sum_list_with].
  f_equal. apply (IH (fun n => f (S n))).
Qed.

Lemma fingers_present (hand : list Point.t) (h : nat) (region : string) :
  (21 <= length hand)%nat ->
  exists r,
    Densifier.pushEach Densifier.fingerConnections
      (fun '(a, b) =>
         interpolated ← Densifier.interpolateSegment (hand !! a) (hand !! b) 3;
         Js.Ok ((fun p => Point.with_handIndex h (Point.with_region region p))
                  <$> (interpolated : list Point.t)))
    = Js.Ok r /\ length r = 40%nat.
Proof.
  intros Hlen.
  match goal with
  | |- exists r, Densifier.pushEach ?l ?body = _ /\ _ =>
      destruct (pushEach_length l body 2) as (r & Hr & Hl)
  end.
  - intros [a b] Hin.
    assert (Hab : (a < 21)%nat /\ (b < 21)%nat).
    { unfold Densifier.fingerConnections in Hin.
      repeat (apply elem_of_cons in Hin as [Hin|Hin];
              [injection Hin as -> ->; lia|]).
      inversion Hin. }
    destruct (lookup_lt_is_Some_2 hand a ltac:(lia)) as [pa Ha].
    destruct (lookup_lt_is_Some_2 hand b ltac:(lia)) as [pb Hb].
    rewrite Ha, Hb, interpolateSegment_present.
    eexists. split; [reflexivity|]. now rewrite !length_fmap, length_seq.
  - exists r. split; [exact Hr|exact Hl].
Qed.

Lemma fingers_missing (hand : list Point.t) (h : nat) (region : string) :
  (length hand < 21)%nat ->
  Densifier.pushEach Densifier.fingerConnections
    (fun '(a, b) =>
       interpolated ← Densifier.interpolateSegment (hand !! a) (hand !! b) 3;
       Js.Ok ((fun p => Point.with_handIndex h (Point.with_region region p))
                <$> (interpolated : list Point.t)))
  = Js.TypeError.
Proof.
  intros Hlen. apply (pushEach_error _ _ (19, 20)%nat).
  - unfold Densifier.fingerConnections. do 19 right. left.
  - rewrite (lookup_ge_None_2 hand 20) by lia.
    rewrite interpolateSegment_missing_r by lia. reflexivity.
Qed.

(** Hands with 21 landmarks each are densified. *)
Lemma densifyHands_complete (d : Densifier.t) (hands : list (list Point.t))
    (handedness : option (list (list Category.t))) :
  Forall (fun hand => (21 <= length hand)%nat) hands ->
  exists g,
    Densifier.densifyHands d (Some (Densifier.mkHands (Some hands) handedness))
    = Js.Ok g /\
    Densifier.count g = length (Densifier.points g) /\
    Densifier.count g
    = sum_list ((fun hand => length hand + 40)%nat <$> hands).
Proof.
  intros Hall. unfold Densifier.densifyHands.
  cbn [Densifier.hands_landmarks].
  match goal with
  | |- exists g, mbind _ (Densifier.pushEach ?l ?body) = _ /\ _ =>
      destruct (pushEach_lengths l body (fun '(_, hand) => length hand + 40)%nat)
        as (r & Hr & Hl)
  end.
  + intros [h hand] Hin.
    assert (Hhand : (21 <= length hand)%nat).
    { apply list_elem_of_lookup in Hin as [j Hj].
      rewrite list_lookup_imap in Hj.
      destruct (hands !! j) as [hd|] eqn:Hhj; [|discriminate Hj].
      injection Hj as <- <-.
      rewrite Forall_forall in Hall. apply Hall.
      eapply list_elem_of_lookup_2. exact Hhj. }
    destruct (fingers_present hand h
                ("hand_" +:+ Densifier.handednessOf
                               (Densifier.mkHands (Some hands) handedness) h)
                Hhand) as (fr & Hfr & Hfl).
    rewrite Hfr. cbn [mbind result_bind Js.bind].
    eexists. split; [reflexivity|].
    rewrite length_app, length_imap, Hfl. reflexivity.
  + rewrite Hr. cbn [mbind result_bind Js.bind].
    eexists. split; [reflexivity|].
    cbn [Densifier.count Densifier.points]. split; [reflexivity|].
    rewrite Hl. apply (sum_over_indexed (fun n => n)).
Qed.

(** One hand without landmark 20 makes the call throw. *)
Lemma densifyHands_short (d : Densifier.t) (hands : list (list Point.t))
    (handedness : option (list (list Category.t))) (hand : list Point.t) :
  hand ∈ hands -> (length hand < 21)%nat ->
  Densifier.densifyHands d (Some (Densifier.mkHands (Some hands) handedness))
  = Js.TypeError.
Proof.
  intros Hin Hlen. unfold Densifier.densifyHands.
  cbn [Densifier.hands_landmarks].
  apply list_elem_of_lookup in Hin as [j Hj].
  rewrite (pushEach_error _ _ (j, hand)); [reflexivity| |].
  + apply list_elem_of_lookup. exists j. rewrite list_lookup_imap, Hj.
    reflexivity.
  + rewrite fingers_missing by exact Hlen. reflexivity.
Qed.

(** X17.  [densifyHands] returns a group exactly when every detected
    hand has at least 21 landmarks: each hand then contributes its
    landmarks and 40 added points (two per finger segment), and [count]
    is the number of points.  One hand with fewer landmarks makes the
    call throw for the whole frame.  A hand whose handedness entry is
    missing or has an empty name is labelled [Unknown]. *)
Theorem densifyHands_needs_21_landmarks (d : Densifier.t)
    (hands : list (list Point.t)) (handedness : option (list (list Category.t))) :
  (Forall (fun hand => (21 <= length hand)%nat) hands ->
   exists g,
     Densifier.densifyHands d (Some (Densifier.mkHands (Some hands) handedness))
     = Js.Ok g /\
     Densifier.count g = length (Densifier.points g) /\
     Densifier.count g
     = sum_list ((fun hand => length hand + 40)%nat <$> hands)) /\
  (forall hand, hand ∈ hands -> (length hand < 21)%nat ->
     Densifier.densifyHands d (Some (Densifier.mkHands (Some hands) handedness))
     = Js.TypeError) /\
  (forall h,
     (handedness = None \/
      (exists hs, handedness = Some hs /\
                  (hs !! h = None \/ hs !! h = Some [] \/
                   exists c cs, hs !! h = Some (c :: cs)
                                /\ Category.categoryName c = ""))) ->
     Densifier.handednessOf (Densifier.mkHands (Some hands) handedness) h
     = "Unknown").
Proof.
  split; [apply densifyHands_complete|].
  split; [intros hand; apply densifyHands_short|].
  - intros h Hh. unfold Densifier.handednessOf. cbn [Densifier.handedness].
    destruct Hh as [->|(hs & -> & [Hn|[He|(c & cs & Hc & Hname)]])];
      [reflexivity|now rewrite Hn|now rewrite He|].
    rewrite Hc. cbn [lookup list_lookup]. rewrite decide_True by exact Hname.
    reflexivity.
Qed.

(** Two complete hands, and a complete hand next to one of 15
    landmarks. *)
Lemma densifyHands_needs_21_landmarks_witness :
  (exists g,
      Densifier.densifyHands Densifier.new
        (Some (Densifier.mkHands (Some [fullHand; fullHand]) None)) = Js.Ok g /\
      Densifier.count g = 122%nat) /\
  Densifier.densifyHands Densifier.new
    (Some (Densifier.mkHands (Some [fullHand; shortHand]) None)) = Js.TypeError.
Proof.
  split.
  - destruct (proj1 (densifyHands_needs_21_landmarks Densifier.new
                       [fullHand; fullHand] None))
      as (g & Hg & _ & Hc); [repeat constructor; simpl; lia|].
    exists g. split; [exact Hg|exact Hc].
  - apply (proj1 (proj2 (densifyHands_needs_21_landmarks Densifier.new
                           [fullHand; shortHand] None)) shortHand).
    + right. left.
    + simpl. lia.
Defined.

End DensifierHands.

Section DensifierBodyStructure.
Local Open Scope R_scope.
Import Props.

Lemma lerp_lerped (p1 p2 : option Point.t) (t : R) (q : Point.t) :
  Densifier.lerp p1 p2 t = Js.Ok q -> lerped q.
Proof.
  destruct p1 as [p1|], p2 as [p2|]; try discriminate.
  intros [= <-]. split; reflexivity.
Qed.

Lemma interpolateSegment_lerped (p1 p2 : option Point.t) (N : nat)
    (r : list Point.t) :
  Densifier.interpolateSegment p1 p2 N = Js.Ok r -> Forall lerped r.
Proof.
  unfold Densifier.interpolateSegment. apply pushEach_Forall.
  intros i ri _ Hri. cbv zeta in Hri.
  destruct (Densifier.lerp p1 p2 _) as [q|] eqn:Hq; [|discriminate Hri].
  injection Hri as <-. constructor; [|constructor].
  now apply lerp_lerped in Hq.
Qed.

Lemma bodySegments_added (lms : list Point.t) (segments : list (nat * nat))
    (subs : nat) (region : string) (r : list Point.t) :
  Densifier.bodySegments lms segments subs region = Js.Ok r ->
  Forall addedPoint r.
Proof.
  unfold Densifier.bodySegments. apply pushEach_Forall.
  intros [a b] rs _ Hrs.
  destruct (Densifier.interpolateSegment _ _ subs) as [seg|] eqn:Hseg;
    [|discriminate Hrs].
  injection Hrs as <-. apply interpolateSegment_lerped in Hseg.
  apply Forall_fmap. eapply Forall_impl; [exact Hseg|].
  intros q [Hi Ho]. repeat split; cbn; eauto.
Qed.

Lemma interpolateSurface_lerped (corners : list (option Point.t)) (G : nat)
    (r : list Point.t) :
  Densifier.interpolateSurface corners G = Js.Ok r -> Forall lerped r.
Proof.
  unfold Densifier.interpolateSurface. apply pushEach_Forall.
  intros i ri _. apply pushEach_Forall. intros j rj _ Hrj. cbv zeta in Hrj.
  destruct (Densifier.lerp (mjoin (corners !! 0%nat)) _ _) as [top|];
    [|discriminate Hrj].
  cbn [mbind result_bind Js.bind] in Hrj.
  destruct (Densifier.lerp (mjoin (corners !! 3%nat)) _ _) as [bottom|];
    [|discriminate Hrj].
  cbn [mbind result_bind Js.bind] in Hrj.
  injection Hrj as <-. constructor; [|constructor]. split; reflexivity.
Qed.

(** X18.  Whenever [densifyBody] returns, the group starts with the
    input landmarks in their order, each unchanged except for the added
    tags [originalIndex] (its position), [region = 'body'] and
    [interpolated = false]; every point after them is flagged
    interpolated, has no original index and carries a region.  The
    position of an original point in the output is its landmark
    index. *)
Theorem body_originals_come_first (d : Densifier.t) (lms : list Point.t)
    (g : Densifier.Group) :
  Densifier.densifyBody d (Some lms) = Js.Ok g ->
  exists rest,
    Densifier.points g = imap (Densifier.original "body") lms ++ rest /\
    Forall addedPoint rest /\
    (forall k lm, lms !! k = Some lm ->
       Densifier.points g !! k = Some (Densifier.original "body" k lm)) /\
    (forall k q, (length lms <= k)%nat -> Densifier.points g !! k = Some q ->
       addedPoint q).
Proof.
  unfold Densifier.densifyBody. intros H.
  destruct (Densifier.bodySegments lms _ _ "arm") as [arms|] eqn:Harms;
    [|discriminate H].
  cbn [mbind result_bind Js.bind] in H.
  destruct (Densifier.bodySegments lms _ _ "leg") as [legs|] eqn:Hlegs;
    [|discriminate H].
  cbn [mbind result_bind Js.bind] in H.
  destruct (Densifier.lerp (lms !! 11%nat) _ _) as [neck|]; [|discriminate H].
  cbn [mbind result_bind Js.bind] in H.
  destruct (Densifier.lerp (lms !! 23%nat) _ _) as [hip|]; [|discriminate H].
  cbn [mbind result_bind Js.bind] in H.
  destruct (Densifier.interpolateSegment _ _ 8) as [spine|] eqn:Hspine;
    [|discriminate H].
  cbn [mbind result_bind Js.bind] in H.
  destruct (Densifier.interpolateSurface _ _) as [torso|] eqn:Htorso;
    [|discriminate H].
  cbn [mbind result_bind Js.bind] in H.
  injection H as <-. cbn [Densifier.points].
  eexists. split; [reflexivity|].
  assert (Hrest : Forall addedPoint
                    (arms ++ legs ++ (Point.with_region "spine" <$> spine)
                     ++ (Point.with_region "torso" <$> torso))).
  { repeat (apply Forall_app; split).
    - now apply bodySegments_added in Harms.
    - now apply bodySegments_added in Hlegs.
    - apply interpolateSegment_lerped in Hspine. apply Forall_fmap.
      eapply Forall_impl; [exact Hspine|].
      intros q [Hi Ho]. repeat split; cbn; eauto.
    - apply interpolateSurface_lerped in Htorso. apply Forall_fmap.
      eapply Forall_impl; [exact Htorso|].
      intros q [Hi Ho]. repeat split; cbn; eauto. }
  split; [exact Hrest|]. split.
  - intros k lm Hk. rewrite lookup_app_l.
    + now rewrite list_lookup_imap, Hk.
    + rewrite length_imap. now apply lookup_lt_Some in Hk.
  - intros k q Hk Hq. rewrite lookup_app_r in Hq by (rewrite length_imap; lia).
    rewrite Forall_forall in Hrest. apply Hrest.
    eapply list_elem_of_lookup_2. exact Hq.
Qed.

(** The complete pose of 33 landmarks: landmark 12 sits at index 12. *)
Lemma body_originals_come_first_witness :
  exists g,
    Densifier.densifyBody Densifier.new (Some fullPose) = Js.Ok g /\
    Densifier.points g !! 12%nat
    = Some (Densifier.original "body" 12 (Point.raw 0.5 0.5 (Some 0) (Some 1))).
Proof.
  destruct (densifyBody_complete fullPose) as (g & Hg & _); [simpl; lia|].
  exists g. split; [exact Hg|].
  destruct (body_originals_come_first Densifier.new fullPose g Hg)
    as (rest & _ & _ & Hat & _).
  apply Hat. reflexivity.
Defined.

End DensifierBodyStructure.

(* ================================================================== *)
(** * Further properties of the Wave Motion Engine *)
(* ================================================================== *)

Section WaveStill.
Local Open Scope R_scope.
Import Props.

Lemma propagateEntries_still (connections : gmap nat (list nat)) (factor : R)
    (entries : list (nat * Velocity.t)) :
  (forall idx v, (idx, v) ∈ entries ->
     WaveMotionEngine.getVelocityMagnitude v < 0.001
     \/ connections !! idx = None \/ connections !! idx = Some []) ->
  forall acc,
    WaveMotionEngine.propagateEntries entries connections factor acc = acc.
Proof.
  induction entries as [|[idx v] rest IH]; intros Hall acc; [reflexivity|].
  cbn [WaveMotionEngine.propagateEntries].
  rewrite IH by (intros i w Hin; apply Hall; now right).
  destruct (Hall idx v ltac:(left)) as [Hslow|[Hnone|Hnil]].
  - destruct (connections !! idx); [|reflexivity].
    destruct (Rlt_dec _ _); [reflexivity|contradiction].
  - now rewrite Hnone.
  - rewrite Hnil. destruct (Rlt_dec _ _); reflexivity.
Qed.

(** X19.  A frame in which no original point moves fast enough
    propagates nothing: when every velocity has a magnitude below
    [0.001], or belongs to a landmark without neighbours,
    [propagateMotion] returns the velocity map it was given, entry for
    entry and in the same order. *)
Theorem slow_frame_propagates_nothing (points : list Point.t)
    (velocities : list (nat * Velocity.t)) (connections : gmap nat (list nat))
    (factor : R) :
  (forall idx v, (idx, v) ∈ velocities ->
     WaveMotionEngine.getVelocityMagnitude v < 0.001
     \/ connections !! idx = None \/ connections !! idx = Some []) ->
  WaveMotionEngine.propagateMotion points velocities connections factor
  = velocities.
Proof.
  intros Hall. unfold WaveMotionEngine.propagateMotion.
  now apply propagateEntries_still.
Qed.

Lemma zero_is_slow (v : Velocity.t) :
  zeroish v -> WaveMotionEngine.getVelocityMagnitude v < 0.001.
Proof.
  intros (Hx & Hy & Hz). unfold WaveMotionEngine.getVelocityMagnitude.
  rewrite Hx, Hy, Hz.
  replace (0 * 0 + 0 * 0 + 0 * 0) with 0 by lra. rewrite sqrt_0. lra.
Qed.

(** A shoulder at rest and an elbow (without entry in the connection
    map of this example) moving fast. *)
Lemma slow_frame_propagates_nothing_witness :
  let vs := [(11%nat, Velocity.mk 0 0 0); (99%nat, Velocity.mk 6 0 0)] in
  WaveMotionEngine.propagateMotion [] vs
    (WaveMotionEngine.buildConnectionMap WaveMotionEngine.defineBodyNetwork) 0.15
  = vs.
Proof.
  cbv zeta. apply slow_frame_propagates_nothing. intros idx v Hin.
  apply elem_of_cons in Hin as [[= -> ->]|Hin].
  - left. apply zero_is_slow. repeat split.
  - apply elem_of_cons in Hin as [[= -> ->]|Hin]; [|inversion Hin].
    right. left. rewrite connectionMap_default. reflexivity.
Defined.

End WaveStill.

Section WaveBodyOutput.
Local Open Scope R_scope.
Import Props.

(** X20.  The body pass returns as many points as it was given, in the
    same order, and returns every point that is not flagged interpolated
    exactly as it came in: tracked landmarks are never moved by the
    Wave Engine, only interpolated points are nudged.  The
    configuration, the previous frame and the network of the engine are
    not changed by the pass. *)
Theorem body_pass_keeps_tracked_points (e : WaveMotionEngine.t)
    (pts : list Point.t) (dt : R) :
  exists out,
    (WaveMotionEngine.processBody e (Some pts) dt).2 = Some out /\
    length out = length pts /\
    (forall k p, pts !! k = Some p ->
       Js.truthy (Point.interpolated p) = false -> out !! k = Some p) /\
    WaveMotionEngine.config (WaveMotionEngine.processBody e (Some pts) dt).1
    = WaveMotionEngine.config e /\
    WaveMotionEngine.previousData (WaveMotionEngine.processBody e (Some pts) dt).1
    = WaveMotionEngine.previousData e /\
    WaveMotionEngine.bodyConnections
      (WaveMotionEngine.processBody e (Some pts) dt).1
    = WaveMotionEngine.bodyConnections e.
Proof.
  destruct pts as [|p0 rest].
  - exists []. repeat split. intros k p Hk. discriminate Hk.
  - cbn [WaveMotionEngine.processBody fst snd].
    eexists. split; [reflexivity|]. split; [apply length_imap|].
    split; [|repeat split].
    intros k p Hk Hflag. rewrite list_lookup_imap, Hk.
    cbn [fmap option_fmap option_map].
    unfold WaveMotionEngine.microMotion. now rewrite Hflag.
Qed.

(** The arm frame of three originals and an interpolated point. *)
Lemma body_pass_keeps_tracked_points_witness :
  exists out,
    (WaveMotionEngine.processBody armEngine
       (Some (armFrame ++ [fillPoint 0.55])) (1 / 60)).2 = Some out /\
    out !! 1%nat = Some (armPoint 13 0.6).
Proof.
  destruct (body_pass_keeps_tracked_points armEngine
              (armFrame ++ [fillPoint 0.55]) (1 / 60))
    as (out & Hout & _ & Hkeep & _).
  exists out. split; [exact Hout|].
  apply Hkeep; reflexivity.
Defined.

End WaveBodyOutput.

Section WaveFirstFrame.
Local Open Scope R_scope.
Import Props.

Lemma set_elem {V : Type} (k k' : nat) (v v' : V) (m : list (nat * V)) :
  (k, v) ∈ JsMap.set k' v' m -> (k, v) = (k', v') \/ (k, v) ∈ m.
Proof.
  induction m as [|[k0 v0] m IH]; cbn [JsMap.set].
  - intros Hin. apply elem_of_cons in Hin as [Hin|Hin]; [now left|inversion Hin].
  - destruct (decide (k' = k0)) as [->|Hne]; intros Hin;
      apply elem_of_cons in Hin as [Hin|Hin].
    + now left.
    + right. now right.
    + right. rewrite Hin. left.
    + destruct (IH Hin) as [Heq|Hm]; [now left|right; now right].
Qed.

(** Without a previous frame every current velocity is zero. *)
Lemma currentVelocitiesFrom_rest (e : WaveMotionEngine.t) (dt : R)
    (ps : list Point.t) :
  WaveMotionEngine.previousData e = None ->
  forall (idx : nat) (acc : list (nat * Velocity.t)),
    (forall k v, (k, v) ∈ acc -> zeroish v) ->
    forall k v,
      (k, v) ∈ WaveMotionEngine.currentVelocitiesFrom e dt idx ps acc ->
      zeroish v.
Proof.
  intros Hprev. induction ps as [|p rest IH]; intros idx acc Hacc k v;
    cbn [WaveMotionEngine.currentVelocitiesFrom]; [apply Hacc|].
  apply IH. destruct (Point.originalIndex p) as [k0|]; [|exact Hacc].
  intros k1 v1 Hin. apply set_elem in Hin as [[= -> ->]|Hin];
    [|now apply (Hacc k1)].
  unfold WaveMotionEngine.previousBodyPoint. rewrite Hprev.
  repeat split.
Qed.

(** Storing zero velocities keeps a cache of zero velocities. *)
Lemma storeVelocities_rest (damping : R) (propagated : list (nat * Velocity.t))
    (ps : list Point.t) :
  (forall k v, (k, v) ∈ propagated -> zeroish v) ->
  forall cache : gmap string Velocity.t,
    map_Forall (fun _ v => zeroish v) cache ->
    map_Forall (fun _ v => zeroish v)
      (WaveMotionEngine.storeVelocities damping propagated ps cache).
Proof.
  intros Hprop. induction ps as [|p rest IH]; intros cache Hcache;
    cbn [WaveMotionEngine.storeVelocities]; [exact Hcache|].
  apply IH. destruct (Point.originalIndex p) as [k0|]; [|exact Hcache].
  destruct (JsMap.get k0 propagated) as [v|] eqn:Hget; [|exact Hcache].
  destruct (negb _); [|exact Hcache].
  apply map_Forall_insert_2; [|exact Hcache].
  destruct (Hprop k0 v (get_elem _ _ _ Hget)) as (Hx & Hy & Hz).
  unfold zeroish. cbn [Velocity.vx Velocity.vy Velocity.vz].
  rewrite Hx, Hy, Hz. repeat split; lra.
Qed.

Lemma num_or_idem (z : option R) :
  Js.num_or (Some (Js.num_or z 0)) 0 = Js.num_or z 0.
Proof.
  unfold Js.num_or at 1. destruct (Req_dec_T _ 0) as [H0|H0];
    [now rewrite H0|reflexivity].
Qed.

(** A cache of zero velocities nudges no point. *)
Lemma microMotion_rest (cache : gmap string Velocity.t) (dt : R) (idx : nat)
    (p : Point.t) :
  map_Forall (fun _ v => zeroish v) cache ->
  samePlace p (WaveMotionEngine.microMotion cache dt idx p).
Proof.
  intros Hcache. unfold WaveMotionEngine.microMotion.
  destruct (Js.truthy (Point.interpolated p)); [|repeat split].
  destruct (cache !! _) as [v|] eqn:Hv; [|repeat split].
  destruct (Hcache _ _ Hv) as (Hx & Hy & Hz).
  unfold samePlace, Point.with_xyz.
  cbn [Point.x Point.y Point.z Point.visibility Point.originalIndex
       Point.region Point.interpolated].
  rewrite Hx, Hy, Hz.
  replace (Js.num_or (Point.z p) 0 + 0 * dt * 0.02)
    with (Js.num_or (Point.z p) 0) by lra.
  rewrite num_or_idem. repeat split; lra.
Qed.

(** X21.  The first body pass of an engine without history moves
    nothing: when [previousData] is null and the velocity cache is empty
    (a new engine, or one after [reset]), every point of the frame,
    interpolated or not, comes back with its [x], [y] and [z || 0] and
    its other properties, and the cache written by the pass holds only
    zero velocities. *)
Theorem first_body_pass_moves_nothing (e : WaveMotionEngine.t)
    (pts : list Point.t) (dt : R) :
  WaveMotionEngine.previousData e = None ->
  WaveMotionEngine.velocities e = ∅ ->
  exists out,
    (WaveMotionEngine.processBody e (Some pts) dt).2 = Some out /\
    length out = length pts /\
    (forall k p, pts !! k = Some p ->
       exists q, out !! k = Some q /\ samePlace p q) /\
    map_Forall (fun _ v => zeroish v)
      (WaveMotionEngine.velocities
         (WaveMotionEngine.processBody e (Some pts) dt).1).
Proof.
  intros Hprev Hcache.
  destruct pts as [|p0 rest].
  - exists []. cbn [WaveMotionEngine.processBody fst snd].
    split; [reflexivity|]. split; [reflexivity|]. split.
    + intros k p Hk. discriminate Hk.
    + rewrite Hcache. apply map_Forall_empty.
  - cbn [WaveMotionEngine.processBody fst snd WaveMotionEngine.velocities].
    set (ps := p0 :: rest).
    set (current := WaveMotionEngine.currentVelocitiesFrom e dt 0 ps []).
    assert (Hcur : forall k v, (k, v) ∈ current -> zeroish v).
    { apply (currentVelocitiesFrom_rest e dt ps Hprev 0 []).
      intros k v Hin. inversion Hin. }
    assert (Hsame : WaveMotionEngine.propagateMotion ps current
                      (WaveMotionEngine.buildConnectionMap
                         (WaveMotionEngine.bodyConnections e))
                      (WaveMotionEngine.propagationSpeed
                         (WaveMotionEngine.config e)) = current).
    { unfold WaveMotionEngine.propagateMotion.
      apply propagateEntries_still. intros idx v Hin. left.
      apply zero_is_slow. now apply (Hcur idx). }
    rewrite Hsame.
    assert (Hstore : map_Forall (fun _ v => zeroish v)
              (WaveMotionEngine.storeVelocities
                 (WaveMotionEngine.damping (WaveMotionEngine.config e))
                 current ps (WaveMotionEngine.velocities e))).
    { apply storeVelocities_rest; [exact Hcur|].
      rewrite Hcache. apply map_Forall_empty. }
    eexists. split; [reflexivity|]. split; [apply length_imap|].
    split; [|exact Hstore].
    intros k p Hk. eexists. split.
    + rewrite list_lookup_imap, Hk. reflexivity.
    + now apply microMotion_rest.
Qed.

(** The arm frame with an interpolated point, after [reset]. *)
Lemma first_body_pass_moves_nothing_witness :
  exists out,
    (WaveMotionEngine.processBody (WaveMotionEngine.reset armEngine)
       (Some (armFrame ++ [fillPoint 0.55])) (1 / 60)).2 = Some out /\
    exists q, out !! 3%nat = Some q /\ samePlace (fillPoint 0.55) q.
Proof.
  destruct (first_body_pass_moves_nothing (WaveMotionEngine.reset armEngine)
              (armFrame ++ [fillPoint 0.55]) (1 / 60) eq_refl eq_refl)
    as (out & Hout & _ & Hplace & _).
  exists out. split; [exact Hout|].
  apply Hplace. reflexivity.
Defined.

End WaveFirstFrame.

Section WaveSpring.
Local Open Scope R_scope.
Import Props.

Lemma springLoop_sum (point : Point.t) (allPoints : list (option Point.t))
    (stiffness : R) (neighbors : list nat) :
  forall f : Force.t,
    let present := presentNeighbors allPoints neighbors in
    let f' := WaveMotionEngine.springLoop point neighbors allPoints stiffness f in
    Force.fx f'
    = Force.fx f
      + stiffness * sumR ((fun n => Point.x n - Point.x point) <$> present) /\
    Force.fy f'
    = Force.fy f
      + stiffness * sumR ((fun n => Point.y n - Point.y point) <$> present) /\
    Force.fz f'
    = Force.fz f
      + stiffness * sumR ((fun n => Js.num_or (Point.z n) 0
                                    - Js.num_or (Point.z point) 0) <$> present).
Proof.
  induction neighbors as [|i rest IH]; intros f; cbv zeta.
  - cbn [WaveMotionEngine.springLoop presentNeighbors omap list_omap fmap
         list_fmap sumR fold_right].
    repeat split; lra.
  - cbn [WaveMotionEngine.springLoop presentNeighbors omap list_omap].
    destruct (mjoin (allPoints !! i)) as [n|].
    + destruct (IH (Force.mk
                      (Force.fx f + (Point.x n - Point.x point) * stiffness)
                      (Force.fy f + (Point.y n - Point.y point) * stiffness)
                      (Force.fz f + (Js.num_or (Point.z n) 0
                                     - Js.num_or (Point.z point) 0) * stiffness)))
        as (Hx & Hy & Hz).
      cbv zeta in Hx, Hy, Hz. rewrite Hx, Hy, Hz.
      cbn [Force.fx Force.fy Force.fz fmap list_fmap sumR fold_right].
      fold (presentNeighbors allPoints rest).
      repeat split; unfold sumR; lra.
    + apply IH.
Qed.

(** X22.  [applySpringForce] returns the stiffness times the sum of the
    displacements from the point to those neighbours that exist in
    [allPoints] ([z] read as [z || 0]); a neighbour index that is out of
    range or holds [null] contributes nothing, and so does a missing or
    empty neighbour list. *)
Theorem spring_force_sums_displacements (point : Point.t)
    (neighbors : option (list nat)) (allPoints : list (option Point.t))
    (stiffness : R) :
  let present := presentNeighbors allPoints (default [] neighbors) in
  let f := WaveMotionEngine.applySpringForce point neighbors allPoints stiffness in
  Force.fx f
  = stiffness * sumR ((fun n => Point.x n - Point.x point) <$> present) /\
  Force.fy f
  = stiffness * sumR ((fun n => Point.y n - Point.y point) <$> present) /\
  Force.fz f
  = stiffness * sumR ((fun n => Js.num_or (Point.z n) 0
                                - Js.num_or (Point.z point) 0) <$> present).
Proof.
  cbv zeta. destruct neighbors as [[|i rest]|];
    cbn [WaveMotionEngine.applySpringForce from_option];
    unfold Datatypes.id.
  - cbn. repeat split; lra.
  - destruct (springLoop_sum point allPoints stiffness (i :: rest)
                (Force.mk 0 0 0)) as (Hx & Hy & Hz).
    cbv zeta in Hx, Hy, Hz. rewrite Hx, Hy, Hz.
    cbn [Force.fx Force.fy Force.fz]. repeat split; lra.
  - cbn. repeat split; lra.
Qed.

End WaveSpring.

Section WaveFace.
Local Open Scope R_scope.
Import Props.

(** The expression pass writes [x] and [y] only. *)
Lemma expressPoint_fields (m : gmap string R) (p : Point.t) :
  sameButXY p (WaveMotionEngine.expressPoint m p).
Proof.
  unfold WaveMotionEngine.expressPoint, sameButXY.
  destruct (Point.region p) as [r|] eqn:Hr; [|rewrite Hr; repeat split].
  repeat (destruct (decide _));
    cbn [Point.with_xyz Point.z Point.visibility Point.originalIndex
         Point.region Point.interpolated Point.handIndex];
    rewrite ?Hr; repeat split.
Qed.

(** A point outside the five regions is not touched. *)
Lemma expressPoint_other (m : gmap string R) (p : Point.t) :
  (forall r, Point.region p = Some r -> r ∉ expressionRegions) ->
  WaveMotionEngine.expressPoint m p = p.
Proof.
  intros Hout. unfold WaveMotionEngine.expressPoint.
  destruct (Point.region p) as [r|]; [|reflexivity].
  specialize (Hout r eq_refl). unfold expressionRegions in Hout.
  destruct (decide (r = "")); [reflexivity|].
  rewrite !decide_False; [reflexivity|..];
    intros ->; apply Hout; set_solver.
Qed.

(** The eyebrows are moved along [y] only. *)
Lemma expressPoint_brow (m : gmap string R) (p : Point.t) (r : string) :
  Point.region p = Some r ->
  r = "leftEyebrow" \/ r = "rightEyebrow" ->
  Point.x (WaveMotionEngine.expressPoint m p) = Point.x p.
Proof.
  intros Hr Hbrow. unfold WaveMotionEngine.expressPoint. rewrite Hr.
  destruct Hbrow as [-> | ->]; reflexivity.
Qed.

(** Scores of zero are what the map holds for the nine names. *)
Lemma blendshapeMapOf_neutral (bs : list Category.t) :
  (forall b, b ∈ bs -> Category.categoryName b ∈ expressionScores ->
             Category.score b = 0) ->
  forall name, name ∈ expressionScores ->
    Js.num_or (WaveMotionEngine.blendshapeMapOf bs !! name) 0 = 0.
Proof.
  intros Hzero name Hname.
  assert (Hinv : forall (l : list Category.t) (m : gmap string R),
             (forall b, b ∈ l -> Category.categoryName b ∈ expressionScores ->
                        Category.score b = 0) ->
             (forall v, m !! name = Some v -> v = 0) ->
             forall v,
               fold_left (fun m b => <[Category.categoryName b
                                       := Category.score b]> m) l m !! name
               = Some v -> v = 0).
  { induction l as [|b l IH]; intros m Hl Hm v; cbn [fold_left]; [apply Hm|].
    apply IH.
    - intros b' Hb'. apply Hl. now right.
    - intros w Hw. apply lookup_insert_Some in Hw as [[Heq <-]|[_ Hw]].
      + apply Hl; [left|]. now rewrite Heq.
      + now apply Hm. }
  unfold WaveMotionEngine.blendshapeMapOf.
  destruct (fold_left _ bs ∅ !! name) as [v|] eqn:Hv; [|reflexivity].
  rewrite (Hinv bs ∅ Hzero (fun v H => ltac:(rewrite lookup_empty in H;
                                            discriminate H)) v Hv).
  unfold Js.num_or. destruct (Req_dec_T 0 0); reflexivity.
Qed.

(** With the nine scores at zero no point is moved. *)
Lemma expressPoint_neutral (m : gmap string R) (p : Point.t) :
  (forall name, name ∈ expressionScores -> Js.num_or (m !! name) 0 = 0) ->
  Point.x (WaveMotionEngine.expressPoint m p) = Point.x p /\
  Point.y (WaveMotionEngine.expressPoint m p) = Point.y p.
Proof.
  intros Hzero. unfold WaveMotionEngine.expressPoint.
  rewrite !Hzero by (unfold expressionScores; set_solver).
  destruct (Point.region p) as [r|]; [|split; reflexivity].
  repeat (destruct (decide _));
    cbn [Point.with_xyz Point.x Point.y]; split; lra.
Qed.

(** X23.  The face pass returns one point per input point in the same
    order and changes nothing but [x] and [y]: depth, visibility, index,
    region and flags pass through.  A point whose region is not one of
    [leftEyebrow], [rightEyebrow], [leftCheek], [rightCheek] and
    [jawline] (or that has no region) is returned as it came in, an
    eyebrow point keeps its [x], and when no blendshape with one of the
    nine names the pass reads has a nonzero score (in particular when
    the blendshape list is missing or empty) no point moves at all. *)
Theorem face_pass_moves_expression_regions (pts : list Point.t)
    (blendshapes : option (list Category.t)) (dt : R) :
  exists out,
    WaveMotionEngine.processFace (Some pts) blendshapes dt = Some out /\
    length out = length pts /\
    forall k p, pts !! k = Some p ->
      exists q, out !! k = Some q /\
        sameButXY p q /\
        ((forall r, Point.region p = Some r -> r ∉ expressionRegions) ->
         q = p) /\
        (Point.region p = Some "leftEyebrow"
         \/ Point.region p = Some "rightEyebrow" -> Point.x q = Point.x p) /\
        ((forall b, b ∈ default [] blendshapes ->
                    Category.categoryName b ∈ expressionScores ->
                    Category.score b = 0) ->
         Point.x q = Point.x p /\ Point.y q = Point.y p).
Proof.
  assert (Hsame : exists out,
             WaveMotionEngine.processFace (Some pts) blendshapes dt = Some out
             /\ (out = pts
                 \/ exists b bs,
                      blendshapes = Some (b :: bs) /\
                      out = WaveMotionEngine.expressPoint
                              (WaveMotionEngine.blendshapeMapOf (b :: bs))
                            <$> pts)).
  { destruct pts as [|p0 rest]; [exists []; split; [reflexivity|now left]|].
    destruct blendshapes as [[|b bs]|];
      cbn [WaveMotionEngine.processFace];
      eexists; (split; [reflexivity|]); [now left| |now left].
    right. exists b, bs. split; reflexivity. }
  destruct Hsame as (out & Hout & [->|(b & bs & -> & ->)]);
    eexists; (split; [exact Hout|]).
  - split; [reflexivity|]. intros k p Hk. exists p.
    split; [exact Hk|]. repeat split.
  - split; [apply length_fmap|]. intros k p Hk.
    eexists. split; [rewrite list_lookup_fmap, Hk; reflexivity|].
    split; [apply expressPoint_fields|].
    split; [apply expressPoint_other|].
    split.
    + intros [Hr|Hr]; eapply expressPoint_brow; eauto.
    + intros Hzero. apply expressPoint_neutral.
      apply blendshapeMapOf_neutral. exact Hzero.
Qed.

End WaveFace.

Section WaveFaceWitness.
Local Open Scope R_scope.
Import Props.

(** A nose point and a jaw point while the jaw opens. *)
Lemma face_pass_moves_expression_regions_witness :
  exists out,
    WaveMotionEngine.processFace
      (Some [regionPoint "nose"; regionPoint "jawline"])
      (Some [Category.mk "jawOpen" 0.5]) (1 / 60) = Some out /\
    out !! 0%nat = Some (regionPoint "nose").
Proof.
  destruct (face_pass_moves_expression_regions
              [regionPoint "nose"; regionPoint "jawline"]
              (Some [Category.mk "jawOpen" 0.5]) (1 / 60))
    as (out & Hout & _ & Hpts).
  exists out. split; [exact Hout|].
  destruct (Hpts 0%nat (regionPoint "nose") eq_refl)
    as (q & Hq & _ & Hother & _).
  rewrite Hq. f_equal. apply Hother.
  intros r [= <-]. unfold expressionRegions. set_solver.
Defined.

End WaveFaceWitness.

Section WaveHands.
Local Open Scope R_scope.
Import Props.

Lemma nudge_cancels (a b dt : R) :
  dt <> 0 -> a + (a - b) / dt * dt * 0.01 = a + (a - b) * 0.01.
Proof.
  intros Hdt. unfold Rdiv. rewrite (Rmult_assoc (a - b)), Rinv_l by exact Hdt.
  lra.
Qed.

(** X24.  The hand pass returns one point per input point in the same
    order and changes nothing but [x] and [y].  A point that is not
    flagged interpolated, or whose base position [floor(idx / 4) * 4]
    holds no point in the previous frame, is returned as it came in.
    An interpolated point with a previous base point is moved away from
    that base point by one hundredth of their distance, whatever the
    time step (which cancels): the nudge does not vanish when the hand
    stands still. *)
Theorem hand_pass_nudge (e : WaveMotionEngine.t) (pts : list Point.t) (dt : R) :
  dt <> 0 ->
  exists out,
    WaveMotionEngine.processHands e (Some pts) dt = Some out /\
    length out = length pts /\
    forall k p, pts !! k = Some p ->
      exists q, out !! k = Some q /\
        sameButXY p q /\
        (Js.truthy (Point.interpolated p) = false -> q = p) /\
        (WaveMotionEngine.previousHandPoint e ((k / 4) * 4) = None -> q = p) /\
        (forall prev,
           Js.truthy (Point.interpolated p) = true ->
           WaveMotionEngine.previousHandPoint e ((k / 4) * 4) = Some prev ->
           Point.x q = Point.x p + (Point.x p - Point.x prev) * 0.01 /\
           Point.y q = Point.y p + (Point.y p - Point.y prev) * 0.01).
Proof.
  intros Hdt.
  assert (Hout : WaveMotionEngine.processHands e (Some pts) dt
                 = Some (imap (WaveMotionEngine.handMotion e dt) pts))
    by (destruct pts; reflexivity).
  eexists. split; [exact Hout|]. split; [apply length_imap|].
  intros k p Hk. eexists.
  split; [rewrite list_lookup_imap, Hk; reflexivity|].
  unfold WaveMotionEngine.handMotion.
  destruct (Js.truthy (Point.interpolated p)) eqn:Hflag.
  - destruct (WaveMotionEngine.previousHandPoint e (k / 4 * 4)) as [prev|].
    + cbn [WaveMotionEngine.calculateVelocity Velocity.vx Velocity.vy].
      split; [repeat split|]. split; [discriminate|]. split; [discriminate|].
      intros prev' _ [= <-].
      cbn [Point.with_xyz Point.x Point.y].
      split; apply nudge_cancels; exact Hdt.
    + split; [repeat split|]. split; [reflexivity|]. split; [reflexivity|].
      intros prev' _ Hprev. discriminate Hprev.
  - split; [repeat split|]. split; [reflexivity|]. split; [reflexivity|].
    intros prev' Hfalse. discriminate Hfalse.
Qed.

(** A hand that stands still: the interpolated point at position 1 is
    0.1 away from the wrist at position 0 and is moved by 0.001. *)
Lemma hand_pass_nudge_witness :
  let frame := [fingerPoint 0.5; fingerPoint 0.6] in
  exists out q,
    WaveMotionEngine.processHands (handEngine frame) (Some frame) (1 / 60)
    = Some out /\
    out !! 1%nat = Some q /\
    Point.x q = 0.6 + (0.6 - 0.5) * 0.01.
Proof.
  cbv zeta.
  destruct (hand_pass_nudge (handEngine [fingerPoint 0.5; fingerPoint 0.6])
              [fingerPoint 0.5; fingerPoint 0.6] (1 / 60) ltac:(lra))
    as (out & Hout & _ & Hpts).
  destruct (Hpts 1%nat (fingerPoint 0.6) eq_refl)
    as (q & Hq & _ & _ & _ & Hmove).
  exists out, q. split; [exact Hout|]. split; [exact Hq|].
  apply (Hmove (fingerPoint 0.5) eq_refl eq_refl).
Defined.

End WaveHands.

Section WaveProcess.
Local Open Scope R_scope.
Import Props.

(** [process] with the result of the body pass named. *)
Lemma process_unfold (e : WaveMotionEngine.t) (d : WaveMotionEngine.StabilizedData) :
  let dt := 1 / 60 in
  let r := WaveMotionEngine.processBody e
             (WaveMotionEngine.pointsOf (WaveMotionEngine.body d)) dt in
  let facePoints :=
    WaveMotionEngine.processFace
      (WaveMotionEngine.pointsOf (WaveMotionEngine.face d))
      (WaveMotionEngine.blendshapes d) dt in
  let handPoints :=
    WaveMotionEngine.processHands r.1
      (WaveMotionEngine.pointsOf (WaveMotionEngine.hands d)) dt in
  WaveMotionEngine.process e (Some d)
  = (WaveMotionEngine.mk
       (WaveMotionEngine.config r.1)
       (Some (WaveMotionEngine.mkData
                (WaveMotionEngine.updatedGroup (WaveMotionEngine.face d) facePoints)
                (WaveMotionEngine.updatedGroup (WaveMotionEngine.body d) r.2)
                (WaveMotionEngine.updatedGroup (WaveMotionEngine.hands d) handPoints)
                (WaveMotionEngine.blendshapes d) (WaveMotionEngine.timestamp d)
                (WaveMotionEngine.fps d) (WaveMotionEngine.totalPoints d)))
       (WaveMotionEngine.velocities r.1)
       (WaveMotionEngine.bodyConnections r.1),
     Some (WaveMotionEngine.mkMotion
             (WaveMotionEngine.mkMotionGroup facePoints
                (WaveMotionEngine.countOf (WaveMotionEngine.face d)))
             (WaveMotionEngine.mkMotionGroup r.2
                (WaveMotionEngine.countOf (WaveMotionEngine.body d)))
             (WaveMotionEngine.mkMotionGroup handPoints
                (WaveMotionEngine.countOf (WaveMotionEngine.hands d)))
             (WaveMotionEngine.blendshapes d) (WaveMotionEngine.timestamp d)
             (WaveMotionEngine.fps d) (WaveMotionEngine.totalPoints d))).
Proof.
  cbv zeta. unfold WaveMotionEngine.process.
  destruct (WaveMotionEngine.processBody e _ (1 / 60)) as [e1 bodyPoints].
  reflexivity.
Qed.

Lemma processFace_length (pts : option (list Point.t))
    (bs : option (list Category.t)) (dt : R) :
  length <$> WaveMotionEngine.processFace pts bs dt = length <$> pts.
Proof.
  destruct pts as [[|p rest]|]; [reflexivity| |reflexivity].
  destruct bs as [[|b bs]|]; cbn [WaveMotionEngine.processFace];
    [reflexivity| |reflexivity].
  cbn [fmap option_fmap option_map]. now rewrite length_fmap.
Qed.

Lemma processBody_points (e : WaveMotionEngine.t) (pts : option (list Point.t))
    (dt : R) :
  (WaveMotionEngine.processBody e pts dt).2
  = imap (WaveMotionEngine.microMotion
            (WaveMotionEngine.velocities
               (WaveMotionEngine.processBody e pts dt).1) dt) <$> pts.
Proof. destruct pts as [[|p rest]|]; reflexivity. Qed.

Lemma processHands_points (e : WaveMotionEngine.t) (pts : option (list Point.t))
    (dt : R) :
  WaveMotionEngine.processHands e pts dt
  = imap (WaveMotionEngine.handMotion e dt) <$> pts.
Proof. destruct pts as [[|p rest]|]; reflexivity. Qed.

Lemma microMotion_tracked (cache : gmap string Velocity.t) (dt : R) (k : nat)
    (p : Point.t) :
  Js.truthy (Point.interpolated p) = false ->
  WaveMotionEngine.microMotion cache dt k p = p.
Proof. intros Hflag. unfold WaveMotionEngine.microMotion. now rewrite Hflag. Qed.

(** X25.  [process] neither adds nor drops a point: every group of the
    returned frame has as many points as the group of the stabilized
    frame (none when the group or its point list is missing), so a
    frame whose counts are the numbers of its points stays so; the
    blendshapes, the timestamp, the frame rate and the total pass
    through.  The call leaves the configuration and the network of the
    engine alone, and [process(null)] returns [null] without touching
    the engine. *)
Theorem process_keeps_frame_shape (e : WaveMotionEngine.t)
    (d : WaveMotionEngine.StabilizedData) :
  WaveMotionEngine.process e None = (e, None) /\
  exists out,
    (WaveMotionEngine.process e (Some d)).2 = Some out /\
    length <$> WaveMotionEngine.motion_points (WaveMotionEngine.motion_face out)
    = length <$> WaveMotionEngine.pointsOf (WaveMotionEngine.face d) /\
    length <$> WaveMotionEngine.motion_points (WaveMotionEngine.motion_body out)
    = length <$> WaveMotionEngine.pointsOf (WaveMotionEngine.body d) /\
    length <$> WaveMotionEngine.motion_points (WaveMotionEngine.motion_hands out)
    = length <$> WaveMotionEngine.pointsOf (WaveMotionEngine.hands d) /\
    (forall g pts,
       WaveMotionEngine.body d = Some g ->
       WaveMotionEngine.points g = Some pts ->
       WaveMotionEngine.count g = Some (length pts) ->
       exists ps,
         WaveMotionEngine.motion_points (WaveMotionEngine.motion_body out)
         = Some ps /\
         WaveMotionEngine.motion_count (WaveMotionEngine.motion_body out)
         = length ps) /\
    WaveMotionEngine.motion_blendshapes out = WaveMotionEngine.blendshapes d /\
    WaveMotionEngine.motion_timestamp out = WaveMotionEngine.timestamp d /\
    WaveMotionEngine.motion_fps out = WaveMotionEngine.fps d /\
    WaveMotionEngine.motion_totalPoints out = WaveMotionEngine.totalPoints d /\
    WaveMotionEngine.config (WaveMotionEngine.process e (Some d)).1
    = WaveMotionEngine.config e /\
    WaveMotionEngine.bodyConnections (WaveMotionEngine.process e (Some d)).1
    = WaveMotionEngine.bodyConnections e.
Proof.
  split; [reflexivity|].
  pose proof (process_unfold e d) as Hp. cbv zeta in Hp. rewrite Hp. clear Hp.
  cbn [fst snd]. eexists. split; [reflexivity|].
  cbn [WaveMotionEngine.motion_points WaveMotionEngine.motion_count
       WaveMotionEngine.motion_face WaveMotionEngine.motion_body
       WaveMotionEngine.motion_hands WaveMotionEngine.motion_blendshapes
       WaveMotionEngine.motion_timestamp WaveMotionEngine.motion_fps
       WaveMotionEngine.motion_totalPoints WaveMotionEngine.config
       WaveMotionEngine.bodyConnections].
  split; [apply processFace_length|].
  split.
  { rewrite processBody_points.
    destruct (WaveMotionEngine.pointsOf (WaveMotionEngine.body d)) as [ps|];
      [|reflexivity].
    cbn [fmap option_fmap option_map]. now rewrite length_imap. }
  split.
  { rewrite processHands_points.
    destruct (WaveMotionEngine.pointsOf (WaveMotionEngine.hands d)) as [ps|];
      [|reflexivity].
    cbn [fmap option_fmap option_map]. now rewrite length_imap. }
  split.
  { intros g pts Hg Hpts Hcount. rewrite processBody_points.
    unfold WaveMotionEngine.pointsOf, WaveMotionEngine.countOf.
    rewrite Hg, Hpts, Hcount. cbn [fmap option_fmap option_map].
    eexists. split; [reflexivity|].
    cbn [from_option]. unfold Datatypes.id. now rewrite length_imap. }
  repeat split; destruct (WaveMotionEngine.pointsOf (WaveMotionEngine.body d))
    as [[|p0 ps]|]; reflexivity.
Qed.

(** X26.  The velocity the body pass of the next frame computes for an
    original index is measured against the frame kept by [process], at
    the same array position: when that position held a point not
    flagged interpolated, which the passes do not move, the velocity is
    the displacement of the stabilized point times 60 per axis ([z]
    read as [z || 0]). *)
Theorem velocity_is_measured_against_kept_frame (e : WaveMotionEngine.t)
    (d : WaveMotionEngine.StabilizedData) (g : WaveMotionEngine.Group)
    (before now : list Point.t) (i k : nat) (p1 p2 : Point.t) :
  WaveMotionEngine.body d = Some g ->
  WaveMotionEngine.points g = Some before ->
  before !! i = Some p1 ->
  Js.truthy (Point.interpolated p1) = false ->
  now !! i = Some p2 ->
  Point.originalIndex p2 = Some k ->
  (forall j q, (i < j)%nat -> now !! j = Some q ->
               Point.originalIndex q <> Some k) ->
  JsMap.get k
    (WaveMotionEngine.currentVelocitiesFrom
       (WaveMotionEngine.process e (Some d)).1 (1 / 60) 0 now [])
  = Some (Velocity.mk
            ((Point.x p2 - Point.x p1) * 60)
            ((Point.y p2 - Point.y p1) * 60)
            ((Js.num_or (Point.z p2) 0 - Js.num_or (Point.z p1) 0) * 60)).
Proof.
  intros Hg Hpts H1 Hflag H2 Hk Hlast.
  rewrite (currentVelocitiesFrom_get _ _ k now 0 [] i p2 H2 Hk Hlast).
  change (0 + i)%nat with i.
  assert (Hprev : WaveMotionEngine.previousBodyPoint
                    (WaveMotionEngine.process e (Some d)).1 i = Some p1).
  { pose proof (process_unfold e d) as Hp. cbv zeta in Hp. rewrite Hp.
    cbn [fst]. unfold WaveMotionEngine.previousBodyPoint.
    cbn [WaveMotionEngine.previousData WaveMotionEngine.body].
    rewrite Hg. cbn [WaveMotionEngine.updatedGroup WaveMotionEngine.points].
    rewrite processBody_points. cbn [WaveMotionEngine.pointsOf].
    rewrite Hpts. cbn [fmap option_fmap option_map].
    rewrite list_lookup_imap, H1. cbn [fmap option_fmap option_map].
    now rewrite microMotion_tracked. }
  rewrite Hprev. cbn [WaveMotionEngine.calculateVelocity].
  f_equal. f_equal; unfold Rdiv; rewrite Rmult_1_l, Rinv_inv; reflexivity.
Qed.

(** The elbow of the arm frame, 0.1 further than in the frame before. *)
Lemma velocity_is_measured_against_kept_frame_witness :
  JsMap.get 13%nat
    (WaveMotionEngine.currentVelocitiesFrom
       (WaveMotionEngine.process
          (WaveMotionEngine.new WaveMotionEngine.noOptions)
          (Some (WaveMotionEngine.mkData None
                   (Some (WaveMotionEngine.mkGroup (Some armFrameBefore)
                                                   (Some 3%nat)))
                   None None None None None))).1
       (1 / 60) 0 armFrame [])
  = Some (Velocity.mk
            ((Point.x (armPoint 13 0.6) - Point.x (armPoint 13 0.5)) * 60)
            ((Point.y (armPoint 13 0.6) - Point.y (armPoint 13 0.5)) * 60)
            ((Js.num_or (Point.z (armPoint 13 0.6)) 0
              - Js.num_or (Point.z (armPoint 13 0.5)) 0) * 60)).
Proof.
  eapply (velocity_is_measured_against_kept_frame _ _ _ armFrameBefore
            armFrame 1 13); try reflexivity.
  intros j q Hj Hq.
  destruct j as [|[|[|j]]]; [lia|lia| |discriminate Hq].
  injection Hq as <-. discriminate.
Defined.

End WaveProcess.

(* ================================================================== *)
(** * The densified frame as a whole *)
(* ================================================================== *)

Section DensifierWholeFrame.
Local Open Scope R_scope.
Import Props.

(** X27.  For a detector frame with a face, a pose and hands,
    [densify] returns a frame exactly when all three groups are
    complete (at least 467 face landmarks, 33 pose landmarks and 21
    landmarks in every hand).  The frame then holds 450 added face
    points, 83 added body points and 40 added points per hand beside
    the landmarks, [totalPoints] is the number of points of the three
    groups, and the blendshapes are those of the face ([[]] when
    missing).  One incomplete group makes the whole call throw: no
    partial frame is returned. *)
Theorem densify_whole_frame (faceLms poseLms : list Point.t)
    (hands : list (list Point.t)) (handedness : option (list (list Category.t)))
    (blendshapes poseShapes : option (list Category.t)) (timestamp fps : option R) :
  let tr :=
    Densifier.mkTracking
      (Some (Densifier.mkLandmarks (Some faceLms) blendshapes))
      (Some (Densifier.mkLandmarks (Some poseLms) poseShapes))
      (Some (Densifier.mkHands (Some hands) handedness))
      timestamp fps in
  ((467 <= length faceLms)%nat -> (33 <= length poseLms)%nat ->
   Forall (fun hand => (21 <= length hand)%nat) hands ->
   exists dense,
     Densifier.densify Densifier.new (Some tr) = Js.Ok (Some dense) /\
     Densifier.totalPoints dense
     = ((length faceLms + 450) + (length poseLms + 83)
        + sum_list ((fun hand => length hand + 40) <$> hands))%nat /\
     Densifier.totalPoints dense
     = (length (Densifier.points (Densifier.dense_face dense))
        + length (Densifier.points (Densifier.dense_body dense))
        + length (Densifier.points (Densifier.dense_hands dense)))%nat /\
     Densifier.dense_blendshapes dense = default [] blendshapes /\
     Densifier.dense_timestamp dense = timestamp /\
     Densifier.dense_fps dense = fps) /\
  ((length faceLms < 467)%nat \/ (length poseLms < 33)%nat
   \/ (exists hand, hand ∈ hands /\ (length hand < 21)%nat) ->
   Densifier.densify Densifier.new (Some tr) = Js.TypeError).
Proof.
  cbv zeta. split.
  - intros Hface Hpose Hhands.
    destruct (densifyFace_complete faceLms Hface) as (f & Hf & Hfc & Hfn).
    destruct (densifyBody_complete poseLms Hpose) as (b & Hb & Hbc & Hbn).
    destruct (densifyHands_complete Densifier.new hands handedness Hhands)
      as (h & Hh & Hhc & Hhn).
    unfold Densifier.densify.
    cbn [Densifier.face Densifier.pose Densifier.hands Densifier.landmarks
         Densifier.blendshapes Densifier.timestamp Densifier.fps].
    rewrite Hf. cbn [mbind result_bind Js.bind].
    rewrite Hb. cbn [mbind result_bind Js.bind].
    rewrite Hh. cbn [mbind result_bind Js.bind].
    eexists. split; [reflexivity|].
    cbn [Densifier.totalPoints Densifier.dense_face Densifier.dense_body
         Densifier.dense_hands Densifier.dense_blendshapes
         Densifier.dense_timestamp Densifier.dense_fps].
    split; [now rewrite Hfn, Hbn, Hhn|].
    split; [now rewrite Hfc, Hbc, Hhc|].
    repeat split.
  - intros Hshort. unfold Densifier.densify.
    cbn [Densifier.face Densifier.pose Densifier.hands Densifier.landmarks
         Densifier.blendshapes Densifier.timestamp Densifier.fps].
    destruct Hshort as [Hface|[Hpose|(hand & Hin & Hhand)]].
    + now rewrite (densifyFace_short faceLms Hface).
    + destruct (Densifier.densifyFace Densifier.new (Some faceLms));
        [|reflexivity].
      cbn [mbind result_bind Js.bind].
      now rewrite (densifyBody_incomplete poseLms Hpose).
    + destruct (Densifier.densifyFace Densifier.new (Some faceLms));
        [|reflexivity].
      cbn [mbind result_bind Js.bind].
      destruct (Densifier.densifyBody Densifier.new (Some poseLms));
        [|reflexivity].
      cbn [mbind result_bind Js.bind].
      now rewrite (densifyHands_short Densifier.new hands handedness hand
                     Hin Hhand).
Qed.

(** A full detector frame (478 face landmarks, 33 pose landmarks, two
    hands of 21) gives 1166 points; the same frame with a hand of 15
    landmarks gives none. *)
Lemma densify_whole_frame_witness :
  let faceLms := replicate 478 (Point.raw 0.5 0.5 (Some 0) (Some 0)) in
  (exists dense,
     Densifier.densify Densifier.new
       (Some (Densifier.mkTracking
                (Some (Densifier.mkLandmarks (Some faceLms) None))
                (Some (Densifier.mkLandmarks (Some fullPose) None))
                (Some (Densifier.mkHands (Some [fullHand; fullHand]) None))
                None None))
     = Js.Ok (Some dense) /\
     Densifier.totalPoints dense = 1166%nat) /\
  Densifier.densify Densifier.new
    (Some (Densifier.mkTracking
             (Some (Densifier.mkLandmarks (Some faceLms) None))
             (Some (Densifier.mkLandmarks (Some fullPose) None))
             (Some (Densifier.mkHands (Some [fullHand; shortHand]) None))
             None None))
  = Js.TypeError.
Proof.
  cbv zeta. split.
  - destruct (proj1 (densify_whole_frame
                       (replicate 478 (Point.raw 0.5 0.5 (Some 0) (Some 0)))
                       fullPose [fullHand; fullHand] None None None None None))
      as (dense & Hd & Htotal & _).
    + rewrite length_replicate. lia.
    + simpl. lia.
    + repeat constructor; simpl; lia.
    + exists dense. split; [exact Hd|].
      rewrite Htotal, length_replicate. reflexivity.
  - apply (proj2 (densify_whole_frame
                    (replicate 478 (Point.raw 0.5 0.5 (Some 0) (Some 0)))
                    fullPose [fullHand; shortHand] None None None None None)).
    right. right. exists shortHand. split; [right; left|simpl; lia].
Defined.

End DensifierWholeFrame.

(* ================================================================== *)
(** * From the Densifier to the Stabilizer *)
(* ================================================================== *)

Section TwoHands.
Local Open Scope R_scope.
Import Props.

(** X28.  In the dense hand group of a frame with two hands, landmark
    [i] of the first hand (at array position [i]) and landmark [i] of
    the second hand (at position [length h1 + 40 + i], behind the first
    hand's landmarks and its 40 added points) carry the same
    [originalIndex], so [stabilizePoints] gives both the identifier
    [hand_i]: the two hands share one filter per landmark. *)
Theorem two_hands_share_identifiers (d : Densifier.t) (h1 h2 : list Point.t)
    (handedness : option (list (list Category.t))) (i : nat) (lm1 lm2 : Point.t) :
  (21 <= length h1)%nat -> (21 <= length h2)%nat ->
  h1 !! i = Some lm1 -> h2 !! i = Some lm2 ->
  exists g p q,
    Densifier.densifyHands d
      (Some (Densifier.mkHands (Some [h1; h2]) handedness)) = Js.Ok g /\
    Densifier.points g !! i = Some p /\
    Densifier.points g !! (length h1 + 40 + i)%nat = Some q /\
    Point.handIndex p = Some 0%nat /\
    Point.handIndex q = Some 1%nat /\
    Point.x p = Point.x lm1 /\ Point.y p = Point.y lm1 /\
    Point.x q = Point.x lm2 /\ Point.y q = Point.y lm2 /\
    Stabilizer.pointId "hand_" p i = "hand_" +:+ pretty i /\
    Stabilizer.pointId "hand_" q (length h1 + 40 + i) = "hand_" +:+ pretty i.
Proof.
  intros H1 H2 Hi1 Hi2.
  unfold Densifier.densifyHands.
  cbn [Densifier.hands_landmarks imap Densifier.pushEach compose].
  set (hd := Densifier.mkHands (Some [h1; h2]) handedness).
  destruct (fingers_present h1 0 ("hand_" +:+ Densifier.handednessOf hd 0) H1)
    as (f1 & Hf1 & L1).
  destruct (fingers_present h2 1 ("hand_" +:+ Densifier.handednessOf hd 1) H2)
    as (f2 & Hf2 & L2).
  rewrite Hf1. cbn [mbind result_bind Js.bind].
  rewrite Hf2. cbn [mbind result_bind Js.bind].
  pose proof (lookup_lt_Some _ _ _ Hi1) as Hlt1.
  eexists. exists (Point.with_handIndex 0
                     (Densifier.original
                        ("hand_" +:+ Densifier.handednessOf hd 0) i lm1)).
  exists (Point.with_handIndex 1
            (Densifier.original
               ("hand_" +:+ Densifier.handednessOf hd 1) i lm2)).
  split; [reflexivity|]. cbn [Densifier.points].
  split.
  { rewrite lookup_app_l by (rewrite length_app, length_imap; lia).
    rewrite lookup_app_l by (rewrite length_imap; lia).
    rewrite list_lookup_imap, Hi1. reflexivity. }
  split.
  { rewrite lookup_app_r by (rewrite length_app, length_imap; lia).
    rewrite length_app, length_imap, L1.
    replace (length h1 + 40 + i - (length h1 + 40))%nat with i by lia.
    pose proof (lookup_lt_Some _ _ _ Hi2) as Hlt2.
    rewrite lookup_app_l by (rewrite length_app, length_imap; lia).
    rewrite lookup_app_l by (rewrite length_imap; lia).
    rewrite list_lookup_imap, Hi2. reflexivity. }
  repeat split.
Qed.

(** Two complete hands: landmark 5 of each is filtered as [hand_5]. *)
Lemma two_hands_share_identifiers_witness :
  exists g p q,
    Densifier.densifyHands Densifier.new
      (Some (Densifier.mkHands (Some [fullHand; fullHand]) None)) = Js.Ok g /\
    Densifier.points g !! 5%nat = Some p /\
    Densifier.points g !! 66%nat = Some q /\
    Stabilizer.pointId "hand_" p 5 = Stabilizer.pointId "hand_" q 66.
Proof.
  destruct (fullHand !! 5%nat) as [lm|] eqn:Hlm; [|discriminate Hlm].
  destruct (two_hands_share_identifiers Densifier.new fullHand fullHand None 5
              lm lm)
    as (g & p & q & Hg & Hp & Hq & _ & _ & _ & _ & _ & _ & Hidp & Hidq).
  - simpl. lia.
  - simpl. lia.
  - exact Hlm.
  - exact Hlm.
  - exists g, p, q. split; [exact Hg|]. split; [exact Hp|].
    split; [exact Hq|]. rewrite Hidp. symmetry. exact Hidq.
Defined.

End TwoHands.
